(** * marcfinder: the lookup and ranking engine of [marc_cli/main.py]

    A shallow embedding of the query classifier, the code matcher, the
    keyword matcher, the two renderers and the command-line driver, followed
    by the properties stated about them.

    Python strings are sequences of code points.  They are embedded as
    [string], each [ascii] standing for the code point of the same number
    (U+0000 to U+00FF); on that range [str.lower], [str.isdigit],
    [str.isalpha], [str.isspace] and the comparison of strings are the
    tables and the order CPython uses. *)

From Stdlib Require Import Bool Arith NArith Lia List Ascii String.
From Stdlib Require Import Permutation Sorted DecimalString.
Import ListNotations.

Local Open Scope list_scope.
Local Open Scope string_scope.

(** ** Python's [str] *)

Module PyStr.

Definition code (c : ascii) : N := N_of_ascii c.

Definition in_range (lo hi : N) (c : ascii) : bool :=
  (lo <=? code c)%N && (code c <=? hi)%N.

Definition is_code (n : N) (c : ascii) : bool := (code c =? n)%N.

(** The ten decimal digits [0] to [9]. *)
Definition is_decimal_digit (c : ascii) : bool := in_range 48 57 c.

(** [c.isdigit()]: the decimal digits and the superscripts two, three and
    one (U+00B2, U+00B3, U+00B9). *)
Definition isdigit_char (c : ascii) : bool :=
  is_decimal_digit c || is_code 178 c || is_code 179 c || is_code 185 c.

(** [c.isalpha()]: the letters of the general category L. *)
Definition isalpha_char (c : ascii) : bool :=
  in_range 65 90 c || in_range 97 122 c
  || is_code 170 c || is_code 181 c || is_code 186 c
  || in_range 192 214 c || in_range 216 246 c || in_range 248 255 c.

(** [c.isspace()]. *)
Definition isspace_char (c : ascii) : bool :=
  in_range 9 13 c || in_range 28 32 c || is_code 133 c || is_code 160 c.

(** [c.lower()]: the upper-case letters move up by 32. *)
Definition lower_char (c : ascii) : ascii :=
  if in_range 65 90 c || in_range 192 214 c || in_range 216 222 c
  then ascii_of_N (code c + 32)
  else c.

Fixpoint lower (s : string) : string :=
  match s with
  | EmptyString => EmptyString
  | String c s' => String (lower_char c) (lower s')
  end.

(** [s.isdigit()]: at least one character, and all of them digits. *)
Fixpoint all_digits (s : string) : bool :=
  match s with
  | EmptyString => true
  | String c s' => isdigit_char c && all_digits s'
  end.

Definition isdigit (s : string) : bool :=
  match s with
  | EmptyString => false
  | _ => all_digits s
  end.

(** [s.startswith(p)]. *)
Fixpoint startswith (s p : string) {struct p} : bool :=
  match p, s with
  | EmptyString, _ => true
  | String _ _, EmptyString => false
  | String a p', String b s' => Ascii.eqb a b && startswith s' p'
  end.

(** [needle in hay] on strings. *)
Fixpoint contains (needle hay : string) : bool :=
  startswith hay needle
  || match hay with
     | EmptyString => false
     | String _ hay' => contains needle hay'
     end.

(** [s[:n]] and [s[n:]] for [0 <= n]. *)
Fixpoint take (n : nat) (s : string) : string :=
  match n, s with
  | S n', String c s' => String c (take n' s')
  | _, _ => EmptyString
  end.

Fixpoint drop (n : nat) (s : string) : string :=
  match n, s with
  | S n', String _ s' => drop n' s'
  | _, _ => s
  end.

(** [s[:-n]] for [0 < n]: everything but the last [n] characters, and the
    empty string when there are fewer than [n]. *)
Definition drop_last (n : nat) (s : string) : string :=
  take (String.length s - n) s.

(** [s.endswith(suffix)]. *)
Definition endswith (s suffix : string) : bool :=
  (String.length suffix <=? String.length s)%nat
  && String.eqb (drop (String.length s - String.length suffix) s) suffix.

(** [s.replace(old, new)] for one-character [old] and [new]. *)
Fixpoint replace (old new : ascii) (s : string) : string :=
  match s with
  | EmptyString => EmptyString
  | String c s' =>
      String (if Ascii.eqb c old then new else c) (replace old new s')
  end.

Fixpoint lstrip (s : string) : string :=
  match s with
  | EmptyString => EmptyString
  | String c s' => if isspace_char c then lstrip s' else s
  end.

Fixpoint rstrip (s : string) : string :=
  match s with
  | EmptyString => EmptyString
  | String c s' =>
      match rstrip s' with
      | EmptyString => if isspace_char c then EmptyString else String c EmptyString
      | r => String c r
      end
  end.

(** [s.strip()]: white space removed at both ends. *)
Definition strip (s : string) : string := rstrip (lstrip s).

(** [s.split()]: the maximal runs of characters that are not white space.
    [word] is the run being read. *)
Fixpoint split_from (word s : string) : list string :=
  match s with
  | EmptyString =>
      match word with EmptyString => [] | _ => [word] end
  | String c s' =>
      if isspace_char c then
        match word with
        | EmptyString => split_from EmptyString s'
        | _ => word :: split_from EmptyString s'
        end
      else split_from (word ++ String c EmptyString) s'
  end.

Definition split (s : string) : list string := split_from EmptyString s.

(** [sep.join(parts)]. *)
Definition join (sep : string) (parts : list string) : string :=
  String.concat sep parts.

(** [s * n]. *)
Fixpoint repeat (s : string) (n : nat) : string :=
  match n with
  | O => EmptyString
  | S n' => s ++ repeat s n'
  end.

(** [x in xs] for a list of strings. *)
Definition mem (x : string) (xs : list string) : bool :=
  existsb (String.eqb x) xs.

(** [str(n)] for a natural number. *)
Definition of_nat (n : nat) : string :=
  NilEmpty.string_of_uint (Nat.to_uint n).

Definition nl : string := String (ascii_of_nat 10) EmptyString.

End PyStr.

(** ** Python's ordering of tuples and [list.sort] *)

Module PySort.

(** Tuples are compared component by component, the first difference
    deciding. *)
Definition lex {A B : Type}
    (cA : A -> A -> comparison) (cB : B -> B -> comparison)
    (x y : A * B) : comparison :=
  match cA (fst x) (fst y) with
  | Eq => cB (snd x) (snd y)
  | c => c
  end.

(** [x <= y] for a three-way comparison. *)
Definition le_of {A : Type} (c : A -> A -> comparison) (x y : A) : bool :=
  match c x y with
  | Gt => false
  | _ => true
  end.

(** [list.sort(key=...)] is stable: elements with equal keys keep their
    order.  Every stable sort returns the same list, so it is embedded as
    an insertion sort that puts an element in front of the first element
    that is not smaller. *)
Fixpoint insert_by {A K : Type} (c : K -> K -> comparison) (key : A -> K)
    (x : A) (l : list A) : list A :=
  match l with
  | [] => [x]
  | y :: l' =>
      if le_of c (key x) (key y) then x :: l else y :: insert_by c key x l'
  end.

Fixpoint sort_by {A K : Type} (c : K -> K -> comparison) (key : A -> K)
    (l : list A) : list A :=
  match l with
  | [] => []
  | x :: l' => insert_by c key x (sort_by c key l')
  end.

End PySort.

(** ** Exceptions and results *)

Inductive PyExc : Type :=
| IndexError.

Inductive Result (A : Type) : Type :=
| Ok (a : A)
| Raise (e : PyExc).

Arguments Ok {A} a.
Arguments Raise {A} e.

(** The key function is called on every element, in order, before anything
    is compared; the first exception it raises leaves the sort. *)
Fixpoint compute_keys {A K : Type} (key : A -> Result K) (l : list A)
    : Result (list K) :=
  match l with
  | [] => Ok []
  | x :: l' =>
      match key x with
      | Raise e => Raise e
      | Ok k =>
          match compute_keys key l' with
          | Raise e => Raise e
          | Ok ks => Ok (k :: ks)
          end
      end
  end.

Definition sort_with_key {A K : Type} (c : K -> K -> comparison)
    (key : A -> Result K) (l : list A) : Result (list A) :=
  match compute_keys key l with
  | Raise e => Raise e
  | Ok ks => Ok (map snd (PySort.sort_by c fst (combine ks l)))
  end.

(** ** Data model *)

(** One entry of [Details["subfields"]]. *)
Record SubfieldInfo : Type := {
  description : string;
  extended : string;
  repeatability : string
}.

(** [entry["Details"]]: the mappings are Python dictionaries, kept as
    association lists in insertion order. *)
Record DetailsT : Type := {
  definition : string;
  indicators : list (string * list string);
  subfields : list (string * SubfieldInfo);
  examples : list string
}.

(** A record of [marc.json] or [marc-verbose.json]; [Details] is [None]
    when the record has no ["Details"] key. *)
Record Entry : Type := {
  Key : string;
  Value : string;
  Created : string;
  Details : option DetailsT
}.

Definition Item : Type := string * Entry.

(** The loaded dictionary, iterated by [data.items()] in insertion order. *)
Definition Dataset : Type := list Item.

(** ** Query classifier *)

(** [query and query[0].isdigit()], read as a truth value: the empty string
    is returned as it is, and is falsy. *)
Definition is_code_query (query : string) : bool :=
  match query with
  | EmptyString => false
  | String c _ => PyStr.isdigit_char c
  end.

(** ** Code matcher *)

Definition code_cmp : nat * string -> nat * string -> comparison :=
  PySort.lex Nat.compare String.compare.

(** [sort_key] of [search_by_code]; [key[3]] raises when there is no
    character at index 3. *)
Definition sort_key (item : Item) : Result (nat * string) :=
  let key := fst item in
  if Nat.eqb (String.length key) 3 then Ok (0, key)
  else
    match String.get 3 key with
    | None => Raise IndexError
    | Some subfield_char =>
        if PyStr.isalpha_char subfield_char then Ok (1, key) else Ok (2, key)
    end.

Definition code_matches (data : Dataset) (code : string) : list Item :=
  let code_lower := PyStr.lower code in
  filter (fun item => PyStr.startswith (PyStr.lower (fst item)) code_lower) data.

Definition search_by_code (data : Dataset) (code : string) : Result (list Item) :=
  sort_with_key code_cmp sort_key (code_matches data code).

(** ** Keyword matcher *)

Definition words_of (value_lower : string) : list string :=
  PyStr.split
    (PyStr.replace ")" " "
       (PyStr.replace "(" " "
          (PyStr.replace "," " "
             (PyStr.replace "/" " "
                (PyStr.replace "-" " " value_lower))))).

(** The loop of [search_by_keyword]: the triples appended to [matches]. *)
Fixpoint keyword_matches (data : Dataset) (keyword_lower : string)
    : list (string * Entry * bool) :=
  match data with
  | [] => []
  | (key, entry) :: data' =>
      let value_lower := PyStr.lower (Value entry) in
      let words := words_of value_lower in
      let is_exact := PyStr.mem keyword_lower words in
      if PyStr.contains keyword_lower value_lower
      then (key, entry, is_exact) :: keyword_matches data' keyword_lower
      else keyword_matches data' keyword_lower
  end.

Definition KeywordKey : Type := bool * bool * nat * string.

Definition keyword_cmp : KeywordKey -> KeywordKey -> comparison :=
  PySort.lex (PySort.lex (PySort.lex Bool.compare Bool.compare) Nat.compare)
    String.compare.

(** [lambda x: (not x[2], len(x[0]) > 3, len(x[0]), x[0])]. *)
Definition keyword_sort_key (x : string * Entry * bool) : KeywordKey :=
  let '(key, _, is_exact) := x in
  (negb is_exact, Nat.ltb 3 (String.length key), String.length key, key).

Definition search_by_keyword (data : Dataset) (keyword : string) : list Item :=
  let keyword_lower := PyStr.lower keyword in
  let matches := keyword_matches data keyword_lower in
  map (fun x => let '(k, e, _) := x in (k, e))
      (PySort.sort_by keyword_cmp keyword_sort_key matches).

(** ** Presentation *)

(** The escape sequences of colorama. *)
Module Fore.
Definition esc : string := String (ascii_of_nat 27) "[".
Definition RED : string := esc ++ "31m".
Definition GREEN : string := esc ++ "32m".
Definition YELLOW : string := esc ++ "33m".
Definition BLUE : string := esc ++ "34m".
Definition MAGENTA : string := esc ++ "35m".
Definition CYAN : string := esc ++ "36m".
Definition WHITE : string := esc ++ "37m".
End Fore.

Module Style.
Definition BRIGHT : string := Fore.esc ++ "1m".
Definition DIM : string := Fore.esc ++ "2m".
Definition RESET_ALL : string := Fore.esc ++ "0m".
End Style.

(** The last statements of [format_output] before its [return]: the
    description to display and the repeatability badge. *)
Definition extract_repeatability (value : string) : string * string :=
  if PyStr.endswith value "(R)" then
    (PyStr.strip (PyStr.drop_last 3 value), Fore.GREEN ++ "(R)" ++ Style.RESET_ALL)
  else if PyStr.endswith value "(NR)" then
    (PyStr.strip (PyStr.drop_last 4 value), Fore.YELLOW ++ "(NR)" ++ Style.RESET_ALL)
  else (value, "").

(** The key as displayed and the spacing after it; a subfield key is shown
    as its field part, a dollar sign and the rest. *)
Definition display_key_and_spacing (key : string) : string * string :=
  let is_field := Nat.eqb (String.length key) 3 in
  if is_field then (Fore.CYAN ++ Style.BRIGHT ++ key, "    ")
  else
    let field_part := Fore.BLUE ++ PyStr.take 3 key in
    let subfield_part := Fore.MAGENTA ++ "$" ++ PyStr.drop 3 key in
    (field_part ++ subfield_part, "  ").

Definition format_output (key value : string) : string :=
  let '(display_key, spacing) := display_key_and_spacing key in
  let '(value', repeatability) := extract_repeatability value in
  display_key ++ Style.RESET_ALL ++ spacing ++ value' ++ " " ++ repeatability.

(** A string or a list is truthy when it is not empty. *)
Definition truthy_str (s : string) : bool :=
  match s with EmptyString => false | _ => true end.

Definition truthy_list {A : Type} (l : list A) : bool :=
  match l with [] => false | _ => true end.

Definition header_lines (key : string) (entry : Entry) : list string :=
  let rule := PyStr.repeat "=" 70 in
  [ PyStr.nl ++ Fore.CYAN ++ Style.BRIGHT ++ rule;
    Fore.CYAN ++ Style.BRIGHT ++ key ++ " - " ++ Value entry;
    Fore.CYAN ++ Style.BRIGHT ++ rule ++ Style.RESET_ALL ++ PyStr.nl ].

Definition definition_lines (details : DetailsT) : list string :=
  if truthy_str (definition details) then
    [ Fore.YELLOW ++ Style.BRIGHT ++ "Definition:" ++ Style.RESET_ALL;
      "  " ++ definition details ++ PyStr.nl ]
  else [].

Definition indicator_lines (details : DetailsT) : list string :=
  if truthy_list (indicators details) then
    ((Fore.YELLOW ++ Style.BRIGHT ++ "Indicators:" ++ Style.RESET_ALL)
     :: flat_map
          (fun iv : string * list string =>
             ("  " ++ Fore.MAGENTA ++ fst iv ++ Style.RESET_ALL)
             :: map (fun value => "    " ++ value) (snd iv))
          (indicators details))
    ++ [""]
  else [].

Definition subfield_cmp : bool * string -> bool * string -> comparison :=
  PySort.lex Bool.compare String.compare.

(** [lambda x: (x[0].isdigit(), x[0])]. *)
Definition subfield_sort_key (x : string * SubfieldInfo) : bool * string :=
  (PyStr.isdigit (fst x), fst x).

Definition subfield_line (x : string * SubfieldInfo) : list string :=
  let '(subfield_code, subfield_info) := x in
  let repeat_color :=
    if String.eqb (repeatability subfield_info) "R" then Fore.GREEN else Fore.YELLOW in
  ("  " ++ Fore.MAGENTA ++ "$" ++ subfield_code ++ Style.RESET_ALL ++ " - "
   ++ description subfield_info ++ " " ++ repeat_color ++ "("
   ++ repeatability subfield_info ++ ")" ++ Style.RESET_ALL)
  :: (if truthy_str (extended subfield_info) then
        [ "      " ++ Fore.WHITE ++ Style.DIM ++ extended subfield_info
          ++ Style.RESET_ALL ]
      else []).

Definition subfield_lines (details : DetailsT) : list string :=
  if truthy_list (subfields details) then
    let subfield_items :=
      PySort.sort_by subfield_cmp subfield_sort_key (subfields details) in
    ((Fore.YELLOW ++ Style.BRIGHT ++ "Subfields:" ++ Style.RESET_ALL)
     :: flat_map subfield_line subfield_items)
    ++ [""]
  else [].

Definition example_line (i : nat) (example : string) : string :=
  "  " ++ Fore.GREEN ++ PyStr.of_nat i ++ "." ++ Style.RESET_ALL ++ " " ++ example.

(** [for i, example in enumerate(xs, start)]. *)
Fixpoint enumerate_from {A : Type} (start : nat) (xs : list A) : list (nat * A) :=
  match xs with
  | [] => []
  | x :: xs' => (start, x) :: enumerate_from (S start) xs'
  end.

(** The lines appended by the loop over [details["examples"][:5]]. *)
Definition numbered_examples (details : DetailsT) : list string :=
  map (fun ie : nat * string => example_line (fst ie) (snd ie))
    (enumerate_from 1 (firstn 5 (examples details))).

Definition examples_heading : string :=
  Fore.YELLOW ++ Style.BRIGHT ++ "Examples:" ++ Style.RESET_ALL.

Definition example_lines (details : DetailsT) : list string :=
  if truthy_list (examples details) then
    (examples_heading :: numbered_examples details) ++ [""]
  else [].

(** The list [output] of [format_verbose_output] when the detailed branch
    is taken. *)
Definition verbose_lines (key : string) (entry : Entry) (details : DetailsT)
    : list string :=
  header_lines key entry
  ++ definition_lines details
  ++ indicator_lines details
  ++ subfield_lines details
  ++ example_lines details.

Definition format_verbose_output (key : string) (entry : Entry) : string :=
  match Details entry with
  | Some details =>
      if negb (Nat.eqb (String.length key) 3) then format_output key (Value entry)
      else PyStr.join PyStr.nl (verbose_lines key entry details)
  | None => format_output key (Value entry)
  end.

(** ** The process: files read, lines printed, how it ends *)

(** [marc_json] and [marc_verbose_json] are the parsed contents of the two
    data files, [None] when the file does not exist; [stdout] holds the
    argument of every [print] so far, oldest first. *)
Record World : Type := {
  parent_dir : string;
  marc_json : option Dataset;
  marc_verbose_json : option Dataset;
  stdout : list string
}.

Inductive Outcome : Type :=
| Finished
| SysExit (status : nat)
| Uncaught (e : PyExc).

Definition print (text : string) (w : World) : World :=
  {| parent_dir := parent_dir w;
     marc_json := marc_json w;
     marc_verbose_json := marc_verbose_json w;
     stdout := (stdout w ++ [text])%list |}.

Definition print_all (texts : list string) (w : World) : World :=
  fold_left (fun w' text => print text w') texts w.

(** The texts [display_results] prints, in order. *)
Definition display_texts (matches : list Item) (verbose : bool) : list string :=
  match matches with
  | [] => [Fore.YELLOW ++ "No matches found."]
  | _ =>
      if verbose then
        flat_map
          (fun item : Item =>
             if Nat.eqb (String.length (fst item)) 3
             then [format_verbose_output (fst item) (snd item)]
             else [])
          matches
      else map (fun item : Item => format_output (fst item) (Value (snd item))) matches
  end.

Definition display_results (matches : list Item) (verbose : bool) (w : World) : World :=
  print_all (display_texts matches verbose) w.

(** [load_marc_data] and [load_verbose_data]: the parsed file, or [None]
    after the two lines of diagnostics, when [sys.exit(1)] is called. *)
Definition load_marc_data (w : World) : option Dataset * World :=
  match marc_json w with
  | Some data => (Some data, w)
  | None =>
      let data_file := parent_dir w ++ "/marc.json" in
      (None,
       print (Fore.YELLOW ++ "Run 'python scrape_marc.py' to generate the data file.")
         (print (Fore.RED ++ "Error: marc.json not found at " ++ data_file) w))
  end.

Definition load_verbose_data (w : World) : option Dataset * World :=
  match marc_verbose_json w with
  | Some data => (Some data, w)
  | None =>
      let data_file := parent_dir w ++ "/marc-verbose.json" in
      (None,
       print (Fore.YELLOW
              ++ "Run 'python scrape_marc.py' to generate the verbose data file.")
         (print (Fore.RED ++ "Error: marc-verbose.json not found at " ++ data_file) w))
  end.

Definition verbose_notice : string :=
  Fore.YELLOW ++ "Note: Verbose mode is not available for keyword searches."
  ++ PyStr.nl.

Definition found_notice (n : nat) : string :=
  Fore.GREEN ++ "Found " ++ PyStr.of_nat n ++ " matches:" ++ PyStr.nl.

Definition no_keyword_match_notice (query : string) : string :=
  Fore.YELLOW ++ "No fields found matching keyword: " ++ Fore.WHITE ++ query.

(** [main], after the arguments are parsed into [query] and [verbose]. *)
Definition main (query : string) (verbose : bool) (w : World) : World * Outcome :=
  let '(loaded, w1) := if verbose then load_verbose_data w else load_marc_data w in
  match loaded with
  | None => (w1, SysExit 1)
  | Some data =>
      if is_code_query query then
        match search_by_code data query with
        | Raise e => (w1, Uncaught e)
        | Ok matches =>
            if truthy_list matches
            then (display_results matches verbose w1, Finished)
            else (print (Fore.YELLOW ++ "No field found matching code: "
                         ++ Fore.WHITE ++ query) w1, Finished)
        end
      else
        let w2 := if verbose then print verbose_notice w1 else w1 in
        let matches := search_by_keyword data query in
        if truthy_list matches then
          let w3 :=
            if Nat.ltb 1 (List.length matches)
            then print (found_notice (List.length matches)) w2
            else w2 in
          (display_results matches false w3, Finished)
        else (print (no_keyword_match_notice query) w2, Finished)
  end.

(** ** Vocabulary of the properties *)

(** A three-way comparison of a strict total order. *)
Record strict_cmp {A : Type} (c : A -> A -> comparison) : Prop := {
  cmp_antisym : forall x y, c x y = CompOpp (c y x);
  cmp_eq : forall x y, c x y = Eq -> x = y;
  cmp_lt_trans : forall x y z, c x y = Lt -> c y z = Lt -> c x z = Lt
}.

(** [a] occurs in [l] somewhere before [b]. *)
Definition precedes {A : Type} (a b : A) (l : list A) : Prop :=
  exists l1 l2 l3, l = (l1 ++ a :: l2 ++ b :: l3)%list.

(** [key] starts with [query] when case is ignored: a prefix of [key] and
    [query] have the same lower-case form. *)
Definition starts_with_ci (key query : string) : Prop :=
  exists k1 k2, key = k1 ++ k2 /\ PyStr.lower k1 = PyStr.lower query.

(** [needle] occurs in [hay]. *)
Definition is_substring (needle hay : string) : Prop :=
  exists pre post, hay = pre ++ needle ++ post.

(** The data-model invariant the matchers rely on: no key is shorter than a
    field code. *)
Definition keys_at_least_3 (data : Dataset) : Prop :=
  Forall (fun item : Item => 3 <= String.length (fst item)) data.

(** Keys are unique, as in every dictionary. *)
Definition unique_keys (data : list Item) : Prop := NoDup (map fst data).

(** The group of a key in the code matcher's order. *)
Definition code_group (key : string) : nat :=
  if Nat.eqb (String.length key) 3 then 0
  else
    match String.get 3 key with
    | Some c => if PyStr.isalpha_char c then 1 else 2
    | None => 2
    end.

Definition code_rank (item : Item) : nat * string :=
  (code_group (fst item), fst item).

(** [a] may stand before [b] in the output of the code matcher. *)
Definition code_le (a b : Item) : Prop :=
  code_group (fst a) < code_group (fst b)
  \/ (code_group (fst a) = code_group (fst b)
      /\ String.leb (fst a) (fst b) = true).

(** The exactness flag of the keyword matcher, for a query and a record. *)
Definition is_exact (keyword : string) (entry : Entry) : bool :=
  PyStr.mem (PyStr.lower keyword) (words_of (PyStr.lower (Value entry))).

Definition keyword_hit (keyword_lower : string) (item : Item) : bool :=
  PyStr.contains keyword_lower (PyStr.lower (Value (snd item))).

Definition keyword_rank (keyword : string) (item : Item) : KeywordKey :=
  (negb (is_exact keyword (snd item)),
   Nat.ltb 3 (String.length (fst item)),
   String.length (fst item),
   fst item).

Definition bool_lt (x y : bool) : Prop := x = false /\ y = true.

(** [a] may stand before [b] in the output of the keyword matcher: exact
    before partial, then fields before subfields, then shorter keys, then
    the keys in lexicographic order. *)
Definition keyword_le (keyword : string) (a b : Item) : Prop :=
  let na := negb (is_exact keyword (snd a)) in
  let nb := negb (is_exact keyword (snd b)) in
  let sa := Nat.ltb 3 (String.length (fst a)) in
  let sb := Nat.ltb 3 (String.length (fst b)) in
  let la := String.length (fst a) in
  let lb := String.length (fst b) in
  bool_lt na nb
  \/ (na = nb
      /\ (bool_lt sa sb
          \/ (sa = sb
              /\ (la < lb
                  \/ (la = lb /\ String.leb (fst a) (fst b) = true))))).

(** The same order with the length of the description as third component. *)
Definition keyword_le_by_description (keyword : string) (a b : Item) : Prop :=
  let na := negb (is_exact keyword (snd a)) in
  let nb := negb (is_exact keyword (snd b)) in
  let sa := Nat.ltb 3 (String.length (fst a)) in
  let sb := Nat.ltb 3 (String.length (fst b)) in
  let la := String.length (Value (snd a)) in
  let lb := String.length (Value (snd b)) in
  bool_lt na nb
  \/ (na = nb
      /\ (bool_lt sa sb
          \/ (sa = sb
              /\ (la < lb
                  \/ (la = lb /\ String.leb (fst a) (fst b) = true))))).

(** The delimiters [- / , ( )] become spaces, all at once. *)
Definition is_delimiter (c : ascii) : bool :=
  Ascii.eqb c "-" || Ascii.eqb c "/" || Ascii.eqb c "," || Ascii.eqb c "("
  || Ascii.eqb c ")".

Fixpoint delimiters_to_spaces (s : string) : string :=
  match s with
  | EmptyString => EmptyString
  | String c s' =>
      String (if is_delimiter c then " "%char else c) (delimiters_to_spaces s')
  end.

(** ** Sample records *)

Definition record (key value : string) : Entry :=
  {| Key := key; Value := value; Created := "2024-01-01"; Details := None |}.

Definition item (key value : string) : Item := (key, record key value).

Definition isbn_number : string := "International Standard Book Number (ISBN) (NR)".

Definition isbn_note : string := "ISBN-related note (R)".

(** The superscript two, U+00B2. *)
Definition superscript_two : ascii := ascii_of_nat 178.

Definition isbn_dataset : Dataset :=
  [ item "0206" "Linkage (NR)";
    item "020a" "International Standard Book Number (NR)";
    item "022" "International Standard Serial Number (R)";
    item "020" "International Standard Book Number (ISBN) (R)" ].

Definition title_details : DetailsT :=
  {| definition := "Title and statement of responsibility area of the record.";
     indicators := [("First - Title added entry", ["0 - No added entry"; "1 - Added entry"])];
     subfields :=
       [ ("6", {| description := "Linkage"; extended := ""; repeatability := "NR" |});
         ("a", {| description := "Title"; extended := ""; repeatability := "NR" |}) ];
     examples := ["e1"; "e2"; "e3"; "e4"; "e5"; "e6"; "e7"] |}.

Definition title_entry : Entry :=
  {| Key := "245"; Value := "Title Statement (NR)"; Created := "2024-01-01";
     Details := Some title_details |}.

(** A process whose two data files hold the sample dataset. *)
Definition sample_world : World :=
  {| parent_dir := "/opt/marc";
     marc_json := Some isbn_dataset;
     marc_verbose_json := Some isbn_dataset;
     stdout := [] |}.

(** ** Vocabulary of the further properties *)

(** Every character of [s] satisfies [p]. *)
Fixpoint all_chars (p : ascii -> bool) (s : string) : bool :=
  match s with
  | EmptyString => true
  | String c s' => p c && all_chars p s'
  end.

(** A character that can stand inside a token of [words_of]: neither white
    space nor one of the delimiters. *)
Definition is_word_char (c : ascii) : bool :=
  negb (PyStr.isspace_char c) && negb (is_delimiter c).



(** The text [display_results] prints for an empty list of matches. *)
Definition no_matches_text : string := Fore.YELLOW ++ "No matches found.".

(** The text [main] prints when no key starts with the code. *)
Definition no_code_match_notice (query : string) : string :=
  Fore.YELLOW ++ "No field found matching code: " ++ Fore.WHITE ++ query.

(** ** The scraper, [scrape_marc.py] *)

(** What the scraper takes from outside is kept abstract in a [Web]: the
    parsed pages, the state of the network and of the clock, [urljoin], the
    request made by [fetch_page], and the three extractions that read a
    parsed page with regular expressions and BeautifulSoup.  An extraction
    that raises gives the text of its exception.  Operations on the disk are
    taken to succeed. *)

Module Scraper.

Definition BASE_URL : string := "https://www.loc.gov/marc/bibliographic/".

Definition FIELD_RANGE_PAGES : list string :=
  [ "bd00x.html"; "bd01x09x.html"; "bd1xx.html"; "bd20x24x.html";
    "bd25x28x.html"; "bd3xx.html"; "bd4xx.html"; "bd5xx.html"; "bd6xx.html";
    "bd70x75x.html"; "bd80x83x.html"; "bd84188x.html" ].

Definition LINKING_ENTRY_FIELDS : list (string * string * string) :=
  [ ("760", "Main Series Entry", "R");
    ("762", "Subseries Entry", "R");
    ("765", "Original Language Entry", "R");
    ("767", "Translation Entry", "R");
    ("770", "Supplement/Special Issue Entry", "R");
    ("772", "Supplement Parent Entry", "R");
    ("773", "Host Item Entry", "R");
    ("774", "Constituent Unit Entry", "R");
    ("775", "Other Edition Entry", "R");
    ("776", "Additional Physical Form Entry", "R");
    ("777", "Issued With Entry", "R");
    ("780", "Preceding Entry", "R");
    ("785", "Succeeding Entry", "R");
    ("786", "Data Source Entry", "R");
    ("787", "Other Relationship Entry", "R");
    ("788", "Parallel Description in Another Language of Cataloging", "R") ].

(** [FIELD_222_MANUAL["Details"]]; the capital and the small o with
    diaeresis are U+00D6 and U+00F6. *)
Definition FIELD_222_DETAILS : DetailsT :=
  {| definition :=
       "Unique title for a continuing resource that is assigned in conjunction with an ISSN recorded in field 022 by national centers under the auspices of the ISSN Network.";
     indicators :=
       [ ("First - Undefined", ["# - Undefined"]);
         ("Second - Nonfiling characters",
          ["0 - No nonfiling characters"; "1-9 - Number of nonfiling characters"]) ];
     subfields :=
       [ ("a", {| description := "Key title"; extended := "";
                  repeatability := "NR" |});
         ("b", {| description := "Qualifying information";
                  extended :=
                    "Parenthetical information that qualifies the title to make it unique.";
                  repeatability := "NR" |});
         ("6", {| description := "Linkage";
                  extended :=
                    "See description of this subfield in Appendix A: Control Subfields.";
                  repeatability := "NR" |});
         ("8", {| description := "Field link and sequence number";
                  extended :=
                    "See description of this subfield in Appendix A: Control Subfields.";
                  repeatability := "R" |}) ];
     examples :=
       [ "#0$aViva$b(New York)";
         "#0$aCauses of death";
         "#4$aDer " ++ String (ascii_of_nat 214) "ffentliche Dienst$b(K"
         ++ String (ascii_of_nat 246) "ln)";
         "#0$aJournal of polymer science. Part B. Polymer letters";
         "#0$aEconomic education bulletin$b(Great Barrington)" ] |}.

(** [FIELD_222_MANUAL.copy()] with its ["Created"] set. *)
Definition field_222 (timestamp : string) : Entry :=
  {| Key := "222"; Value := "Key Title (R)"; Created := timestamp;
     Details := Some FIELD_222_DETAILS |}.

(** An exception with the text [str(e)]: an [HTTPError] raised by
    [raise_for_status], with the status of the response, or any other
    exception. *)
Inductive Exc : Type :=
| HTTPError (status_code : nat) (text : string)
| OtherError (text : string).

(** The two data files the scraper writes. *)
Inductive DataFile : Type :=
| VerboseFile
| SimpleFile.

(** The world outside the program.  A request yields a parsed page or
    raises; the parsers of a page yield their result or the text of the
    exception they raise.  [copy2_fault] and [dump_fault] say whether
    [shutil.copy2] of a data file to its backup, and [open] with
    [json.dump] on a data file, raise: [None] when the call succeeds,
    otherwise the text of the exception and what the file written to holds
    afterwards. *)
Record Web : Type := {
  Soup : Type;
  Net : Type;
  urljoin : string -> string -> string;
  get : string -> Net -> (Soup + Exc) * Net;
  now : Net -> string;
  field_links : Soup -> list (string * string * string);
  detailed_info : Soup -> DetailsT + string;
  concise_subfields : Soup -> list (string * string * string) + string;
  copy2_fault : DataFile -> Net -> option (string * option Dataset);
  dump_fault : DataFile -> Net -> option (string * option Dataset)
}.

(** The four files in the directory of the script, [None] for a file that
    does not exist. *)
Record Disk : Type := {
  script_dir : string;
  verbose_file : option Dataset;
  simple_file : option Dataset;
  verbose_backup : option Dataset;
  simple_backup : option Dataset
}.

Record State (web : Web) : Type := {
  net : Net web;
  disk : Disk;
  printed : list string
}.

Arguments net {web} s.
Arguments disk {web} s.
Arguments printed {web} s.

(** A computation that changes the state and returns or raises. *)
Definition Run (web : Web) (A : Type) : Type :=
  State web -> (A + Exc) * State web.

Definition ret {web : Web} {A : Type} (a : A) : Run web A :=
  fun st => (inl a, st).

Definition bind {web : Web} {A B : Type} (m : Run web A) (k : A -> Run web B)
    : Run web B :=
  fun st =>
    match m st with
    | (inl a, st') => k a st'
    | (inr e, st') => (inr e, st')
    end.

Notation "x <- m ;; k" := (bind m (fun x => k))
  (at level 61, m at next level, right associativity).
Notation "m ;; k" := (bind m (fun _ => k))
  (at level 61, right associativity).

Definition say {web : Web} (text : string) : Run web unit :=
  fun st =>
    (inl tt,
     {| net := net st; disk := disk st;
        printed := (printed st ++ [text])%list |}).

Definition clock {web : Web} : Run web string :=
  fun st => (inl (now web (net st)), st).

(** [for x in xs: s = body(x, s)]. *)
Fixpoint for_each {web : Web} {A S : Type} (body : A -> S -> Run web S)
    (xs : list A) (s : S) : Run web S :=
  match xs with
  | [] => ret s
  | x :: xs' => s' <- body x s ;; for_each body xs' s'
  end.

Definition fetch_page {web : Web} (url : string) : Run web (Soup web) :=
  say ("Fetching " ++ url ++ "...") ;;
  fun st =>
    let '(response, net') := get web url (net st) in
    (response, {| net := net'; disk := disk st; printed := printed st |}).

Definition concise_url (web : Web) (field_num : string) : string :=
  urljoin web BASE_URL ("concise/bd" ++ field_num ++ ".html").

Definition no_concise_page (field_num : string) : string :=
  "  No concise page found for field " ++ field_num ++ " (may be control field)".

(** [extract_detailed_field_info]: [None] stands for Python's [None]. *)
Definition extract_detailed_field_info {web : Web} (field_num : string)
    : Run web (option DetailsT) :=
  fun st =>
    match fetch_page (concise_url web field_num) st with
    | (inl soup, st') =>
        match detailed_info web soup with
        | inl field_info => (inl (Some field_info), st')
        | inr text =>
            (say ("  Error extracting detailed info for " ++ field_num ++ ": "
                  ++ text) ;; ret None) st'
        end
    | (inr (HTTPError status_code text), st') =>
        if Nat.eqb status_code 404
        then (say (no_concise_page field_num) ;; ret None) st'
        else (inr (HTTPError status_code text), st')
    | (inr (OtherError text), st') =>
        (say ("  Error extracting detailed info for " ++ field_num ++ ": "
              ++ text) ;; ret None) st'
    end.

Definition extract_subfields_from_concise {web : Web} (field_num : string)
    : Run web (list (string * string * string)) :=
  fun st =>
    match fetch_page (concise_url web field_num) st with
    | (inl soup, st') =>
        match concise_subfields web soup with
        | inl subfields => (inl subfields, st')
        | inr text =>
            (say ("  Error extracting subfields for " ++ field_num ++ ": "
                  ++ text) ;; ret []) st'
        end
    | (inr (HTTPError status_code text), st') =>
        if Nat.eqb status_code 404
        then (say (no_concise_page field_num) ;; ret []) st'
        else (inr (HTTPError status_code text), st')
    | (inr (OtherError text), st') =>
        (say ("  Error extracting subfields for " ++ field_num ++ ": "
              ++ text) ;; ret []) st'
    end.

(** [d[key] = value]: the value of a key already there is replaced where it
    stands, a new key goes to the end. *)
Fixpoint dict_set (key : string) (value : Entry) (d : Dataset) : Dataset :=
  match d with
  | [] => [(key, value)]
  | (k, v) :: d' =>
      if String.eqb k key then (k, value) :: d'
      else (k, v) :: dict_set key value d'
  end.

Definition brief_entry (key value timestamp : string) : Entry :=
  {| Key := key; Value := value; Created := timestamp; Details := None |}.

(** The loop over [detailed_info["subfields"].items()]. *)
Fixpoint add_detailed_subfields {web : Web} (field_num timestamp : string)
    (items : list (string * SubfieldInfo)) (all_data : Dataset)
    : Run web Dataset :=
  match items with
  | [] => ret all_data
  | (subfield_code, subfield_info) :: items' =>
      let subfield_key := field_num ++ subfield_code in
      let subfield_value :=
        description subfield_info ++ " (" ++ repeatability subfield_info ++ ")" in
      let all_data :=
        dict_set subfield_key (brief_entry subfield_key subfield_value timestamp)
          all_data in
      say ("    Added: " ++ subfield_key ++ " - " ++ subfield_value) ;;
      add_detailed_subfields field_num timestamp items' all_data
  end.

(** The loop over the triples of [extract_subfields_from_concise]. *)
Fixpoint add_fallback_subfields {web : Web} (field_num timestamp : string)
    (subfields : list (string * string * string)) (all_data : Dataset)
    : Run web Dataset :=
  match subfields with
  | [] => ret all_data
  | (subfield_code, subfield_desc, subfield_repeat) :: subfields' =>
      let subfield_key := field_num ++ subfield_code in
      let subfield_value := subfield_desc ++ " (" ++ subfield_repeat ++ ")" in
      let all_data :=
        dict_set subfield_key (brief_entry subfield_key subfield_value timestamp)
          all_data in
      say ("    Added: " ++ subfield_key ++ " - " ++ subfield_value) ;;
      add_fallback_subfields field_num timestamp subfields' all_data
  end.

(** The statements both loops of [scrape_all_fields] share, from the
    construction of [field_entry] to the end of the body. *)
Definition add_field {web : Web} (field_num field_value timestamp : string)
    (details : option DetailsT) (all_data : Dataset) : Run web Dataset :=
  let field_entry :=
    {| Key := field_num; Value := field_value; Created := timestamp;
       Details := details |} in
  let all_data := dict_set field_num field_entry all_data in
  say ("  Added: " ++ field_num ++ " - " ++ field_value) ;;
  match details with
  | Some info =>
      if truthy_list (subfields info)
      then add_detailed_subfields field_num timestamp (subfields info) all_data
      else
        subfields <- extract_subfields_from_concise field_num ;;
        add_fallback_subfields field_num timestamp subfields all_data
  | None =>
      subfields <- extract_subfields_from_concise field_num ;;
      add_fallback_subfields field_num timestamp subfields all_data
  end.

(** The body of the loop over the fields of an index page; the state of the
    loop is [all_data] and [seen_fields]. *)
Definition scrape_index_field {web : Web} (timestamp : string)
    (field : string * string * string) (s : Dataset * list string)
    : Run web (Dataset * list string) :=
  let '(field_num, description, repeatability) := field in
  let '(all_data, seen_fields) := s in
  if PyStr.mem field_num seen_fields then ret s
  else
    let seen_fields := field_num :: seen_fields in
    if String.eqb field_num "222" then ret (all_data, seen_fields)
    else
      details <- extract_detailed_field_info field_num ;;
      let field_value :=
        if String.eqb field_num "020"
        then description ++ " (ISBN) (" ++ repeatability ++ ")"
        else description ++ " (" ++ repeatability ++ ")" in
      all_data <- add_field field_num field_value timestamp details all_data ;;
      ret (all_data, seen_fields).

Definition scrape_page {web : Web} (timestamp page : string)
    (s : Dataset * list string) : Run web (Dataset * list string) :=
  say (PyStr.nl ++ "Processing " ++ page ++ "...") ;;
  soup <- fetch_page (urljoin web BASE_URL page) ;;
  let fields := field_links web soup in
  say ("  Found " ++ PyStr.of_nat (List.length fields) ++ " fields") ;;
  for_each (scrape_index_field timestamp) fields s.

(** The body of the loop over [LINKING_ENTRY_FIELDS]. *)
Definition scrape_linking_field {web : Web} (timestamp : string)
    (field : string * string * string) (s : Dataset * list string)
    : Run web (Dataset * list string) :=
  let '(field_num, description, repeatability) := field in
  let '(all_data, seen_fields) := s in
  if PyStr.mem field_num seen_fields then ret s
  else
    let seen_fields := field_num :: seen_fields in
    details <- extract_detailed_field_info field_num ;;
    let field_value := description ++ " (" ++ repeatability ++ ")" in
    all_data <- add_field field_num field_value timestamp details all_data ;;
    ret (all_data, seen_fields).

Definition scrape_all_fields {web : Web} : Run web Dataset :=
  timestamp <- clock ;;
  s <- for_each (scrape_page timestamp) FIELD_RANGE_PAGES ([], []) ;;
  say (PyStr.nl ++ "Adding manually defined field 222...") ;;
  timestamp <- clock ;;
  let all_data := dict_set "222" (field_222 timestamp) (fst s) in
  say "  Added: 222 - Key Title (R)" ;;
  all_data <-
    add_detailed_subfields "222" timestamp (subfields FIELD_222_DETAILS) all_data ;;
  say (PyStr.nl ++ "Processing manually defined linking entry fields (760-788)...") ;;
  s' <- for_each (scrape_linking_field timestamp) LINKING_ENTRY_FIELDS
          (all_data, snd s) ;;
  ret (fst s').

Definition file_name (f : DataFile) : string :=
  match f with
  | VerboseFile => "marc-verbose.json"
  | SimpleFile => "marc.json"
  end.

Definition file_path (d : Disk) (f : DataFile) : string :=
  script_dir d ++ "/" ++ file_name f.

Definition read_file (d : Disk) (f : DataFile) : option Dataset :=
  match f with
  | VerboseFile => verbose_file d
  | SimpleFile => simple_file d
  end.

Definition write_file (f : DataFile) (data : Dataset) (d : Disk) : Disk :=
  match f with
  | VerboseFile =>
      {| script_dir := script_dir d; verbose_file := Some data;
         simple_file := simple_file d; verbose_backup := verbose_backup d;
         simple_backup := simple_backup d |}
  | SimpleFile =>
      {| script_dir := script_dir d; verbose_file := verbose_file d;
         simple_file := Some data; verbose_backup := verbose_backup d;
         simple_backup := simple_backup d |}
  end.

(** The effect of [shutil.copy2(filepath, backup_path)] when it succeeds. *)
Definition copy_to_backup (f : DataFile) (d : Disk) : Disk :=
  match f with
  | VerboseFile =>
      {| script_dir := script_dir d; verbose_file := verbose_file d;
         simple_file := simple_file d; verbose_backup := verbose_file d;
         simple_backup := simple_backup d |}
  | SimpleFile =>
      {| script_dir := script_dir d; verbose_file := verbose_file d;
         simple_file := simple_file d; verbose_backup := verbose_backup d;
         simple_backup := simple_file d |}
  end.

(** What a call that raised leaves in the file it was writing to. *)
Definition leave_file (f : DataFile) (content : option Dataset) (d : Disk)
    : Disk :=
  match f with
  | VerboseFile =>
      {| script_dir := script_dir d; verbose_file := content;
         simple_file := simple_file d; verbose_backup := verbose_backup d;
         simple_backup := simple_backup d |}
  | SimpleFile =>
      {| script_dir := script_dir d; verbose_file := verbose_file d;
         simple_file := content; verbose_backup := verbose_backup d;
         simple_backup := simple_backup d |}
  end.

Definition leave_backup (f : DataFile) (content : option Dataset) (d : Disk)
    : Disk :=
  match f with
  | VerboseFile =>
      {| script_dir := script_dir d; verbose_file := verbose_file d;
         simple_file := simple_file d; verbose_backup := content;
         simple_backup := simple_backup d |}
  | SimpleFile =>
      {| script_dir := script_dir d; verbose_file := verbose_file d;
         simple_file := simple_file d; verbose_backup := verbose_backup d;
         simple_backup := content |}
  end.

(** [shutil.copy2(filepath, backup_path)]: the copy is made, or the call
    raises. *)
Definition copy2 {web : Web} (f : DataFile) : Run web unit :=
  fun st =>
    match copy2_fault web f (net st) with
    | None =>
        (inl tt,
         {| net := net st; disk := copy_to_backup f (disk st);
            printed := printed st |})
    | Some (text, content) =>
        (inr (OtherError text),
         {| net := net st; disk := leave_backup f content (disk st);
            printed := printed st |})
    end.

(** [with open(filepath, "w", encoding="utf-8") as f: json.dump(data, f, ...)]:
    the file is written, or the statement raises. *)
Definition dump_json {web : Web} (f : DataFile) (data : Dataset) : Run web unit :=
  fun st =>
    match dump_fault web f (net st) with
    | None =>
        (inl tt,
         {| net := net st; disk := write_file f data (disk st);
            printed := printed st |})
    | Some (text, content) =>
        (inr (OtherError text),
         {| net := net st; disk := leave_file f content (disk st);
            printed := printed st |})
    end.

Definition backup_existing_file {web : Web} (f : DataFile) : Run web unit :=
  fun st =>
    match read_file (disk st) f with
    | Some _ =>
        (say (PyStr.nl ++ "Backing up existing file to "
              ++ file_path (disk st) f ++ ".backup") ;;
         copy2 f) st
    | None => (inl tt, st)
    end.

(** [dict(items)]. *)
Definition dict_of_items (items : list Item) : Dataset :=
  fold_left (fun d kv => dict_set (fst kv) (snd kv) d) items [].

(** [dict(sorted(all_data.items()))]: the keys of a dictionary differ, so
    the comparison of two items is decided by their keys. *)
Definition sorted_data (all_data : Dataset) : Dataset :=
  dict_of_items (PySort.sort_by String.compare fst all_data).

Definition simple_entry (entry : Entry) : Entry :=
  {| Key := Key entry; Value := Value entry; Created := Created entry;
     Details := None |}.

(** The loop that fills [simple_data]. *)
Definition simple_data (sorted : Dataset) : Dataset :=
  fold_left (fun d kv => dict_set (fst kv) (simple_entry (snd kv)) d) sorted [].

(** [sum(1 for k in sorted_data.keys() if len(k) == 3)]. *)
Definition count_fields (data : Dataset) : nat :=
  List.length (filter (fun kv : Item => Nat.eqb (String.length (fst kv)) 3) data).

Definition main {web : Web} : Run web unit :=
  say "MARC 21 Field Scraper" ;;
  say (PyStr.repeat "=" 50) ;;
  backup_existing_file VerboseFile ;;
  backup_existing_file SimpleFile ;;
  say (PyStr.nl ++ "Starting scrape...") ;;
  all_data <- scrape_all_fields ;;
  let sorted := sorted_data all_data in
  (fun st =>
     say (PyStr.nl ++ "Writing " ++ PyStr.of_nat (List.length sorted)
          ++ " entries to " ++ file_path (disk st) VerboseFile) st) ;;
  dump_json VerboseFile sorted ;;
  let simple := simple_data sorted in
  (fun st =>
     say ("Writing " ++ PyStr.of_nat (List.length simple) ++ " entries to "
          ++ file_path (disk st) SimpleFile) st) ;;
  dump_json SimpleFile simple ;;
  say (PyStr.nl ++ "Done!") ;;
  say ("Total entries: " ++ PyStr.of_nat (List.length sorted)) ;;
  let fields := count_fields sorted in
  let subfields := List.length sorted - fields in
  say ("Fields: " ++ PyStr.of_nat fields ++ ", Subfields: "
       ++ PyStr.of_nat subfields).

(** The process of the lookup tool started in the directory of the script
    once the scraper has stopped. *)
Definition lookup_world (d : Disk) : World :=
  {| parent_dir := script_dir d;
     marc_json := simple_file d;
     marc_verbose_json := verbose_file d;
     stdout := [] |}.

End Scraper.

(** [d.get(key)]. *)
Fixpoint dict_get (key : string) (d : Dataset) : option Entry :=
  match d with
  | [] => None
  | (k, v) :: d' => if String.eqb k key then Some v else dict_get key d'
  end.

(** A record without its Details, under the same key. *)
Definition simple_item (kv : Item) : Item :=
  (fst kv, Scraper.simple_entry (snd kv)).

(** Keys in strictly ascending order. *)
Definition key_lt (a b : Item) : Prop := String.ltb (fst a) (fst b) = true.

(** The texts a keyword query prints after the notice of the verbose flag:
    the count when there are several matches and their brief renderings, or
    the notice that nothing matched. *)
Definition keyword_texts (data : Dataset) (query : string) : list string :=
  let matches := search_by_keyword data query in
  if truthy_list matches then
    ((if Nat.ltb 1 (List.length matches)
      then [found_notice (List.length matches)] else [])
     ++ display_texts matches false)%list
  else [no_keyword_match_notice query].

(** Every run of [m] leaves the disk as it was. *)
Definition keeps_disk {web : Scraper.Web} {A : Type} (m : Scraper.Run web A)
    : Prop :=
  forall st, Scraper.disk (snd (m st)) = Scraper.disk st.

(** Whatever [m] returns satisfies [Q]. *)
Definition returns_only {web : Scraper.Web} {A : Type} (m : Scraper.Run web A)
    (Q : A -> Prop) : Prop :=
  forall st a, fst (m st) = inl a -> Q a.

(** The backup of a data file after the scraper has run on the disk [d]: the
    former content of the file, or the former backup when there was no
    file to copy. *)
Definition backup_after (d : Scraper.Disk) (f : Scraper.DataFile)
    : option Dataset :=
  match Scraper.read_file d f with
  | Some data => Some data
  | None =>
      match f with
      | Scraper.VerboseFile => Scraper.verbose_backup d
      | Scraper.SimpleFile => Scraper.simple_backup d
      end
  end.

(** A web in which every index page lists field 020 and no concise page
    exists, and a web in which every request times out; on both the disk
    works. *)
Definition web_without_concise_pages : Scraper.Web :=
  {| Scraper.Soup := unit;
     Scraper.Net := unit;
     Scraper.urljoin := String.append;
     Scraper.get :=
       fun url n =>
         if PyStr.contains "concise" url
         then (inr (Scraper.HTTPError 404 "404 Client Error: Not Found"), n)
         else (inl tt, n);
     Scraper.now := fun _ => "2024-01-01T00:00:00+00:00";
     Scraper.field_links :=
       fun _ => [("020", "International Standard Book Number", "R")];
     Scraper.detailed_info := fun _ => inr "no page";
     Scraper.concise_subfields := fun _ => inr "no page";
     Scraper.copy2_fault := fun _ _ => None;
     Scraper.dump_fault := fun _ _ => None |}.

Definition web_timing_out : Scraper.Web :=
  {| Scraper.Soup := unit;
     Scraper.Net := unit;
     Scraper.urljoin := String.append;
     Scraper.get := fun url n => (inr (Scraper.OtherError "Read timed out."), n);
     Scraper.now := fun _ => "2024-01-01T00:00:00+00:00";
     Scraper.field_links := fun _ => [];
     Scraper.detailed_info := fun _ => inr "no page";
     Scraper.concise_subfields := fun _ => inr "no page";
     Scraper.copy2_fault := fun _ _ => None;
     Scraper.dump_fault := fun _ _ => None |}.

(** The first web again, with a clock whose seconds count the requests made
    so far. *)
Definition web_counting_requests : Scraper.Web :=
  {| Scraper.Soup := unit;
     Scraper.Net := nat;
     Scraper.urljoin := String.append;
     Scraper.get :=
       fun url n =>
         if PyStr.contains "concise" url
         then (inr (Scraper.HTTPError 404 "404 Client Error: Not Found"), S n)
         else (inl tt, S n);
     Scraper.now :=
       fun n =>
         "2024-01-01T00:00:" ++ (if Nat.ltb n 10 then "0" else "")
         ++ PyStr.of_nat n ++ "+00:00";
     Scraper.field_links :=
       fun _ => [("020", "International Standard Book Number", "R")];
     Scraper.detailed_info := fun _ => inr "no page";
     Scraper.concise_subfields := fun _ => inr "no page";
     Scraper.copy2_fault := fun _ _ => None;
     Scraper.dump_fault := fun _ _ => None |}.

(** The first web again, on a disk that fills up while the brief file is
    written and leaves it empty of records. *)
Definition web_with_full_disk : Scraper.Web :=
  {| Scraper.Soup := unit;
     Scraper.Net := unit;
     Scraper.urljoin := String.append;
     Scraper.get :=
       fun url n =>
         if PyStr.contains "concise" url
         then (inr (Scraper.HTTPError 404 "404 Client Error: Not Found"), n)
         else (inl tt, n);
     Scraper.now := fun _ => "2024-01-01T00:00:00+00:00";
     Scraper.field_links :=
       fun _ => [("020", "International Standard Book Number", "R")];
     Scraper.detailed_info := fun _ => inr "no page";
     Scraper.concise_subfields := fun _ => inr "no page";
     Scraper.copy2_fault := fun _ _ => None;
     Scraper.dump_fault :=
       fun f _ =>
         match f with
         | Scraper.VerboseFile => None
         | Scraper.SimpleFile =>
             Some ("[Errno 28] No space left on device", Some [])
         end |}.

Definition disk_with_old_files : Scraper.Disk :=
  {| Scraper.script_dir := "/opt/marc";
     Scraper.verbose_file := Some isbn_dataset;
     Scraper.simple_file := Some (map simple_item isbn_dataset);
     Scraper.verbose_backup := None;
     Scraper.simple_backup := None |}.

Definition start_state (web : Scraper.Web) (n : Scraper.Net web)
    (d : Scraper.Disk) : Scraper.State web :=
  {| Scraper.net := n; Scraper.disk := d; Scraper.printed := [] |}.

(** The manual field 222 and its four subfields, as a dataset holds them. *)
Definition holds_field_222 (timestamp : string) (d : Dataset) : Prop :=
  dict_get "222" d = Some (Scraper.field_222 timestamp)
  /\ dict_get "222a" d
     = Some (Scraper.brief_entry "222a" "Key title (NR)" timestamp)
  /\ dict_get "222b" d
     = Some (Scraper.brief_entry "222b" "Qualifying information (NR)" timestamp)
  /\ dict_get "2226" d = Some (Scraper.brief_entry "2226" "Linkage (NR)" timestamp)
  /\ dict_get "2228" d
     = Some (Scraper.brief_entry "2228" "Field link and sequence number (R)"
               timestamp).

(** The key is a linking-entry key: it starts with the digit 7. *)
Definition starts_with_7 (key : string) : Prop :=
  exists rest, key = String "7" rest.

(** The invariant of the scraped dictionary. *)
Definition well_keyed (d : Dataset) : Prop :=
  unique_keys d /\ keys_at_least_3 d.

(** Every field number an index page yields has three characters, as the
    pattern of [extract_field_links] requires. *)
Definition three_character_fields (web : Scraper.Web) : Prop :=
  forall soup,
    Forall (fun f : string * string * string => String.length (fst (fst f)) = 3)
      (Scraper.field_links web soup).

(** The state after [backup_existing_file]. *)
Definition after_backup {web : Scraper.Web} (f : Scraper.DataFile)
    (st : Scraper.State web) : Scraper.State web :=
  snd (Scraper.backup_existing_file f st).

(** The state in which [main] of the scraper starts the scrape. *)
Definition before_scrape {web : Scraper.Web} (st : Scraper.State web)
    : Scraper.State web :=
  snd (Scraper.say (PyStr.nl ++ "Starting scrape...")
         (after_backup Scraper.SimpleFile
            (after_backup Scraper.VerboseFile
               (snd (Scraper.say (PyStr.repeat "=" 50)
                       (snd (Scraper.say "MARC 21 Field Scraper" st))))))).

(** The state of a scrape after its loop over the index pages, and the
    second reading of the clock, taken there. *)
Definition after_index_pages {web : Scraper.Web} (st : Scraper.State web)
    : Scraper.State web :=
  snd (Scraper.for_each (Scraper.scrape_page (Scraper.now web (Scraper.net st)))
         Scraper.FIELD_RANGE_PAGES ([], []) st).

Definition second_timestamp {web : Scraper.Web} (st : Scraper.State web)
    : string :=
  Scraper.now web (Scraper.net (after_index_pages st)).

(** The state in which the scraper has printed its banner, the state in
    which the scrape has ended, and the two data files and the two backups
    of a state compared with those of another. *)
Definition after_banner {web : Scraper.Web} (st : Scraper.State web)
    : Scraper.State web :=
  snd (Scraper.say (PyStr.repeat "=" 50)
         (snd (Scraper.say "MARC 21 Field Scraper" st))).

Definition after_scrape {web : Scraper.Web} (st : Scraper.State web)
    : Scraper.State web :=
  snd (Scraper.scrape_all_fields (before_scrape st)).

Definition same_data_files (d d' : Scraper.Disk) : Prop :=
  Scraper.verbose_file d' = Scraper.verbose_file d
  /\ Scraper.simple_file d' = Scraper.simple_file d.

Definition backups_made (d d' : Scraper.Disk) : Prop :=
  Scraper.verbose_backup d' = backup_after d Scraper.VerboseFile
  /\ Scraper.simple_backup d' = backup_after d Scraper.SimpleFile.


(** * Properties *)

(** ** Comparisons *)

Lemma nat_strict_cmp : strict_cmp Nat.compare.
Proof.
  split.
  - intros x y. apply Nat.compare_antisym.
  - intros x y. apply Nat.compare_eq.
  - intros x y z H1 H2. apply Nat.compare_lt_iff in H1, H2.
    apply Nat.compare_lt_iff. lia.
Qed.

Lemma bool_strict_cmp : strict_cmp Bool.compare.
Proof.
  split.
  - intros [] []; reflexivity.
  - intros [] []; simpl; congruence.
  - intros [] [] []; simpl; congruence.
Qed.

Lemma ascii_compare_lt_trans (a b c : ascii) :
  Ascii.compare a b = Lt -> Ascii.compare b c = Lt -> Ascii.compare a c = Lt.
Proof.
  unfold Ascii.compare. rewrite !N.compare_lt_iff. lia.
Qed.

Lemma ascii_compare_refl (a : ascii) : Ascii.compare a a = Eq.
Proof. unfold Ascii.compare. apply N.compare_refl. Qed.

Lemma string_compare_lt_trans (x y z : string) :
  String.compare x y = Lt -> String.compare y z = Lt -> String.compare x z = Lt.
Proof.
  revert y z.
  induction x as [|a x IH]; intros [|b y] [|c z]; simpl; try congruence.
  destruct (Ascii.compare a b) eqn:Hab; try discriminate;
    destruct (Ascii.compare b c) eqn:Hbc; try discriminate; intros H1 H2.
  - apply Ascii.compare_eq_iff in Hab, Hbc. subst.
    rewrite ascii_compare_refl. eauto.
  - apply Ascii.compare_eq_iff in Hab. subst. now rewrite Hbc.
  - apply Ascii.compare_eq_iff in Hbc. subst. now rewrite Hab.
  - now rewrite (ascii_compare_lt_trans _ _ _ Hab Hbc).
Qed.

Lemma string_strict_cmp : strict_cmp String.compare.
Proof.
  split.
  - apply String.compare_antisym.
  - apply String.compare_eq_iff.
  - apply string_compare_lt_trans.
Qed.

Section Comparisons.

Context {A B : Type} (cA : A -> A -> comparison) (cB : B -> B -> comparison).
Hypothesis HA : strict_cmp cA.
Hypothesis HB : strict_cmp cB.

Lemma cmp_refl (x : A) : cA x x = Eq.
Proof.
  pose proof (cmp_antisym cA HA x x) as H.
  destruct (cA x x); simpl in H; congruence.
Qed.

Lemma lex_strict_cmp : strict_cmp (PySort.lex cA cB).
Proof.
  split.
  - intros [a b] [a' b']. unfold PySort.lex. simpl.
    rewrite (cmp_antisym cA HA a a').
    destruct (cA a' a); simpl; auto. apply (cmp_antisym cB HB).
  - intros [a b] [a' b']. unfold PySort.lex. simpl.
    destruct (cA a a') eqn:Ha; try discriminate.
    intros Hb. apply (cmp_eq cA HA) in Ha. apply (cmp_eq cB HB) in Hb.
    congruence.
  - intros [a b] [a' b'] [a'' b'']. unfold PySort.lex. simpl.
    destruct (cA a a') eqn:H1; try discriminate;
      destruct (cA a' a'') eqn:H2; try discriminate; intros Hb Hb'.
    + apply (cmp_eq cA HA) in H1, H2. subst. rewrite cmp_refl.
      eapply (cmp_lt_trans cB HB); eauto.
    + apply (cmp_eq cA HA) in H1. subst. now rewrite H2.
    + apply (cmp_eq cA HA) in H2. subst. now rewrite H1.
    + now rewrite (cmp_lt_trans cA HA _ _ _ H1 H2).
Qed.

Lemma le_of_total (x y : A) :
  PySort.le_of cA x y = false -> PySort.le_of cA y x = true.
Proof.
  unfold PySort.le_of. rewrite (cmp_antisym cA HA y x).
  destruct (cA x y); simpl; congruence.
Qed.

Lemma le_of_trans (x y z : A) :
  PySort.le_of cA x y = true -> PySort.le_of cA y z = true ->
  PySort.le_of cA x z = true.
Proof.
  unfold PySort.le_of.
  destruct (cA x y) eqn:H1; try discriminate;
    destruct (cA y z) eqn:H2; try discriminate; intros _ _.
  - apply (cmp_eq cA HA) in H1, H2. subst. now rewrite cmp_refl.
  - apply (cmp_eq cA HA) in H1. subst. now rewrite H2.
  - apply (cmp_eq cA HA) in H2. subst. now rewrite H1.
  - now rewrite (cmp_lt_trans cA HA _ _ _ H1 H2).
Qed.

Lemma le_of_antisym (x y : A) :
  PySort.le_of cA x y = true -> PySort.le_of cA y x = true -> x = y.
Proof.
  unfold PySort.le_of. rewrite (cmp_antisym cA HA y x).
  destruct (cA x y) eqn:H; simpl; try discriminate; intros _ _.
  now apply (cmp_eq cA HA).
Qed.

Lemma le_of_lex (x y : A * B) :
  PySort.le_of (PySort.lex cA cB) x y = true
  <-> cA (fst x) (fst y) = Lt
      \/ (fst x = fst y /\ PySort.le_of cB (snd x) (snd y) = true).
Proof.
  unfold PySort.le_of, PySort.lex.
  destruct (cA (fst x) (fst y)) eqn:H.
  - apply (cmp_eq cA HA) in H. split.
    + intros Hb. right. split; auto.
    + intros [Hlt | [_ Hb]]; [discriminate | exact Hb].
  - split; auto.
  - split; [discriminate|].
    intros [Hlt | [Heq _]]; [discriminate|].
    rewrite Heq, cmp_refl in H. discriminate.
Qed.

End Comparisons.

(** ** Sorting *)

Lemma sorted_precedes {A : Type} (R : A -> A -> Prop) (l : list A) (a b : A) :
  StronglySorted R l -> In a l -> In b l -> ~ R b a -> a <> b -> precedes a b l.
Proof.
  intros Hs Ha Hb Hnot Hne.
  destruct (in_split _ _ Ha) as (l1 & l2 & ->).
  apply in_app_or in Hb. destruct Hb as [Hb | [Hb | Hb]].
  - exfalso. apply Hnot. clear Ha Hnot Hne.
    induction l1 as [|x l1 IH]; [destruct Hb|].
    simpl in Hs. apply StronglySorted_inv in Hs. destruct Hs as [Hs Hall].
    destruct Hb as [-> | Hb]; [|now apply IH].
    rewrite Forall_forall in Hall. apply Hall. apply in_elt.
  - congruence.
  - destruct (in_split _ _ Hb) as (l3 & l4 & ->).
    now exists l1, l3, l4.
Qed.

Lemma sorted_app_inv {A : Type} (R : A -> A -> Prop) (l1 l2 : list A) :
  StronglySorted R (l1 ++ l2) ->
  StronglySorted R l2 /\ forall a b, In a l1 -> In b l2 -> R a b.
Proof.
  induction l1 as [|x l1 IH]; simpl; intros Hs.
  - split; [exact Hs | intros a b []].
  - apply StronglySorted_inv in Hs. destruct Hs as [Hs Hall].
    destruct (IH Hs) as [H2 Hcross]. split; [exact H2|].
    intros a b [-> | Ha] Hb.
    + rewrite Forall_forall in Hall. apply Hall. apply in_or_app. now right.
    + now apply Hcross.
Qed.

Lemma sorted_perm_unique {A : Type} (R : A -> A -> Prop) (l1 l2 : list A) :
  (forall a b, In a l1 -> In b l1 -> R a b -> R b a -> a = b) ->
  StronglySorted R l1 -> StronglySorted R l2 -> Permutation l1 l2 -> l1 = l2.
Proof.
  revert l2. induction l1 as [|a l1 IH]; intros l2 Hanti H1 H2 Hp.
  - apply Permutation_nil in Hp. now subst.
  - destruct l2 as [|b l2].
    + apply Permutation_sym, Permutation_nil in Hp. discriminate.
    + apply StronglySorted_inv in H1. destruct H1 as [H1 Ha].
      apply StronglySorted_inv in H2. destruct H2 as [H2 Hb].
      rewrite Forall_forall in Ha, Hb.
      assert (Hab : a = b).
      { assert (Hina : In a (b :: l2))
          by (eapply Permutation_in; [exact Hp | now left]).
        assert (Hinb : In b (a :: l1))
          by (eapply Permutation_in; [apply Permutation_sym; exact Hp | now left]).
        destruct Hina as [Heq | Hina]; [now subst|].
        destruct Hinb as [Heq | Hinb]; [now subst|].
        apply Hanti; [now left | now right | now apply Ha | now apply Hb]. }
      subst b. f_equal. apply IH; auto.
      * intros x y Hx Hy. apply Hanti; now right.
      * eapply Permutation_cons_inv; exact Hp.
Qed.

Lemma nodup_map_filter {A B : Type} (g : A -> B) (f : A -> bool) (l : list A) :
  NoDup (map g l) -> NoDup (map g (filter f l)).
Proof.
  induction l as [|x l IH]; simpl; intros H; [constructor|].
  inversion H as [|? ? Hnotin Hnd]; subst.
  destruct (f x); simpl; [|now apply IH].
  constructor; [|now apply IH].
  intros Hin. apply Hnotin. apply in_map_iff in Hin.
  destruct Hin as (y & Hy & Hin). apply filter_In in Hin.
  apply in_map_iff. exists y. tauto.
Qed.

Lemma nodup_of_map {A B : Type} (g : A -> B) (l : list A) :
  NoDup (map g l) -> NoDup l.
Proof.
  induction l as [|x l IH]; simpl; intros H; constructor;
    inversion H; subst; auto.
  intros Hin. apply (in_map g) in Hin. contradiction.
Qed.

Lemma sort_by_map {A B K : Type} (c : K -> K -> comparison) (key : B -> K)
    (f : A -> B) (l : list A) :
  PySort.sort_by c key (map f l)
  = map f (PySort.sort_by c (fun x => key (f x)) l).
Proof.
  induction l as [|x l IH]; simpl; [reflexivity|].
  rewrite IH. generalize (PySort.sort_by c (fun x => key (f x)) l) as s.
  induction s as [|y s IHs]; simpl; [reflexivity|].
  destruct (PySort.le_of c (key (f x)) (key (f y))); simpl; [reflexivity|].
  now rewrite IHs.
Qed.

Section Sorting.

Context {A K : Type} (c : K -> K -> comparison) (key : A -> K).
Hypothesis Hc : strict_cmp c.

Lemma insert_by_perm (x : A) (l : list A) :
  Permutation (PySort.insert_by c key x l) (x :: l).
Proof.
  induction l as [|y l IH]; simpl; [reflexivity|].
  destruct (PySort.le_of c (key x) (key y)); [reflexivity|].
  rewrite IH. apply perm_swap.
Qed.

Lemma sort_by_perm (l : list A) : Permutation (PySort.sort_by c key l) l.
Proof.
  induction l as [|x l IH]; simpl; [reflexivity|].
  rewrite insert_by_perm. now constructor.
Qed.

Lemma insert_by_sorted (x : A) (l : list A) :
  StronglySorted (fun a b => PySort.le_of c (key a) (key b) = true) l ->
  StronglySorted (fun a b => PySort.le_of c (key a) (key b) = true)
    (PySort.insert_by c key x l).
Proof.
  induction l as [|y l IH]; simpl; intros Hs.
  - constructor; constructor.
  - apply StronglySorted_inv in Hs. destruct Hs as [Hs Hall].
    destruct (PySort.le_of c (key x) (key y)) eqn:Hxy.
    + constructor; [now constructor|].
      constructor; [exact Hxy|].
      eapply Forall_impl; [|exact Hall]. simpl. intros z Hyz.
      eapply (le_of_trans c Hc); eauto.
    + constructor; [now apply IH|].
      rewrite Forall_forall. intros z Hz.
      apply (Permutation_in _ (insert_by_perm x l)) in Hz.
      destruct Hz as [<- | Hz].
      * now apply (le_of_total c Hc).
      * rewrite Forall_forall in Hall. now apply Hall.
Qed.

Lemma sort_by_sorted (l : list A) :
  StronglySorted (fun a b => PySort.le_of c (key a) (key b) = true)
    (PySort.sort_by c key l).
Proof.
  induction l as [|x l IH]; simpl; [constructor|].
  now apply insert_by_sorted.
Qed.

(** Sorting a sorted list changes nothing: elements with equal keys keep
    the order they had. *)
Lemma sort_by_stable (l : list A) :
  StronglySorted (fun a b => PySort.le_of c (key a) (key b) = true) l ->
  PySort.sort_by c key l = l.
Proof.
  induction 1 as [|x l Hs IH Hall]; simpl; [reflexivity|].
  rewrite IH. destruct l as [|y l]; simpl; [reflexivity|].
  inversion Hall as [|? ? Hxy _]; subst. now rewrite Hxy.
Qed.

End Sorting.

Lemma compute_keys_total {A K : Type} (key : A -> Result K) (rank : A -> K)
    (l : list A) :
  Forall (fun x => key x = Ok (rank x)) l ->
  compute_keys key l = Ok (map rank l).
Proof.
  induction 1 as [|x l Hx _ IH]; simpl; [reflexivity|].
  now rewrite Hx, IH.
Qed.

Lemma sort_with_key_total {A K : Type} (c : K -> K -> comparison)
    (key : A -> Result K) (rank : A -> K) (l : list A) :
  Forall (fun x => key x = Ok (rank x)) l ->
  sort_with_key c key l = Ok (PySort.sort_by c rank l).
Proof.
  intros H. unfold sort_with_key. rewrite (compute_keys_total key rank l H).
  f_equal.
  replace (combine (map rank l) l) with (map (fun x => (rank x, x)) l).
  - rewrite sort_by_map, map_map. simpl. apply map_id.
  - clear H. induction l as [|x l IH]; simpl; [reflexivity | now rewrite IH].
Qed.

(** ** Strings *)

Lemma length_append (a b : string) :
  String.length (a ++ b) = String.length a + String.length b.
Proof. induction a as [|c a IH]; simpl; [reflexivity | now rewrite IH]. Qed.

Lemma append_assoc (a b c : string) : (a ++ b) ++ c = a ++ b ++ c.
Proof. induction a as [|x a IH]; simpl; [reflexivity | now rewrite IH]. Qed.

Lemma lower_append (a b : string) :
  PyStr.lower (a ++ b) = PyStr.lower a ++ PyStr.lower b.
Proof. induction a as [|c a IH]; simpl; [reflexivity | now rewrite IH]. Qed.

Lemma length_lower (a : string) : String.length (PyStr.lower a) = String.length a.
Proof. induction a as [|c a IH]; simpl; [reflexivity | now rewrite IH]. Qed.

Lemma take_drop (n : nat) (s : string) : PyStr.take n s ++ PyStr.drop n s = s.
Proof.
  revert s. induction n as [|n IH]; intros [|c s]; simpl; try reflexivity.
  now rewrite IH.
Qed.

Lemma take_append (a b : string) : PyStr.take (String.length a) (a ++ b) = a.
Proof. induction a as [|c a IH]; simpl; [now destruct b | now rewrite IH]. Qed.

Lemma drop_append (a b : string) : PyStr.drop (String.length a) (a ++ b) = b.
Proof. induction a as [|c a IH]; simpl; [now destruct b | exact IH]. Qed.

Lemma lower_take (n : nat) (s : string) :
  PyStr.lower (PyStr.take n s) = PyStr.take n (PyStr.lower s).
Proof.
  revert s. induction n as [|n IH]; intros [|c s]; simpl; try reflexivity.
  now rewrite IH.
Qed.

Lemma startswith_iff (s p : string) :
  PyStr.startswith s p = true <-> exists t, s = p ++ t.
Proof.
  revert s. induction p as [|a p IH]; intros s; simpl.
  - split; [intros _; now exists s | reflexivity].
  - destruct s as [|b s].
    + split; [discriminate | intros [t Ht]; discriminate].
    + rewrite andb_true_iff, Ascii.eqb_eq, IH. split.
      * intros [-> [t ->]]. now exists t.
      * intros [t Ht]. injection Ht as -> ->. split; [reflexivity | now exists t].
Qed.

Lemma startswith_lower_iff (key query : string) :
  PyStr.startswith (PyStr.lower key) (PyStr.lower query) = true
  <-> starts_with_ci key query.
Proof.
  rewrite startswith_iff. split.
  - intros [t Ht].
    exists (PyStr.take (String.length query) key),
           (PyStr.drop (String.length query) key).
    split; [now rewrite take_drop|].
    rewrite lower_take, Ht, <- (length_lower query). apply take_append.
  - intros (k1 & k2 & -> & Hk). exists (PyStr.lower k2).
    now rewrite lower_append, Hk.
Qed.

Lemma contains_iff (needle hay : string) :
  PyStr.contains needle hay = true <-> is_substring needle hay.
Proof.
  split.
  - induction hay as [|c hay IH]; simpl; rewrite orb_true_iff, startswith_iff.
    + intros [[t Ht] | H]; [|discriminate]. now exists "", t.
    + intros [[t Ht] | H]; [now exists "", t|].
      destruct (IH H) as (pre & post & ->). now exists (String c pre), post.
  - intros (pre & post & ->).
    induction pre as [|c pre IH]; simpl.
    + destruct (needle ++ post) eqn:E; simpl; rewrite orb_true_iff; left;
        rewrite <- ?E; apply startswith_iff; now exists post.
    + rewrite orb_true_iff. now right.
Qed.

Lemma contains_empty (hay : string) : PyStr.contains "" hay = true.
Proof. apply contains_iff. now exists "", hay. Qed.

Lemma endswith_iff (s suffix : string) :
  PyStr.endswith s suffix = true <-> exists body, s = body ++ suffix.
Proof.
  unfold PyStr.endswith. rewrite andb_true_iff, Nat.leb_le, String.eqb_eq. split.
  - intros [_ H]. exists (PyStr.take (String.length s - String.length suffix) s).
    pose proof (take_drop (String.length s - String.length suffix) s) as E.
    rewrite H in E. now symmetry.
  - intros [body ->]. rewrite length_append. split; [lia|].
    replace (String.length body + String.length suffix - String.length suffix)
      with (String.length body) by lia.
    apply drop_append.
Qed.

Lemma drop_last_append (body suffix : string) :
  PyStr.drop_last (String.length suffix) (body ++ suffix) = body.
Proof.
  unfold PyStr.drop_last. rewrite length_append.
  replace (String.length body + String.length suffix - String.length suffix)
    with (String.length body) by lia.
  apply take_append.
Qed.

Lemma drop_to_suffix (body suffix : string) :
  PyStr.drop (String.length (body ++ suffix) - String.length suffix) (body ++ suffix)
  = suffix.
Proof.
  rewrite length_append.
  replace (String.length body + String.length suffix - String.length suffix)
    with (String.length body) by lia.
  apply drop_append.
Qed.

(** A description cannot end with both badges. *)
Lemma suffixes_exclusive (body body' : string) : body ++ "(R)" <> body' ++ "(NR)".
Proof.
  intros H.
  pose proof (drop_to_suffix body "(R)") as E1.
  pose proof (drop_to_suffix (body' ++ "(") "NR)") as E2.
  rewrite append_assoc in E2. simpl in E1, E2.
  rewrite <- H in E2. rewrite E1 in E2. discriminate.
Qed.

Lemma replace_delimiters (s : string) :
  PyStr.replace ")" " "
    (PyStr.replace "(" " "
       (PyStr.replace "," " "
          (PyStr.replace "/" " " (PyStr.replace "-" " " s))))
  = delimiters_to_spaces s.
Proof.
  induction s as [|c s IH]; simpl; [reflexivity|].
  rewrite IH. f_equal. unfold is_delimiter.
  destruct (Ascii.eqb c "-"); simpl; [reflexivity|].
  destruct (Ascii.eqb c "/"); simpl; [reflexivity|].
  destruct (Ascii.eqb c ","); simpl; [reflexivity|].
  destruct (Ascii.eqb c "("); simpl; reflexivity.
Qed.

Lemma mem_iff (x : string) (xs : list string) : PyStr.mem x xs = true <-> In x xs.
Proof.
  unfold PyStr.mem. rewrite existsb_exists. split.
  - intros (y & Hy & E). apply String.eqb_eq in E. now subst.
  - intros H. exists x. split; [exact H | apply String.eqb_refl].
Qed.

Lemma sorted_impl {A : Type} (R R' : A -> A -> Prop) (l : list A) :
  (forall a b, R a b -> R' a b) -> StronglySorted R l -> StronglySorted R' l.
Proof.
  intros Himp. induction 1 as [|x l Hs IH Hall]; constructor; auto.
  eapply Forall_impl; [|exact Hall]. auto.
Qed.

Lemma sort_by_ext {A K : Type} (c : K -> K -> comparison) (key key' : A -> K)
    (l : list A) :
  (forall x, key x = key' x) -> PySort.sort_by c key l = PySort.sort_by c key' l.
Proof.
  intros E. induction l as [|x l IH]; simpl; [reflexivity|].
  rewrite IH. generalize (PySort.sort_by c key' l) as s.
  induction s as [|y s IHs]; simpl; [reflexivity|].
  now rewrite !E, IHs.
Qed.

Lemma lt_lex {A B : Type} (cA : A -> A -> comparison) (cB : B -> B -> comparison)
    (HA : strict_cmp cA) (x y : A * B) :
  PySort.lex cA cB x y = Lt
  <-> cA (fst x) (fst y) = Lt \/ (fst x = fst y /\ cB (snd x) (snd y) = Lt).
Proof.
  unfold PySort.lex. destruct (cA (fst x) (fst y)) eqn:H.
  - apply (cmp_eq cA HA) in H. split; [now right|].
    intros [Hlt | [_ Hb]]; [discriminate | exact Hb].
  - split; auto.
  - split; [discriminate|].
    intros [Hlt | [Heq _]]; [discriminate|].
    rewrite Heq, (cmp_refl cA HA) in H. discriminate.
Qed.

Lemma bool_compare_lt (x y : bool) : Bool.compare x y = Lt <-> bool_lt x y.
Proof. unfold bool_lt. destruct x, y; simpl; intuition congruence. Qed.

Lemma unique_keys_inj (l : list Item) (a b : Item) :
  unique_keys l -> In a l -> In b l -> fst a = fst b -> a = b.
Proof.
  unfold unique_keys. induction l as [|x l IH]; simpl; intros Hnd Ha Hb E.
  - destruct Ha.
  - inversion Hnd as [|? ? Hnotin Hnd']; subst.
    destruct Ha as [-> | Ha], Hb as [-> | Hb]; auto.
    + exfalso. apply Hnotin. rewrite E. now apply in_map.
    + exfalso. apply Hnotin. rewrite <- E. now apply in_map.
Qed.

(** ** Code matcher *)

Lemma code_cmp_strict : strict_cmp code_cmp.
Proof. apply lex_strict_cmp; [apply nat_strict_cmp | apply string_strict_cmp]. Qed.

Lemma sort_key_rank (item : Item) :
  3 <= String.length (fst item) -> sort_key item = Ok (code_rank item).
Proof.
  unfold sort_key, code_rank, code_group. destruct item as [key entry]. simpl.
  intros Hlen. destruct (Nat.eqb (String.length key) 3) eqn:E; [reflexivity|].
  apply Nat.eqb_neq in E.
  destruct key as [|c0 [|c1 [|c2 [|c3 key]]]]; simpl in *; try lia.
  now destruct (PyStr.isalpha_char c3).
Qed.

Lemma search_by_code_sort (data : Dataset) (code : string) :
  keys_at_least_3 data ->
  search_by_code data code
  = Ok (PySort.sort_by code_cmp code_rank (code_matches data code)).
Proof.
  intros Hk. unfold search_by_code. apply sort_with_key_total.
  unfold code_matches. rewrite Forall_forall. intros item Hin.
  apply filter_In in Hin. destruct Hin as [Hin _].
  apply sort_key_rank. unfold keys_at_least_3 in Hk.
  rewrite Forall_forall in Hk. now apply Hk.
Qed.

Lemma code_le_iff (a b : Item) :
  PySort.le_of code_cmp (code_rank a) (code_rank b) = true <-> code_le a b.
Proof.
  unfold code_cmp. rewrite (le_of_lex _ _ nat_strict_cmp). unfold code_rank, code_le.
  simpl. rewrite Nat.compare_lt_iff. reflexivity.
Qed.

Lemma code_matches_in (data : Dataset) (code : string) (item : Item) :
  In item (code_matches data code)
  <-> In item data /\ starts_with_ci (fst item) code.
Proof.
  unfold code_matches. rewrite filter_In. now rewrite startswith_lower_iff.
Qed.

(** ** Keyword matcher *)

Lemma keyword_cmp_strict : strict_cmp keyword_cmp.
Proof.
  repeat apply lex_strict_cmp;
    auto using nat_strict_cmp, bool_strict_cmp, string_strict_cmp.
Qed.

Lemma keyword_matches_map (data : Dataset) (keyword_lower : string) :
  keyword_matches data keyword_lower
  = map (fun item : Item =>
           (fst item, snd item,
            PyStr.mem keyword_lower (words_of (PyStr.lower (Value (snd item))))))
      (filter (keyword_hit keyword_lower) data).
Proof.
  induction data as [|[key entry] data IH]; simpl; [reflexivity|].
  unfold keyword_hit at 1. simpl.
  destruct (PyStr.contains keyword_lower (PyStr.lower (Value entry))); simpl;
    now rewrite IH.
Qed.

Lemma search_by_keyword_sort (data : Dataset) (keyword : string) :
  search_by_keyword data keyword
  = PySort.sort_by keyword_cmp (keyword_rank keyword)
      (filter (keyword_hit (PyStr.lower keyword)) data).
Proof.
  unfold search_by_keyword. rewrite keyword_matches_map, sort_by_map, map_map.
  rewrite (sort_by_ext _ _ (keyword_rank keyword)) by reflexivity.
  erewrite map_ext; [apply map_id|]. now intros [k e].
Qed.

Lemma keyword_le_iff (keyword : string) (a b : Item) :
  PySort.le_of keyword_cmp (keyword_rank keyword a) (keyword_rank keyword b) = true
  <-> keyword_le keyword a b.
Proof.
  assert (H2 : strict_cmp (PySort.lex Bool.compare Bool.compare))
    by (apply lex_strict_cmp; apply bool_strict_cmp).
  assert (H3 : strict_cmp (PySort.lex (PySort.lex Bool.compare Bool.compare) Nat.compare))
    by (apply lex_strict_cmp; [exact H2 | apply nat_strict_cmp]).
  etransitivity.
  { exact (le_of_lex _ String.compare H3
             (keyword_rank keyword a) (keyword_rank keyword b)). }
  rewrite (lt_lex _ Nat.compare H2).
  rewrite (lt_lex _ Bool.compare bool_strict_cmp).
  unfold keyword_rank, keyword_le. simpl.
  rewrite !bool_compare_lt, Nat.compare_lt_iff.
  change (PySort.le_of String.compare (fst a) (fst b)) with (String.leb (fst a) (fst b)).
  split.
  - intros [[[H | [E H]] | [E H]] | [E H]].
    + now left.
    + right. split; [exact E | now left].
    + injection E as E1 E2. right. split; [exact E1|]. right. split; [exact E2|].
      now left.
    + injection E as E1 E2 E3. right. split; [exact E1|]. right.
      split; [exact E2|]. right. now split.
  - intros [H | [E1 [H | [E2 [H | [E3 H]]]]]].
    + left. left. now left.
    + left. left. right. now split.
    + left. right. split; [congruence | exact H].
    + right. split; [congruence | exact H].
Qed.

Lemma search_by_keyword_sorted (data : Dataset) (keyword : string) :
  StronglySorted (keyword_le keyword) (search_by_keyword data keyword).
Proof.
  rewrite search_by_keyword_sort.
  eapply sorted_impl; [|apply sort_by_sorted, keyword_cmp_strict].
  intros a b. apply keyword_le_iff.
Qed.

Lemma search_by_keyword_perm (data : Dataset) (keyword : string) :
  Permutation (search_by_keyword data keyword)
    (filter (keyword_hit (PyStr.lower keyword)) data).
Proof. rewrite search_by_keyword_sort. apply sort_by_perm. Qed.

Lemma filter_all {A : Type} (f : A -> bool) (l : list A) :
  (forall x, f x = true) -> filter f l = l.
Proof.
  intros H. induction l as [|x l IH]; simpl; [reflexivity|].
  now rewrite H, IH.
Qed.

Lemma sorted_split_le {A : Type} (R : A -> A -> Prop) (l1 l2 l3 : list A) (a b : A) :
  StronglySorted R (l1 ++ a :: l2 ++ b :: l3) -> R a b.
Proof.
  intros Hs. apply sorted_app_inv in Hs. destruct Hs as [Hs _].
  apply StronglySorted_inv in Hs. destruct Hs as [_ Hall].
  rewrite Forall_forall in Hall. apply Hall. apply in_elt.
Qed.

(** ** The claims *)

(** C1, as the code has it: the empty query is not a code query, and the
    keyword search for it returns every record of the dataset, since the
    empty string occurs in every description; the records come out in the
    keyword matcher's order, and the result is empty only for the empty
    dataset. *)
Theorem empty_query_is_keyword_query_matching_every_record (data : Dataset) :
  is_code_query "" = false
  /\ Permutation (search_by_keyword data "") data
  /\ StronglySorted (keyword_le "") (search_by_keyword data "")
  /\ (search_by_keyword data "" = [] <-> data = []).
Proof.
  assert (P : Permutation (search_by_keyword data "") data).
  { rewrite search_by_keyword_perm. simpl. rewrite filter_all; [reflexivity|].
    intros x. apply contains_empty. }
  split; [reflexivity|]. split; [exact P|].
  split; [apply search_by_keyword_sorted|]. split; intros H.
  - rewrite H in P. now apply Permutation_nil in P.
  - subst. reflexivity.
Qed.

(** C1 fails as stated: on a dataset of one record the keyword search for
    the empty string returns that record. *)
Lemma empty_query_returns_the_record :
  search_by_keyword [item "020" isbn_number] "" = [item "020" isbn_number]
  /\ search_by_keyword [item "020" isbn_number] "" <> [].
Proof. split; [reflexivity | discriminate]. Qed.

(** C2: on a dataset whose keys have at least three characters the code
    matcher returns, without raising, exactly the pairs whose key starts
    with the query when case is ignored, in the order of the sort key
    (group, key); a field precedes every subfield in the output; and when
    the entries matching "020" are 020, 020a and 0206, in whatever order the
    dataset has them, the output is [020; 020a; 0206]. *)
Theorem search_by_code_returns_sorted_prefix_matches
    (data : Dataset) (code : string) :
  keys_at_least_3 data ->
  exists result,
    search_by_code data code = Ok result
    /\ (forall x, In x result <-> In x data /\ starts_with_ci (fst x) code)
    /\ (unique_keys data -> unique_keys result)
    /\ StronglySorted code_le result
    /\ (forall field sub,
          In field result -> In sub result ->
          String.length (fst field) = 3 -> 3 < String.length (fst sub) ->
          precedes field sub result)
    /\ (forall e1 e2 e3,
          code = "020" -> unique_keys data ->
          (forall x, In x data /\ starts_with_ci (fst x) "020"
                     <-> In x [("020", e1); ("020a", e2); ("0206", e3)]) ->
          result = [("020", e1); ("020a", e2); ("0206", e3)]).
Proof.
  intros Hk. exists (PySort.sort_by code_cmp code_rank (code_matches data code)).
  assert (P : Permutation (PySort.sort_by code_cmp code_rank (code_matches data code))
                (code_matches data code)) by apply sort_by_perm.
  assert (S : StronglySorted code_le
                (PySort.sort_by code_cmp code_rank (code_matches data code))).
  { eapply sorted_impl; [|apply sort_by_sorted, code_cmp_strict].
    intros a b. apply code_le_iff. }
  assert (U : unique_keys data ->
              unique_keys (PySort.sort_by code_cmp code_rank (code_matches data code))).
  { unfold unique_keys. intros Hu.
    eapply Permutation_NoDup;
      [apply Permutation_map, Permutation_sym, P|].
    unfold code_matches. now apply nodup_map_filter. }
  split; [now apply search_by_code_sort|].
  split.
  { intros x. rewrite <- code_matches_in. split; apply Permutation_in;
      [exact P | apply Permutation_sym, P]. }
  split; [exact U|]. split; [exact S|]. split.
  - intros field sub Hf Hs Lf Ls.
    apply (sorted_precedes code_le); auto.
    + unfold code_le, code_group. rewrite Lf. simpl.
      destruct (Nat.eqb (String.length (fst sub)) 3) eqn:E.
      * apply Nat.eqb_eq in E. lia.
      * destruct (String.get 3 (fst sub)) as [c|];
          [destruct (PyStr.isalpha_char c)|]; lia.
    + intros ->. lia.
  - intros e1 e2 e3 -> Hu Hin.
    apply (sorted_perm_unique code_le); auto.
    + intros a b Ha Hb Hab Hba. apply (unique_keys_inj _ a b (U Hu) Ha Hb).
      apply code_le_iff in Hab, Hba.
      pose proof (le_of_antisym code_cmp code_cmp_strict _ _ Hab Hba) as E.
      unfold code_rank in E. congruence.
    + repeat constructor; apply code_le_iff; reflexivity.
    + rewrite P. apply NoDup_Permutation.
      * eapply nodup_of_map. unfold code_matches. apply nodup_map_filter, Hu.
      * repeat constructor; simpl; intuition congruence.
      * intros x. rewrite code_matches_in. apply Hin.
Qed.

Lemma search_by_code_on_isbn_dataset :
  keys_at_least_3 isbn_dataset
  /\ exists result,
       search_by_code isbn_dataset "020" = Ok result
       /\ StronglySorted code_le result.
Proof.
  assert (H : keys_at_least_3 isbn_dataset).
  { unfold keys_at_least_3, isbn_dataset. repeat (constructor; [simpl; lia|]).
    constructor. }
  split; [exact H|].
  destruct (search_by_code_returns_sorted_prefix_matches isbn_dataset "020" H)
    as (result & Hr & _ & _ & Hs & _).
  exists result. split; [exact Hr | exact Hs].
Defined.

Example search_by_code_020 :
  search_by_code isbn_dataset "020"
  = Ok [ item "020" "International Standard Book Number (ISBN) (R)";
         item "020a" "International Standard Book Number (NR)";
         item "0206" "Linkage (NR)" ].
Proof. reflexivity. Qed.

Example search_by_code_short_key :
  search_by_code [item "02" "Short key"] "0" = Raise IndexError.
Proof. reflexivity. Qed.

(** C3, as the code has it: the keyword matcher returns exactly the records
    whose lower-cased Value contains the lower-cased query, sorted by (not
    exact, key longer than 3, key length, key), a record being exact when
    the lower-cased query is one of the tokens left after the delimiters
    become spaces and the text is split on white space; hence every exact
    record precedes every record that is not exact, whatever the order of the
    dataset.  Both named descriptions are exact for "isbn", the hyphen
    being a delimiter, so exactness does not order them. *)
Theorem search_by_keyword_returns_sorted_substring_matches
    (data : Dataset) (keyword : string) :
  (forall x, In x (search_by_keyword data keyword)
             <-> In x data
                 /\ is_substring (PyStr.lower keyword) (PyStr.lower (Value (snd x))))
  /\ (unique_keys data -> unique_keys (search_by_keyword data keyword))
  /\ StronglySorted (keyword_le keyword) (search_by_keyword data keyword)
  /\ (forall entry,
        is_exact keyword entry = true
        <-> In (PyStr.lower keyword)
              (PyStr.split (delimiters_to_spaces (PyStr.lower (Value entry)))))
  /\ (forall a b,
        In a (search_by_keyword data keyword) ->
        In b (search_by_keyword data keyword) ->
        is_exact keyword (snd a) = true -> is_exact keyword (snd b) = false ->
        precedes a b (search_by_keyword data keyword))
  /\ (forall k1 k2,
        is_exact "isbn" (snd (item k1 isbn_number)) = true
        /\ is_exact "isbn" (snd (item k2 isbn_note)) = true).
Proof.
  pose proof (search_by_keyword_perm data keyword) as P.
  pose proof (search_by_keyword_sorted data keyword) as S.
  split.
  { intros x. rewrite <- contains_iff.
    change (PyStr.contains (PyStr.lower keyword) (PyStr.lower (Value (snd x))))
      with (keyword_hit (PyStr.lower keyword) x).
    rewrite <- filter_In. split; apply Permutation_in;
      [exact P | apply Permutation_sym, P]. }
  split.
  { unfold unique_keys. intros Hu.
    eapply Permutation_NoDup; [apply Permutation_map, Permutation_sym, P|].
    now apply nodup_map_filter. }
  split; [exact S|]. split.
  { intros entry. unfold is_exact, words_of. now rewrite replace_delimiters, mem_iff. }
  split.
  - intros a b Ha Hb Ea Eb. apply (sorted_precedes (keyword_le keyword)); auto.
    + unfold keyword_le, bool_lt. rewrite Ea, Eb. simpl.
      intros [[H _] | [H _]]; discriminate.
    + intros ->. congruence.
  - intros k1 k2. split; reflexivity.
Qed.

(** C3 fails as stated: with the ISBN-related note on field 500 and the
    International Standard Book Number on subfield 020a, searching "isbn"
    puts the note first. *)
Lemma isbn_note_is_ranked_first :
  search_by_keyword [item "020a" isbn_number; item "500" isbn_note] "isbn"
  = [item "500" isbn_note; item "020a" isbn_number]
  /\ ~ precedes (item "020a" isbn_number) (item "500" isbn_note)
         (search_by_keyword [item "020a" isbn_number; item "500" isbn_note] "isbn").
Proof.
  assert (E : search_by_keyword [item "020a" isbn_number; item "500" isbn_note] "isbn"
              = [item "500" isbn_note; item "020a" isbn_number]) by reflexivity.
  split; [exact E|]. rewrite E. intros (l1 & l2 & l3 & H).
  unfold item in H.
  destruct l1 as [|x [|y l1]]; simpl in H.
  - discriminate H.
  - destruct l2 as [|z l2]; simpl in H; [discriminate H|].
    destruct l2; discriminate H.
  - destruct l1; discriminate H.
Qed.

(** C4, as the code has it: in the output of the keyword matcher a result
    that stands before another one is not after it in the order given by
    exactness, then field before subfield, then the length of the key, then
    the key itself. *)
Theorem search_by_keyword_orders_by_key_length
    (data : Dataset) (keyword : string) (l1 l2 l3 : list Item) (a b : Item) :
  search_by_keyword data keyword = (l1 ++ a :: l2 ++ b :: l3)%list ->
  keyword_le keyword a b.
Proof.
  intros E. pose proof (search_by_keyword_sorted data keyword) as S.
  rewrite E in S. eapply sorted_split_le; exact S.
Qed.

Lemma search_by_keyword_orders_isbn_fields :
  keyword_le "isbn" (item "020" "ISBN of the manifestation") (item "021" "ISBN").
Proof.
  apply (search_by_keyword_orders_by_key_length
           [item "021" "ISBN"; item "020" "ISBN of the manifestation"] "isbn"
           [] [] []).
  reflexivity.
Defined.

(** C4 fails as stated: two exact matches on fields 020 and 021 are returned
    in the order of their keys, although the description of 021 is the
    shorter one. *)
Lemma description_length_does_not_order :
  search_by_keyword [item "021" "ISBN"; item "020" "ISBN of the manifestation"] "isbn"
  = [item "020" "ISBN of the manifestation"; item "021" "ISBN"]
  /\ ~ keyword_le_by_description "isbn"
         (item "020" "ISBN of the manifestation") (item "021" "ISBN").
Proof.
  split; [reflexivity|].
  unfold keyword_le_by_description, bool_lt.
  intros [[_ H] | [_ [[_ H] | [_ [H | [H _]]]]]]; vm_compute in H;
    try discriminate; lia.
Qed.

(** C9, as the code has it: a query is a code query exactly when it is not
    empty and its first character satisfies [isdigit], which holds for the
    decimal digits and for the superscripts one, two and three; when the
    first character is ASCII that is exactly being a decimal digit; the
    empty string is not a code query, and the classifier is total. *)
Theorem is_code_query_iff_first_char_isdigit (query : string) :
  (is_code_query query = true
   <-> exists c rest, query = String c rest /\ PyStr.isdigit_char c = true)
  /\ (forall c rest,
        query = String c rest -> (PyStr.code c < 128)%N ->
        (is_code_query query = true <-> PyStr.is_decimal_digit c = true))
  /\ (forall c,
        PyStr.isdigit_char c = true
        <-> PyStr.is_decimal_digit c = true
            \/ PyStr.code c = 178%N \/ PyStr.code c = 179%N \/ PyStr.code c = 185%N)
  /\ is_code_query "" = false.
Proof.
  split; [|split; [|split; [|reflexivity]]].
  - destruct query as [|c rest]; simpl.
    + split; [discriminate | intros (c & rest & H & _); discriminate].
    + split; [intros H; now exists c, rest|].
      intros (c' & rest' & H & Hd). now injection H as -> ->.
  - intros c rest -> Hc. simpl. unfold PyStr.isdigit_char, PyStr.is_code.
    assert (E1 : (PyStr.code c =? 178)%N = false) by (apply N.eqb_neq; lia).
    assert (E2 : (PyStr.code c =? 179)%N = false) by (apply N.eqb_neq; lia).
    assert (E3 : (PyStr.code c =? 185)%N = false) by (apply N.eqb_neq; lia).
    rewrite E1, E2, E3, !orb_false_r. reflexivity.
  - intros c. unfold PyStr.isdigit_char, PyStr.is_code.
    rewrite !orb_true_iff, !N.eqb_eq. tauto.
Qed.

(** C9 fails as stated: a query that starts with the superscript two is a
    code query, and the superscript two is not a decimal digit. *)
Lemma superscript_two_is_code_query :
  is_code_query (String superscript_two "0") = true
  /\ PyStr.is_decimal_digit superscript_two = false.
Proof. split; reflexivity. Qed.

(** ** Rendering *)

Lemma stdout_print_all (texts : list string) (w : World) :
  stdout (print_all texts w) = (stdout w ++ texts)%list.
Proof.
  unfold print_all. revert w.
  induction texts as [|t texts IH]; intros w; simpl.
  - now rewrite app_nil_r.
  - rewrite IH. simpl. now rewrite <- app_assoc.
Qed.

Lemma files_print_all (texts : list string) (w : World) :
  marc_json (print_all texts w) = marc_json w
  /\ marc_verbose_json (print_all texts w) = marc_verbose_json w.
Proof.
  unfold print_all. revert w.
  induction texts as [|t texts IH]; intros w; simpl; [now split|].
  destruct (IH (print t w)) as [H1 H2]. now rewrite H1, H2.
Qed.

Lemma length_enumerate_from {A : Type} (start : nat) (xs : list A) :
  List.length (enumerate_from start xs) = List.length xs.
Proof.
  revert start. induction xs as [|x xs IH]; intros start; simpl;
    [reflexivity | now rewrite IH].
Qed.

Lemma nth_error_enumerate_from {A : Type} (start i : nat) (xs : list A) :
  nth_error (enumerate_from start xs) i
  = option_map (fun x => (start + i, x)) (nth_error xs i).
Proof.
  revert start i. induction xs as [|x xs IH]; intros start [|i]; simpl;
    try reflexivity.
  - now rewrite Nat.add_0_r.
  - rewrite IH. now rewrite Nat.add_succ_r.
Qed.

Lemma nth_error_firstn_lt {A : Type} (n i : nat) (xs : list A) :
  i < n -> nth_error (firstn n xs) i = nth_error xs i.
Proof.
  revert i xs. induction n as [|n IH]; intros i xs Hi; [lia|].
  destruct xs as [|x xs]; [reflexivity|].
  destruct i as [|i]; simpl; [reflexivity|]. apply IH. lia.
Qed.

Lemma truthy_list_true {A : Type} (l : list A) : l <> [] -> truthy_list l = true.
Proof. destruct l; [congruence | reflexivity]. Qed.

Lemma display_texts_brief (matches : list Item) :
  matches <> [] ->
  display_texts matches false
  = map (fun x : Item => format_output (fst x) (Value (snd x))) matches.
Proof. destruct matches; [congruence | reflexivity]. Qed.

Lemma display_texts_verbose (matches : list Item) :
  matches <> [] ->
  display_texts matches true
  = map (fun x : Item => format_verbose_output (fst x) (snd x))
      (filter (fun x : Item => Nat.eqb (String.length (fst x)) 3) matches).
Proof.
  intros Hne. destruct matches as [|m matches]; [congruence|].
  unfold display_texts. generalize (m :: matches) as l. clear.
  induction l as [|x l IH]; simpl; [reflexivity|].
  destruct (Nat.eqb (String.length (fst x)) 3); simpl; now rewrite IH.
Qed.

(** C5, as the code has it: when the Value ends with "(R)" or with "(NR)",
    the displayed description is the Value without that one trailing token,
    stripped of white space at both ends, and the token is the badge; when
    it ends with neither, the description is the Value unchanged and the
    badge is empty; brief rendering is the displayed key, the description
    and the badge; and displaying results only adds to the printed output,
    the stored datasets staying as they were. *)
Theorem format_output_strips_one_badge (value : string) :
  (forall body,
     value = body ++ "(R)" ->
     extract_repeatability value
     = (PyStr.strip body, Fore.GREEN ++ "(R)" ++ Style.RESET_ALL))
  /\ (forall body,
        value = body ++ "(NR)" ->
        extract_repeatability value
        = (PyStr.strip body, Fore.YELLOW ++ "(NR)" ++ Style.RESET_ALL))
  /\ ((forall body, value <> body ++ "(R)") ->
      (forall body, value <> body ++ "(NR)") ->
      extract_repeatability value = (value, ""))
  /\ (forall key,
        format_output key value
        = fst (display_key_and_spacing key) ++ Style.RESET_ALL
          ++ snd (display_key_and_spacing key)
          ++ fst (extract_repeatability value) ++ " "
          ++ snd (extract_repeatability value))
  /\ (forall matches verbose w,
        marc_json (display_results matches verbose w) = marc_json w
        /\ marc_verbose_json (display_results matches verbose w)
           = marc_verbose_json w).
Proof.
  split; [|split; [|split; [|split]]].
  - intros body ->. unfold extract_repeatability.
    replace (PyStr.endswith (body ++ "(R)") "(R)") with true
      by (symmetry; apply endswith_iff; now exists body).
    pose proof (drop_last_append body "(R)") as D.
    change (String.length "(R)") with 3 in D. now rewrite D.
  - intros body ->. unfold extract_repeatability.
    destruct (PyStr.endswith (body ++ "(NR)") "(R)") eqn:E.
    + apply endswith_iff in E. destruct E as [body' E].
      symmetry in E. now apply suffixes_exclusive in E.
    + replace (PyStr.endswith (body ++ "(NR)") "(NR)") with true
        by (symmetry; apply endswith_iff; now exists body).
      pose proof (drop_last_append body "(NR)") as D.
      change (String.length "(NR)") with 4 in D. now rewrite D.
  - intros HR HNR. unfold extract_repeatability.
    destruct (PyStr.endswith value "(R)") eqn:E1.
    { apply endswith_iff in E1. destruct E1 as [body E1]. now apply HR in E1. }
    destruct (PyStr.endswith value "(NR)") eqn:E2; [|reflexivity].
    apply endswith_iff in E2. destruct E2 as [body E2]. now apply HNR in E2.
  - intros key. unfold format_output.
    destruct (display_key_and_spacing key) as [display_key spacing].
    now destruct (extract_repeatability value) as [value' repeatability].
  - intros matches verbose w. apply files_print_all.
Qed.

(** C5 fails as stated: for a Value that starts with a space the displayed
    description also loses that leading space, so it is not the Value with
    only the trailing token and the white space before it removed. *)
Lemma leading_space_is_stripped_too :
  fst (extract_repeatability " Title statement (NR)") = "Title statement"
  /\ PyStr.rstrip (PyStr.drop_last 4 " Title statement (NR)") = " Title statement"
  /\ fst (extract_repeatability " Title statement (NR)")
     <> PyStr.rstrip (PyStr.drop_last 4 " Title statement (NR)").
Proof. repeat split; try reflexivity. discriminate. Qed.

Example format_output_title :
  extract_repeatability "Title statement (NR)"
  = ("Title statement", Fore.YELLOW ++ "(NR)" ++ Style.RESET_ALL)
  /\ extract_repeatability "Title statement" = ("Title statement", "").
Proof. split; reflexivity. Qed.

(** C6: in verbose mode the texts printed for a non-empty match list are the
    renderings of the pairs whose key has length 3, in order; a pair whose
    key is longer is not among them, and a list of such pairs only prints
    nothing. *)
Theorem verbose_display_skips_subfields (matches : list Item) (w : World) :
  matches <> [] ->
  stdout (display_results matches true w)
  = (stdout w
     ++ map (fun x : Item => format_verbose_output (fst x) (snd x))
          (filter (fun x : Item => Nat.eqb (String.length (fst x)) 3) matches))%list
  /\ (forall x,
        In x matches -> 3 < String.length (fst x) ->
        ~ In x (filter (fun x : Item => Nat.eqb (String.length (fst x)) 3) matches))
  /\ ((forall x, In x matches -> 3 < String.length (fst x)) ->
      stdout (display_results matches true w) = stdout w).
Proof.
  intros Hne.
  pose proof (display_texts_verbose matches Hne) as E.
  unfold display_results. rewrite stdout_print_all, E.
  split; [reflexivity|]. split.
  - intros x _ Hlen Hin. apply filter_In in Hin. destruct Hin as [_ Hin].
    apply Nat.eqb_eq in Hin. lia.
  - intros Hall.
    replace (filter (fun x : Item => Nat.eqb (String.length (fst x)) 3) matches)
      with (@nil Item); [simpl; now rewrite app_nil_r|].
    symmetry. clear E Hne. induction matches as [|x l IH]; simpl; [reflexivity|].
    destruct (Nat.eqb (String.length (fst x)) 3) eqn:E.
    + apply Nat.eqb_eq in E. specialize (Hall x (or_introl eq_refl)). lia.
    + apply IH. intros y Hy. apply Hall. now right.
Qed.

Lemma verbose_display_of_a_subfield_and_its_field :
  stdout (display_results [item "245a" "Title (NR)"; ("245", title_entry)] true sample_world)
  = [format_verbose_output "245" title_entry].
Proof.
  destruct (verbose_display_skips_subfields
              [item "245a" "Title (NR)"; ("245", title_entry)] sample_world)
    as [H _]; [discriminate|].
  exact H.
Defined.

(** C7: for a field record with Details, the detailed rendering is the
    other sections followed by the examples section, and that section shows
    min(n, 5) of the n stored examples: the i-th line shown is the i-th
    stored example, numbered i counting from 1, the rest being dropped; a
    line is two spaces, the number in decimal in green, a full stop and,
    after a space, the example; seven examples give five lines that start
    with 1., 2., 3., 4. and 5. *)
Theorem verbose_output_shows_first_five_examples
    (key : string) (entry : Entry) (details : DetailsT) :
  String.length key = 3 ->
  Details entry = Some details ->
  format_verbose_output key entry
  = PyStr.join PyStr.nl
      ((header_lines key entry ++ definition_lines details
        ++ indicator_lines details ++ subfield_lines details)
       ++ example_lines details)%list
  /\ (examples details <> [] ->
      example_lines details
      = (examples_heading :: numbered_examples details ++ [""])%list)
  /\ (examples details = [] -> example_lines details = [])
  /\ List.length (numbered_examples details)
     = Nat.min (List.length (examples details)) 5
  /\ (forall i,
        i < Nat.min (List.length (examples details)) 5 ->
        nth_error (numbered_examples details) i
        = option_map (example_line (S i)) (nth_error (examples details) i))
  /\ (forall x1 x2 x3 x4 x5 x6 x7,
        examples details = [x1; x2; x3; x4; x5; x6; x7] ->
        numbered_examples details
        = [ example_line 1 x1; example_line 2 x2; example_line 3 x3;
            example_line 4 x4; example_line 5 x5 ])
  /\ (forall i example,
        example_line i example
        = "  " ++ Fore.GREEN ++ PyStr.of_nat i ++ "." ++ Style.RESET_ALL
          ++ " " ++ example)
  /\ (PyStr.of_nat 1 = "1" /\ PyStr.of_nat 2 = "2" /\ PyStr.of_nat 3 = "3"
      /\ PyStr.of_nat 4 = "4" /\ PyStr.of_nat 5 = "5")
  /\ (forall x1 x2 x3 x4 x5 x6 x7,
        examples details = [x1; x2; x3; x4; x5; x6; x7] ->
        numbered_examples details
        = [ "  " ++ Fore.GREEN ++ "1." ++ Style.RESET_ALL ++ " " ++ x1;
            "  " ++ Fore.GREEN ++ "2." ++ Style.RESET_ALL ++ " " ++ x2;
            "  " ++ Fore.GREEN ++ "3." ++ Style.RESET_ALL ++ " " ++ x3;
            "  " ++ Fore.GREEN ++ "4." ++ Style.RESET_ALL ++ " " ++ x4;
            "  " ++ Fore.GREEN ++ "5." ++ Style.RESET_ALL ++ " " ++ x5 ]).
Proof.
  intros Hlen Hd.
  split; [|split; [|split; [|split; [|split; [|split; [|split; [|split]]]]]]].
  - unfold format_verbose_output. rewrite Hd, Hlen. simpl negb. cbv iota.
    unfold verbose_lines. now rewrite <- !app_assoc.
  - intros Hne. unfold example_lines.
    destruct (examples details); [congruence | reflexivity].
  - intros E. unfold example_lines. now rewrite E.
  - unfold numbered_examples.
    rewrite length_map, length_enumerate_from, length_firstn. lia.
  - intros i Hi. unfold numbered_examples.
    rewrite nth_error_map, nth_error_enumerate_from.
    rewrite nth_error_firstn_lt by lia.
    now destruct (nth_error (examples details) i).
  - intros x1 x2 x3 x4 x5 x6 x7 E. unfold numbered_examples. now rewrite E.
  - reflexivity.
  - repeat split; reflexivity.
  - intros x1 x2 x3 x4 x5 x6 x7 E. unfold numbered_examples. now rewrite E.
Qed.

Lemma verbose_output_of_title_field :
  numbered_examples title_details
  = [ example_line 1 "e1"; example_line 2 "e2"; example_line 3 "e3";
      example_line 4 "e4"; example_line 5 "e5" ].
Proof.
  destruct (verbose_output_shows_first_five_examples "245" title_entry title_details
              eq_refl eq_refl) as (_ & _ & _ & _ & _ & H & _).
  exact (H "e1" "e2" "e3" "e4" "e5" "e6" "e7" eq_refl).
Defined.

Example example_line_numbering :
  example_line 3 "245 10 $a Title" = "  " ++ Fore.GREEN ++ "3." ++ Style.RESET_ALL ++ " 245 10 $a Title".
Proof. reflexivity. Qed.




(** C10: a pair whose key has length 3 and whose record has no Details is
    rendered in verbose mode by the brief rendering of its key and Value:
    the detailed renderer returns that text, verbose display prints it for
    the pair, and nothing is raised, the renderers being total. *)
Theorem verbose_field_without_details_is_rendered_brief
    (key : string) (entry : Entry) :
  String.length key = 3 ->
  Details entry = None ->
  format_verbose_output key entry = format_output key (Value entry)
  /\ (forall w,
        stdout (display_results [(key, entry)] true w)
        = (stdout w ++ [format_output key (Value entry)])%list)
  /\ (forall matches w,
        In (key, entry) matches ->
        In (format_output key (Value entry))
           (stdout (display_results matches true w))).
Proof.
  intros Hlen Hd.
  assert (E : format_verbose_output key entry = format_output key (Value entry))
    by (unfold format_verbose_output; now rewrite Hd).
  split; [exact E|]. split.
  - intros w. unfold display_results. rewrite stdout_print_all.
    unfold display_texts. simpl. now rewrite Hlen, E.
  - intros matches w Hin.
    assert (Hne : matches <> []) by (intros ->; destruct Hin).
    unfold display_results.
    rewrite stdout_print_all, (display_texts_verbose matches Hne).
    apply in_or_app. right. rewrite <- E.
    apply (in_map (fun x : Item => format_verbose_output (fst x) (snd x))
             _ (key, entry)).
    apply filter_In. split; [exact Hin|]. simpl. now rewrite Hlen.
Qed.

Lemma verbose_control_field_is_rendered_brief :
  format_verbose_output "001" (record "001" "Control Number (NR)")
  = format_output "001" "Control Number (NR)".
Proof.
  destruct (verbose_field_without_details_is_rendered_brief
              "001" (record "001" "Control Number (NR)") eq_refl eq_refl)
    as (H & _).
  exact H.
Defined.

(** * Further properties *)

(** ** The matchers on any dataset *)

Lemma pyexc_unique (e : PyExc) : e = IndexError.
Proof. now destruct e. Qed.

Lemma sort_key_short (x : Item) :
  String.length (fst x) < 3 -> sort_key x = Raise IndexError.
Proof.
  destruct x as [key entry]. unfold sort_key. simpl.
  destruct key as [|c0 [|c1 [|c2 key]]]; simpl; intros H; try reflexivity; lia.
Qed.

Lemma compute_keys_raises {A K : Type} (key : A -> Result K) (l : list A) :
  Exists (fun x => exists e, key x = Raise e) l ->
  exists e, compute_keys key l = Raise e.
Proof.
  induction 1 as [x l [e He] | x l _ [e IH]]; simpl.
  - exists e. now rewrite He.
  - destruct (key x) as [k|e']; [|now exists e'].
    exists e. now rewrite IH.
Qed.

Lemma search_by_code_of_long_matches (data : Dataset) (code : string) :
  Forall (fun x : Item => 3 <= String.length (fst x)) (code_matches data code) ->
  search_by_code data code
  = Ok (PySort.sort_by code_cmp code_rank (code_matches data code)).
Proof.
  intros H. unfold search_by_code. apply sort_with_key_total.
  eapply Forall_impl; [|exact H]. intros x. apply sort_key_rank.
Qed.

Lemma search_by_code_of_short_match (data : Dataset) (code : string) :
  Exists (fun x : Item => String.length (fst x) < 3) (code_matches data code) ->
  search_by_code data code = Raise IndexError.
Proof.
  intros H. unfold search_by_code, sort_with_key.
  destruct (compute_keys_raises sort_key (code_matches data code)) as [e He].
  - eapply Exists_impl; [|exact H]. intros x Hx. exists IndexError.
    now apply sort_key_short.
  - rewrite He. f_equal. apply pyexc_unique.
Qed.

Lemma long_or_short (l : list Item) :
  Forall (fun x : Item => 3 <= String.length (fst x)) l
  \/ Exists (fun x : Item => String.length (fst x) < 3) l.
Proof.
  induction l as [|x l [IH | IH]]; [left; constructor | |right; now constructor 2].
  destruct (le_lt_dec 3 (String.length (fst x))) as [H | H].
  - left. now constructor.
  - right. now constructor.
Qed.

Lemma permutation_filter {A : Type} (f : A -> bool) (l l' : list A) :
  Permutation l l' -> Permutation (filter f l) (filter f l').
Proof.
  induction 1 as [|x l l' _ IH|x y l|l l' l'' _ IH1 _ IH2]; simpl.
  - constructor.
  - destruct (f x); [now constructor | exact IH].
  - destruct (f x), (f y); try reflexivity. apply perm_swap.
  - now rewrite IH1.
Qed.

Lemma sort_by_of_permutation {A K : Type} (c : K -> K -> comparison)
    (key : A -> K) (l l' : list A) :
  strict_cmp c ->
  (forall a b, In a l -> In b l -> key a = key b -> a = b) ->
  Permutation l l' ->
  PySort.sort_by c key l = PySort.sort_by c key l'.
Proof.
  intros Hc Hinj Hp.
  apply (sorted_perm_unique (fun a b => PySort.le_of c (key a) (key b) = true)).
  - intros a b Ha Hb Hab Hba.
    apply Hinj.
    + eapply Permutation_in; [apply (sort_by_perm c key) | exact Ha].
    + eapply Permutation_in; [apply (sort_by_perm c key) | exact Hb].
    + now apply (le_of_antisym c Hc).
  - now apply sort_by_sorted.
  - now apply sort_by_sorted.
  - rewrite (sort_by_perm c key l), (sort_by_perm c key l'). exact Hp.
Qed.

(** X1: the code matcher raises exactly when some key that starts with the
    query, case ignored, has fewer than three characters; the exception is
    an IndexError, and in every other case a list is returned. *)
Theorem search_by_code_raises_iff_short_match (data : Dataset) (code : string) :
  (search_by_code data code = Raise IndexError
   <-> exists x,
         In x data /\ starts_with_ci (fst x) code /\ String.length (fst x) < 3)
  /\ (search_by_code data code <> Raise IndexError ->
      exists result, search_by_code data code = Ok result).
Proof.
  assert (E : Exists (fun x : Item => String.length (fst x) < 3) (code_matches data code)
              <-> exists x,
                    In x data /\ starts_with_ci (fst x) code
                    /\ String.length (fst x) < 3).
  { rewrite Exists_exists. split; intros (x & H1 & H2).
    - apply code_matches_in in H1. exists x. tauto.
    - exists x. rewrite code_matches_in. tauto. }
  rewrite <- E.
  destruct (long_or_short (code_matches data code)) as [H | H].
  - rewrite (search_by_code_of_long_matches data code H). split.
    + split; [discriminate|]. intros Hex. exfalso.
      apply Exists_exists in Hex. destruct Hex as (x & Hin & Hlt).
      rewrite Forall_forall in H. specialize (H x Hin). simpl in H. lia.
    + intros _. eauto.
  - rewrite (search_by_code_of_short_match data code H). split.
    + tauto.
    + congruence.
Qed.

(** X2: with unique keys the result of the code matcher, a list or the
    exception, does not depend on the order in which the dataset holds its
    records. *)
Theorem search_by_code_ignores_dataset_order
    (data data' : Dataset) (code : string) :
  unique_keys data ->
  Permutation data data' ->
  search_by_code data code = search_by_code data' code.
Proof.
  intros Hu Hp.
  assert (Hm : Permutation (code_matches data code) (code_matches data' code))
    by (unfold code_matches; now apply permutation_filter).
  destruct (long_or_short (code_matches data code)) as [H | H].
  - rewrite (search_by_code_of_long_matches data code H).
    rewrite (search_by_code_of_long_matches data' code).
    + f_equal. apply sort_by_of_permutation; [apply code_cmp_strict | | exact Hm].
      intros a b Ha Hb E.
      apply (unique_keys_inj (code_matches data code)); auto.
      * unfold unique_keys, code_matches. now apply nodup_map_filter.
      * unfold code_rank in E. congruence.
    + rewrite Forall_forall in *. intros x Hx. apply H.
      eapply Permutation_in; [apply Permutation_sym, Hm | exact Hx].
  - rewrite (search_by_code_of_short_match data code H).
    rewrite (search_by_code_of_short_match data' code); [reflexivity|].
    rewrite Exists_exists in *. destruct H as (x & Hx & Hlt).
    exists x. split; [|exact Hlt]. eapply Permutation_in; [exact Hm | exact Hx].
Qed.

Lemma search_by_code_ignores_order_of_isbn_dataset :
  search_by_code isbn_dataset "020" = search_by_code (rev isbn_dataset) "020".
Proof.
  apply search_by_code_ignores_dataset_order.
  - unfold unique_keys, isbn_dataset. simpl.
    repeat constructor; simpl; intuition discriminate.
  - apply Permutation_rev.
Defined.

(** X3: with unique keys the result of the keyword matcher does not depend
    on the order in which the dataset holds its records. *)
Theorem search_by_keyword_ignores_dataset_order
    (data data' : Dataset) (keyword : string) :
  unique_keys data ->
  Permutation data data' ->
  search_by_keyword data keyword = search_by_keyword data' keyword.
Proof.
  intros Hu Hp. rewrite !search_by_keyword_sort.
  apply sort_by_of_permutation.
  - apply keyword_cmp_strict.
  - intros a b Ha Hb E.
    apply (unique_keys_inj (filter (keyword_hit (PyStr.lower keyword)) data)); auto.
    + unfold unique_keys. now apply nodup_map_filter.
    + unfold keyword_rank in E. congruence.
  - now apply permutation_filter.
Qed.

Lemma search_by_keyword_ignores_order_of_isbn_dataset :
  search_by_keyword isbn_dataset "number"
  = search_by_keyword (rev isbn_dataset) "number".
Proof.
  apply search_by_keyword_ignores_dataset_order.
  - unfold unique_keys, isbn_dataset. simpl.
    repeat constructor; simpl; intuition discriminate.
  - apply Permutation_rev.
Defined.

(** ** Exact matches *)

Lemma lower_char_word (c : ascii) :
  is_word_char (PyStr.lower_char c) = is_word_char c.
Proof.
  destruct c as [b0 b1 b2 b3 b4 b5 b6 b7].
  destruct b0, b1, b2, b3, b4, b5, b6, b7; reflexivity.
Qed.

Lemma all_chars_lower (s : string) :
  all_chars is_word_char (PyStr.lower s) = all_chars is_word_char s.
Proof.
  induction s as [|c s IH]; simpl; [reflexivity|].
  now rewrite lower_char_word, IH.
Qed.

Lemma all_chars_append (p : ascii -> bool) (a b : string) :
  all_chars p (a ++ b) = all_chars p a && all_chars p b.
Proof.
  induction a as [|c a IH]; simpl; [reflexivity|].
  now rewrite IH, andb_assoc.
Qed.

Lemma split_from_tokens (word s : string) :
  all_chars is_word_char word = true ->
  all_chars (fun c => PyStr.isspace_char c || is_word_char c) s = true ->
  Forall (fun t => t <> "" /\ all_chars is_word_char t = true)
    (PyStr.split_from word s).
Proof.
  revert word. induction s as [|c s IH]; intros word Hw Hs; simpl.
  - destruct word; constructor; [split; [discriminate | exact Hw] | constructor].
  - simpl in Hs. apply andb_true_iff in Hs. destruct Hs as [Hc Hs].
    destruct (PyStr.isspace_char c) eqn:Ec.
    + destruct word as [|w word].
      * now apply IH.
      * constructor; [split; [discriminate | exact Hw]|]. now apply IH.
    + apply IH; [|exact Hs].
      rewrite all_chars_append, Hw. simpl. simpl in Hc. now rewrite Hc.
Qed.

Lemma split_from_substring (word s t : string) :
  In t (PyStr.split_from word s) -> is_substring t (word ++ s).
Proof.
  revert word. induction s as [|c s IH]; intros word; simpl.
  - destruct word as [|w word]; [intros []|].
    intros [<- | []]. exists "", "". reflexivity.
  - destruct (PyStr.isspace_char c).
    + destruct word as [|w word].
      * intros H. destruct (IH "" H) as (pre & post & E). simpl in E.
        exists (String c pre), post. simpl. now rewrite E.
      * intros [<- | H].
        { exists "", (String c s). reflexivity. }
        destruct (IH "" H) as (pre & post & E). simpl in E.
        exists (String w word ++ String c pre), post.
        rewrite E, append_assoc. reflexivity.
    + intros H. destruct (IH _ H) as (pre & post & E).
      exists pre, post. rewrite <- E, append_assoc. reflexivity.
Qed.

Lemma delimiters_to_spaces_chars (s : string) :
  all_chars (fun c => PyStr.isspace_char c || is_word_char c)
    (delimiters_to_spaces s) = true.
Proof.
  induction s as [|c s IH]; simpl; [reflexivity|].
  rewrite IH, andb_true_r. unfold is_word_char.
  destruct (is_delimiter c) eqn:Ed; [reflexivity|].
  rewrite Ed. now destruct (PyStr.isspace_char c).
Qed.

Lemma delimiters_to_spaces_split (s a b : string) :
  delimiters_to_spaces s = a ++ b ->
  exists s1 s2,
    s = s1 ++ s2 /\ delimiters_to_spaces s1 = a /\ delimiters_to_spaces s2 = b.
Proof.
  revert s. induction a as [|x a IH]; intros s E.
  - exists "", s. auto.
  - destruct s as [|c s]; [discriminate|]. simpl in E.
    injection E as Ex E. destruct (IH s E) as (s1 & s2 & -> & H1 & H2).
    exists (String c s1), s2. simpl. now rewrite Ex, H1.
Qed.

Lemma delimiters_to_spaces_word (s : string) :
  all_chars is_word_char (delimiters_to_spaces s) = true ->
  delimiters_to_spaces s = s.
Proof.
  induction s as [|c s IH]; simpl; [reflexivity|].
  rewrite andb_true_iff. intros [Hc Hs]. rewrite (IH Hs).
  destruct (is_delimiter c); [discriminate Hc | reflexivity].
Qed.

(** X4: a record is flagged as an exact match only when the query is a
    plain word, not empty and free of white space and of the delimiters
    [- / , ( )], and the record is also a substring match; so the empty
    query, a query of several words and a hyphenated query never rank a
    record as exact. *)
Theorem exact_match_is_a_plain_word_hit (keyword : string) (entry : Entry) :
  is_exact keyword entry = true ->
  keyword <> ""
  /\ all_chars is_word_char keyword = true
  /\ PyStr.contains (PyStr.lower keyword) (PyStr.lower (Value entry)) = true.
Proof.
  unfold is_exact, words_of. rewrite replace_delimiters, mem_iff. intros Hin.
  pose proof (split_from_tokens "" _ eq_refl
                (delimiters_to_spaces_chars (PyStr.lower (Value entry)))) as Ht.
  rewrite Forall_forall in Ht. destruct (Ht _ Hin) as [Hne Hw].
  split; [intros ->; now apply Hne|].
  split; [now rewrite <- all_chars_lower|].
  apply contains_iff.
  destruct (split_from_substring _ _ _ Hin) as (pre & post & E). simpl in E.
  destruct (delimiters_to_spaces_split _ _ _ E) as (s1 & s23 & Es & _ & E23).
  destruct (delimiters_to_spaces_split _ _ _ E23) as (s2 & s3 & -> & E2 & _).
  exists s1, s3. rewrite Es. f_equal. f_equal.
  rewrite <- E2 in Hw. rewrite <- E2. symmetry.
  now apply delimiters_to_spaces_word.
Qed.

Lemma isbn_number_is_an_exact_plain_word_hit :
  "isbn" <> ""
  /\ all_chars is_word_char "isbn" = true
  /\ PyStr.contains (PyStr.lower "isbn") (PyStr.lower isbn_number) = true.
Proof.
  apply (exact_match_is_a_plain_word_hit "isbn" (record "020" isbn_number)).
  reflexivity.
Defined.

Example hyphenated_query_is_not_exact :
  is_exact "isbn-related" (record "500" isbn_note) = false
  /\ PyStr.contains (PyStr.lower "isbn-related") (PyStr.lower isbn_note) = true.
Proof. split; reflexivity. Qed.

(** ** Subfields in the detailed rendering *)





Example subfields_of_title_field_order :
  map fst (PySort.sort_by subfield_cmp subfield_sort_key (subfields title_details))
  = ["a"; "6"].
Proof. reflexivity. Qed.

(** ** The command-line driver *)

Lemma print_all_cons (text : string) (texts : list string) (w : World) :
  print_all (text :: texts) w = print_all texts (print text w).
Proof. reflexivity. Qed.

Lemma print_all_app (texts texts' : list string) (w : World) :
  print_all (texts ++ texts') w = print_all texts' (print_all texts w).
Proof. unfold print_all. apply fold_left_app. Qed.

(** X6: when the data file of the chosen mode does not exist, the program
    prints an error line and a hint, two texts in all, and exits with status
    1, whatever the query and whatever the other data file holds; no search
    is made. *)
Theorem main_without_data_file_exits_with_status_1
    (query : string) (verbose : bool) (w : World) :
  (if verbose then marc_verbose_json w else marc_json w) = None ->
  exists error_line hint_line,
    main query verbose w = (print_all [error_line; hint_line] w, SysExit 1)
    /\ error_line
       = Fore.RED ++ "Error: "
         ++ (if verbose then "marc-verbose.json" else "marc.json")
         ++ " not found at " ++ parent_dir w ++ "/"
         ++ (if verbose then "marc-verbose.json" else "marc.json")
    /\ hint_line
       = Fore.YELLOW ++ "Run 'python scrape_marc.py' to generate the "
         ++ (if verbose then "verbose " else "") ++ "data file.".
Proof.
  intros H. destruct verbose.
  - eexists _, _. unfold main, load_verbose_data. rewrite H.
    split; [reflexivity|]. split; reflexivity.
  - eexists _, _. unfold main, load_marc_data. rewrite H.
    split; [reflexivity|]. split; reflexivity.
Qed.

Lemma main_without_verbose_file :
  snd (main "245" true
         {| parent_dir := "/opt/marc"; marc_json := Some isbn_dataset;
            marc_verbose_json := None; stdout := [] |})
  = SysExit 1.
Proof.
  destruct (main_without_data_file_exits_with_status_1 "245" true
              {| parent_dir := "/opt/marc"; marc_json := Some isbn_dataset;
                 marc_verbose_json := None; stdout := [] |} eq_refl)
    as (e & h & H & _).
  now rewrite H.
Defined.

(** X7: without the verbose flag, a code query on a dataset whose keys have
    at least three characters finishes normally and prints either the brief
    rendering of every pair whose key starts with the query, one text per
    pair in the code matcher's order, or, when no key starts with the query,
    the single notice that no field was found. *)
Theorem brief_code_lookup_prints_the_sorted_matches
    (query : string) (data : Dataset) (w : World) :
  is_code_query query = true ->
  marc_json w = Some data ->
  keys_at_least_3 data ->
  exists matches,
    search_by_code data query = Ok matches
    /\ Permutation matches (code_matches data query)
    /\ StronglySorted code_le matches
    /\ (matches <> [] ->
        main query false w
        = (print_all
             (map (fun x : Item => format_output (fst x) (Value (snd x))) matches)
             w, Finished))
    /\ (matches = [] ->
        main query false w = (print_all [no_code_match_notice query] w, Finished))
    /\ (matches = [] <-> forall x, In x data -> ~ starts_with_ci (fst x) query).
Proof.
  intros Hq Hd Hk.
  exists (PySort.sort_by code_cmp code_rank (code_matches data query)).
  pose proof (sort_by_perm code_cmp code_rank (code_matches data query)) as P.
  pose proof (search_by_code_sort data query Hk) as E.
  split; [exact E|]. split; [exact P|]. split.
  { eapply sorted_impl; [|apply sort_by_sorted, code_cmp_strict].
    intros a b. apply code_le_iff. }
  split; [|split].
  - intros Hne. unfold main, load_marc_data. rewrite Hd, Hq, E.
    rewrite (truthy_list_true _ Hne). unfold display_results.
    now rewrite (display_texts_brief _ Hne).
  - intros E0. unfold main, load_marc_data. rewrite Hd, Hq, E, E0. reflexivity.
  - split.
    + intros E0 x Hin Hs. rewrite E0 in P. apply Permutation_nil in P.
      assert (Hx : In x (code_matches data query))
        by (apply code_matches_in; now split).
      rewrite P in Hx. destruct Hx.
    + intros Hnone.
      destruct (code_matches data query) as [|x l] eqn:Em; [reflexivity|].
      exfalso. assert (Hx : In x (code_matches data query))
        by (rewrite Em; now left).
      apply code_matches_in in Hx. destruct Hx as [Hin Hs]. now apply (Hnone x).
Qed.

Lemma brief_code_lookup_on_sample_world :
  exists matches,
    search_by_code isbn_dataset "020" = Ok matches
    /\ StronglySorted code_le matches.
Proof.
  destruct (brief_code_lookup_prints_the_sorted_matches "020" isbn_dataset
              sample_world eq_refl eq_refl) as (matches & H1 & _ & H2 & _).
  - unfold keys_at_least_3, isbn_dataset.
    repeat (constructor; [simpl; lia|]). constructor.
  - exists matches. split; [exact H1 | exact H2].
Defined.

Lemma no_fields_among_subfields (l : list Item) :
  Forall (fun y : Item => 3 < String.length (fst y)) l ->
  filter (fun y : Item => Nat.eqb (String.length (fst y)) 3) l = [].
Proof.
  induction 1 as [|y l Hy _ IH]; simpl; [reflexivity|].
  destruct (Nat.eqb (String.length (fst y)) 3) eqn:E3; [|exact IH].
  apply Nat.eqb_eq in E3. lia.
Qed.

(** X8: with the verbose flag, a code query that matches only keys longer
    than three characters, such as the code of one subfield, prints nothing
    at all and finishes normally. *)
Theorem verbose_lookup_of_subfields_prints_nothing
    (query : string) (data : Dataset) (w : World) :
  is_code_query query = true ->
  marc_verbose_json w = Some data ->
  (exists x, In x data /\ starts_with_ci (fst x) query) ->
  (forall x, In x data -> starts_with_ci (fst x) query ->
             3 < String.length (fst x)) ->
  main query true w = (w, Finished).
Proof.
  intros Hq Hd (x & Hin & Hs) Hlong.
  assert (Hm : forall y, In y (code_matches data query) ->
                         3 < String.length (fst y)).
  { intros y Hy. apply code_matches_in in Hy. destruct Hy. now apply Hlong. }
  pose proof (sort_by_perm code_cmp code_rank (code_matches data query)) as P.
  assert (E : search_by_code data query
              = Ok (PySort.sort_by code_cmp code_rank (code_matches data query))).
  { apply search_by_code_of_long_matches. rewrite Forall_forall.
    intros y Hy. specialize (Hm y Hy). simpl. lia. }
  assert (Hne : PySort.sort_by code_cmp code_rank (code_matches data query) <> []).
  { intros E0. rewrite E0 in P. apply Permutation_nil in P.
    assert (Hx : In x (code_matches data query))
      by (apply code_matches_in; now split).
    rewrite P in Hx. destruct Hx. }
  unfold main, load_verbose_data. rewrite Hd, Hq, E.
  rewrite (truthy_list_true _ Hne). unfold display_results.
  rewrite (display_texts_verbose _ Hne).
  replace (filter (fun x0 : Item => Nat.eqb (String.length (fst x0)) 3)
             (PySort.sort_by code_cmp code_rank (code_matches data query)))
    with (@nil Item); [reflexivity|].
  symmetry. apply no_fields_among_subfields. rewrite Forall_forall.
  intros y Hy. apply Hm. eapply Permutation_in; [exact P | exact Hy].
Qed.

Lemma verbose_lookup_of_020a_prints_nothing :
  main "020a" true sample_world = (sample_world, Finished).
Proof.
  apply (verbose_lookup_of_subfields_prints_nothing "020a" isbn_dataset);
    try reflexivity.
  - exists (item "020a" "International Standard Book Number (NR)").
    split; [simpl; auto | apply startswith_lower_iff; reflexivity].
  - intros x Hin Hs. apply startswith_lower_iff in Hs.
    simpl in Hin. destruct Hin as [<- | [<- | [<- | [<- | []]]]];
      try discriminate Hs; simpl; lia.
Defined.

Lemma format_output_is_not_no_matches (key value : string) :
  format_output key value <> no_matches_text.
Proof.
  intros H. apply (f_equal (PyStr.take 5)) in H.
  unfold format_output, display_key_and_spacing in H.
  destruct (extract_repeatability value) as [value' repeatability].
  destruct (Nat.eqb (String.length key) 3); cbv in H; discriminate H.
Qed.

Lemma format_verbose_output_is_not_no_matches (key : string) (entry : Entry) :
  format_verbose_output key entry <> no_matches_text.
Proof.
  unfold format_verbose_output.
  destruct (Details entry) as [details|];
    [|apply format_output_is_not_no_matches].
  destruct (negb (Nat.eqb (String.length key) 3));
    [apply format_output_is_not_no_matches|].
  intros H. apply (f_equal (PyStr.take 1)) in H.
  unfold verbose_lines, header_lines, PyStr.join in H. simpl in H.
  discriminate H.
Qed.

Lemma display_texts_never_no_matches (matches : list Item) (verbose : bool) :
  matches <> [] -> ~ In no_matches_text (display_texts matches verbose).
Proof.
  intros Hne Hin. destruct verbose.
  - rewrite (display_texts_verbose _ Hne) in Hin. apply in_map_iff in Hin.
    destruct Hin as (x & Hx & _).
    now apply format_verbose_output_is_not_no_matches in Hx.
  - rewrite (display_texts_brief _ Hne) in Hin. apply in_map_iff in Hin.
    destruct Hin as (x & Hx & _).
    now apply format_output_is_not_no_matches in Hx.
Qed.

Lemma truthy_list_false {A : Type} (l : list A) : truthy_list l = false -> l = [].
Proof. destruct l; [reflexivity | discriminate]. Qed.

(** X9: whatever the query, the flag and the files, the program only
    prints: the datasets are left as they are and the output so far is kept;
    and none of the texts it prints is "No matches found.", the driver
    printing its own notices when a search finds nothing. *)
Theorem main_only_prints_and_never_no_matches_found
    (query : string) (verbose : bool) (w : World) :
  exists texts,
    fst (main query verbose w) = print_all texts w
    /\ stdout (fst (main query verbose w)) = (stdout w ++ texts)%list
    /\ marc_json (fst (main query verbose w)) = marc_json w
    /\ marc_verbose_json (fst (main query verbose w)) = marc_verbose_json w
    /\ ~ In no_matches_text texts.
Proof.
  assert (G : forall texts,
            fst (main query verbose w) = print_all texts w ->
            ~ In no_matches_text texts ->
            exists texts,
              fst (main query verbose w) = print_all texts w
              /\ stdout (fst (main query verbose w)) = (stdout w ++ texts)%list
              /\ marc_json (fst (main query verbose w)) = marc_json w
              /\ marc_verbose_json (fst (main query verbose w)) = marc_verbose_json w
              /\ ~ In no_matches_text texts).
  { intros texts E Hn. exists texts. rewrite E.
    destruct (files_print_all texts w) as [F1 F2].
    repeat split; auto using stdout_print_all. }
  assert (L : exists (loaded : option Dataset) (pre : list string),
            (if verbose then load_verbose_data w else load_marc_data w)
            = (loaded, print_all pre w)
            /\ ~ In no_matches_text pre
            /\ (loaded <> None -> pre = [])).
  { destruct verbose; [unfold load_verbose_data | unfold load_marc_data].
    - destruct (marc_verbose_json w) as [d|].
      + exists (Some d), []. repeat split; auto.
      + eexists None, [_; _]. split; [reflexivity|]. split; [|congruence].
        intros [H | [H | []]]; apply (f_equal (PyStr.take 6)) in H;
          cbv in H; discriminate H.
    - destruct (marc_json w) as [d|].
      + exists (Some d), []. repeat split; auto.
      + eexists None, [_; _]. split; [reflexivity|]. split; [|congruence].
        intros [H | [H | []]]; apply (f_equal (PyStr.take 6)) in H;
          cbv in H; discriminate H. }
  destruct L as (loaded & pre & EL & Hpre & Hsome).
  unfold main in *. rewrite EL in *.
  destruct loaded as [data|]; [|now apply (G pre)].
  rewrite (Hsome ltac:(discriminate)) in *. clear EL Hpre Hsome pre.
  change (print_all [] w) with w in *.
  destruct (is_code_query query).
  - destruct (search_by_code data query) as [matches|e];
      [|apply (G []); [reflexivity | intros []]].
    destruct (truthy_list matches) eqn:T.
    + apply (G (display_texts matches verbose)); [reflexivity|].
      apply display_texts_never_no_matches. intros ->. discriminate T.
    + apply (G [no_code_match_notice query]); [reflexivity|].
      intros [H | []]. apply (f_equal (PyStr.take 9)) in H.
      cbv in H. discriminate H.
  - set (matches := search_by_keyword data query) in *.
    set (note := if verbose then [verbose_notice] else []).
    assert (Hnote : ~ In no_matches_text note).
    { unfold note. destruct verbose; [|intros []].
      intros [H | []]. apply (f_equal (PyStr.take 8)) in H.
      cbv in H. discriminate H. }
    assert (Ew : (if verbose then print verbose_notice w else w) = print_all note w)
      by (unfold note; now destruct verbose).
    rewrite Ew in *.
    destruct (truthy_list matches) eqn:T.
    + assert (Hne : matches <> []) by (intros E; rewrite E in T; discriminate T).
      destruct (Nat.ltb 1 (List.length matches)).
      * apply (G (note ++ found_notice (List.length matches)
                    :: display_texts matches false))%list.
        { cbn [fst]. unfold display_results.
          now rewrite print_all_app, print_all_cons. }
        intros Hin. apply in_app_or in Hin.
        destruct Hin as [Hin | [H | Hin]]; [now apply Hnote | |].
        { apply (f_equal (PyStr.take 5)) in H. cbv in H. discriminate H. }
        now apply (display_texts_never_no_matches matches false Hne).
      * apply (G (note ++ display_texts matches false))%list.
        { cbn [fst]. unfold display_results. now rewrite print_all_app. }
        intros Hin. apply in_app_or in Hin. destruct Hin as [Hin | Hin];
          [now apply Hnote|].
        now apply (display_texts_never_no_matches matches false Hne).
    + apply (G (note ++ [no_keyword_match_notice query]))%list.
      { cbn [fst]. now rewrite print_all_app. }
      intros Hin. apply in_app_or in Hin.
      destruct Hin as [Hin | [H | []]]; [now apply Hnote|].
      apply (f_equal (PyStr.take 9)) in H. cbv in H. discriminate H.
Qed.

(** ** Dictionaries *)

Lemma dict_get_set_eq (key : string) (value : Entry) (d : Dataset) :
  dict_get key (Scraper.dict_set key value d) = Some value.
Proof.
  induction d as [|[k v] d IH]; simpl.
  - now rewrite String.eqb_refl.
  - destruct (String.eqb k key) eqn:E; simpl; now rewrite E.
Qed.

Lemma dict_get_set_ne (key key' : string) (value : Entry) (d : Dataset) :
  key <> key' ->
  dict_get key' (Scraper.dict_set key value d) = dict_get key' d.
Proof.
  intros Hne. induction d as [|[k v] d IH]; simpl.
  - apply String.eqb_neq in Hne. now rewrite Hne.
  - destruct (String.eqb k key) eqn:E; simpl.
    + apply String.eqb_eq in E. subst k.
      apply String.eqb_neq in Hne. now rewrite Hne.
    + now rewrite IH.
Qed.

Lemma dict_set_keys (key : string) (value : Entry) (d : Dataset) :
  map fst (Scraper.dict_set key value d)
  = if PyStr.mem key (map fst d) then map fst d
    else (map fst d ++ [key])%list.
Proof.
  unfold PyStr.mem. induction d as [|[k v] d IH]; simpl; [reflexivity|].
  rewrite (String.eqb_sym key k).
  destruct (String.eqb k key); simpl; [reflexivity|].
  rewrite IH. now destruct (existsb (String.eqb key) (map fst d)).
Qed.

Lemma dict_set_in_keys (key k : string) (value : Entry) (d : Dataset) :
  In k (map fst (Scraper.dict_set key value d)) <-> k = key \/ In k (map fst d).
Proof.
  rewrite dict_set_keys. destruct (PyStr.mem key (map fst d)) eqn:E.
  - apply mem_iff in E. split; [now right|]. intros [-> | H]; auto.
  - rewrite in_app_iff. simpl. intuition.
Qed.

Lemma dict_set_unique (key : string) (value : Entry) (d : Dataset) :
  unique_keys d -> unique_keys (Scraper.dict_set key value d).
Proof.
  unfold unique_keys. rewrite dict_set_keys.
  destruct (PyStr.mem key (map fst d)) eqn:E; [auto|].
  intros H. apply NoDup_app; auto.
  - repeat constructor. intros [].
  - intros x Hx [<- | []]. apply mem_iff in Hx. congruence.
Qed.

Lemma dict_set_new (key : string) (value : Entry) (d : Dataset) :
  ~ In key (map fst d) -> Scraper.dict_set key value d = (d ++ [(key, value)])%list.
Proof.
  induction d as [|[k v] d IH]; simpl; intros H; [reflexivity|].
  destruct (String.eqb k key) eqn:E.
  - apply String.eqb_eq in E. tauto.
  - rewrite IH; tauto.
Qed.

Lemma fold_dict_set_unique (f : Entry -> Entry) (l acc : Dataset) :
  unique_keys (acc ++ l) ->
  fold_left (fun d kv => Scraper.dict_set (fst kv) (f (snd kv)) d) l acc
  = (acc ++ map (fun kv => (fst kv, f (snd kv))) l)%list.
Proof.
  revert acc. induction l as [|[k v] l IH]; intros acc Hu; simpl.
  - now rewrite app_nil_r.
  - unfold unique_keys in Hu. rewrite map_app in Hu. simpl in Hu.
    rewrite dict_set_new.
    + rewrite IH.
      * now rewrite <- app_assoc.
      * unfold unique_keys. rewrite <- app_assoc, map_app. exact Hu.
    + apply NoDup_remove_2 in Hu. intros Hin. apply Hu.
      apply in_or_app. now left.
Qed.

Lemma string_ltb_of_leb (a b : string) :
  String.leb a b = true -> a <> b -> String.ltb a b = true.
Proof.
  unfold String.leb, String.ltb.
  destruct (String.compare a b) eqn:E; try congruence.
  apply String.compare_eq_iff in E. congruence.
Qed.

Lemma strictly_sorted_keys (s : list Item) :
  StronglySorted (fun a b => PySort.le_of String.compare (fst a) (fst b) = true) s ->
  NoDup (map fst s) ->
  StronglySorted key_lt s.
Proof.
  induction 1 as [|x s S IH Hall]; intros Hu; constructor.
  - apply IH. now inversion Hu.
  - inversion Hu as [|? ? Hnotin _]; subst.
    rewrite Forall_forall in *. intros y Hy. apply string_ltb_of_leb.
    + now apply Hall.
    + intros E. apply Hnotin. rewrite E. now apply in_map.
Qed.

Lemma sorted_keys_of_unique (l : list Item) :
  unique_keys l ->
  StronglySorted key_lt (PySort.sort_by String.compare fst l).
Proof.
  intros Hu. apply strictly_sorted_keys.
  - apply sort_by_sorted, string_strict_cmp.
  - eapply Permutation_NoDup; [|exact Hu].
    apply Permutation_map, Permutation_sym, sort_by_perm.
Qed.

(** ** The two data files *)

Lemma sorted_data_of_unique (all_data : Dataset) :
  unique_keys all_data ->
  Scraper.sorted_data all_data = PySort.sort_by String.compare fst all_data.
Proof.
  intros Hu. unfold Scraper.sorted_data, Scraper.dict_of_items.
  rewrite (fold_dict_set_unique (fun e => e)).
  - simpl. erewrite map_ext; [apply map_id|]. now intros [k v].
  - simpl. unfold unique_keys.
    eapply Permutation_NoDup; [|exact Hu].
    apply Permutation_map, Permutation_sym, sort_by_perm.
Qed.

Lemma simple_data_of_unique (sorted : Dataset) :
  unique_keys sorted -> Scraper.simple_data sorted = map simple_item sorted.
Proof.
  intros Hu. unfold Scraper.simple_data.
  now rewrite (fold_dict_set_unique Scraper.simple_entry).
Qed.

Lemma sorted_data_unique (all_data : Dataset) :
  unique_keys all_data -> unique_keys (Scraper.sorted_data all_data).
Proof.
  intros Hu. rewrite (sorted_data_of_unique _ Hu). unfold unique_keys.
  eapply Permutation_NoDup; [|exact Hu].
  apply Permutation_map, Permutation_sym, sort_by_perm.
Qed.

(** X10: from a dictionary of scraped records the scraper derives the two
    files so that the verbose one holds the same records with the keys in
    strictly ascending order, and the brief one holds, key by key and in the
    same order, the same Key, Value and Created without any Details. *)
Theorem written_files_hold_the_same_sorted_keys (all_data : Dataset) :
  unique_keys all_data ->
  Permutation (Scraper.sorted_data all_data) all_data
  /\ StronglySorted key_lt (Scraper.sorted_data all_data)
  /\ Scraper.simple_data (Scraper.sorted_data all_data)
     = map simple_item (Scraper.sorted_data all_data)
  /\ map fst (Scraper.simple_data (Scraper.sorted_data all_data))
     = map fst (Scraper.sorted_data all_data)
  /\ Forall2
       (fun v s : Item =>
          fst s = fst v /\ Key (snd s) = Key (snd v)
          /\ Value (snd s) = Value (snd v) /\ Created (snd s) = Created (snd v)
          /\ Details (snd s) = None)
       (Scraper.sorted_data all_data)
       (Scraper.simple_data (Scraper.sorted_data all_data)).
Proof.
  intros Hu.
  rewrite (simple_data_of_unique _ (sorted_data_unique _ Hu)).
  rewrite (sorted_data_of_unique _ Hu).
  split; [apply sort_by_perm|]. split; [now apply sorted_keys_of_unique|].
  split; [reflexivity|]. split.
  - rewrite map_map. reflexivity.
  - generalize (PySort.sort_by String.compare fst all_data) as l.
    induction l as [|x l IH]; simpl; constructor; auto.
Qed.

Lemma written_files_of_isbn_dataset :
  StronglySorted key_lt (Scraper.sorted_data isbn_dataset)
  /\ map fst (Scraper.simple_data (Scraper.sorted_data isbn_dataset))
     = map fst (Scraper.sorted_data isbn_dataset).
Proof.
  destruct (written_files_hold_the_same_sorted_keys isbn_dataset)
    as (_ & H1 & _ & H2 & _).
  - unfold unique_keys, isbn_dataset. simpl.
    repeat constructor; simpl; intuition discriminate.
  - split; [exact H1 | exact H2].
Defined.

Example sorted_isbn_dataset_keys :
  map fst (Scraper.sorted_data isbn_dataset) = ["020"; "0206"; "020a"; "022"].
Proof. reflexivity. Qed.

Lemma keyword_hit_simple (keyword_lower : string) (x : Item) :
  keyword_hit keyword_lower (simple_item x) = keyword_hit keyword_lower x.
Proof. reflexivity. Qed.

Lemma search_by_keyword_simple (data : Dataset) (keyword : string) :
  search_by_keyword (map simple_item data) keyword
  = map simple_item (search_by_keyword data keyword).
Proof.
  rewrite !search_by_keyword_sort, filter_map_swap, sort_by_map.
  f_equal.
Qed.

Lemma display_texts_simple (matches : list Item) :
  display_texts (map simple_item matches) false = display_texts matches false.
Proof.
  destruct matches as [|m matches]; [reflexivity|].
  rewrite !display_texts_brief by discriminate.
  now rewrite map_map.
Qed.

Lemma keyword_texts_simple (data : Dataset) (query : string) :
  keyword_texts (map simple_item data) query = keyword_texts data query.
Proof.
  unfold keyword_texts. rewrite search_by_keyword_simple, display_texts_simple.
  rewrite length_map.
  now destruct (search_by_keyword data query).
Qed.

Lemma main_of_keyword_query (query : string) (verbose : bool) (data : Dataset)
    (w : World) :
  is_code_query query = false ->
  (if verbose then marc_verbose_json w else marc_json w) = Some data ->
  main query verbose w
  = (print_all ((if verbose then [verbose_notice] else [])
                ++ keyword_texts data query) w, Finished).
Proof.
  intros Hq Hd. unfold main, keyword_texts.
  replace (if verbose then load_verbose_data w else load_marc_data w)
    with (Some data, w)
    by (destruct verbose; [unfold load_verbose_data | unfold load_marc_data];
        now rewrite Hd).
  rewrite Hq.
  destruct (truthy_list (search_by_keyword data query)).
  - unfold display_results.
    destruct verbose, (Nat.ltb 1 (List.length (search_by_keyword data query)));
      reflexivity.
  - destruct verbose; reflexivity.
Qed.

(** X11: on the two files the scraper derives from one dictionary of
    records, a keyword query run with the verbose flag reads the verbose
    file and prints the notice followed by exactly the texts that the run
    without the flag prints from the brief file. *)
Theorem verbose_flag_only_adds_the_notice_on_written_files
    (all_data : Dataset) (query : string) (w : World) :
  unique_keys all_data ->
  marc_verbose_json w = Some (Scraper.sorted_data all_data) ->
  marc_json w = Some (Scraper.simple_data (Scraper.sorted_data all_data)) ->
  is_code_query query = false ->
  exists texts,
    main query false w = (print_all texts w, Finished)
    /\ main query true w = (print_all (verbose_notice :: texts) w, Finished)
    /\ texts = keyword_texts (Scraper.sorted_data all_data) query.
Proof.
  intros Hu Hv Hs Hq.
  exists (keyword_texts (Scraper.sorted_data all_data) query).
  rewrite (main_of_keyword_query query false _ w Hq Hs).
  rewrite (main_of_keyword_query query true _ w Hq Hv).
  rewrite (simple_data_of_unique _ (sorted_data_unique _ Hu)).
  rewrite keyword_texts_simple. auto.
Qed.

Lemma verbose_flag_on_files_of_isbn_dataset :
  exists texts,
    main "number" false (Scraper.lookup_world
      {| Scraper.script_dir := "/opt/marc";
         Scraper.verbose_file := Some (Scraper.sorted_data isbn_dataset);
         Scraper.simple_file :=
           Some (Scraper.simple_data (Scraper.sorted_data isbn_dataset));
         Scraper.verbose_backup := None; Scraper.simple_backup := None |})
    = (print_all texts (Scraper.lookup_world
      {| Scraper.script_dir := "/opt/marc";
         Scraper.verbose_file := Some (Scraper.sorted_data isbn_dataset);
         Scraper.simple_file :=
           Some (Scraper.simple_data (Scraper.sorted_data isbn_dataset));
         Scraper.verbose_backup := None; Scraper.simple_backup := None |}),
       Finished).
Proof.
  destruct (verbose_flag_only_adds_the_notice_on_written_files isbn_dataset
              "number" (Scraper.lookup_world
      {| Scraper.script_dir := "/opt/marc";
         Scraper.verbose_file := Some (Scraper.sorted_data isbn_dataset);
         Scraper.simple_file :=
           Some (Scraper.simple_data (Scraper.sorted_data isbn_dataset));
         Scraper.verbose_backup := None; Scraper.simple_backup := None |}))
    as (texts & H & _); try reflexivity.
  - unfold unique_keys, isbn_dataset. simpl.
    repeat constructor; simpl; intuition discriminate.
  - exists texts. exact H.
Defined.

(** ** Runs of the scraper *)

Section ScraperRuns.

Context {web : Scraper.Web}.

Lemma keeps_disk_ret {A : Type} (a : A) : keeps_disk (@Scraper.ret web A a).
Proof. intros st. reflexivity. Qed.

Lemma keeps_disk_say (text : string) : keeps_disk (@Scraper.say web text).
Proof. intros st. reflexivity. Qed.

Lemma keeps_disk_clock : keeps_disk (@Scraper.clock web).
Proof. intros st. reflexivity. Qed.

Lemma keeps_disk_bind {A B : Type} (m : Scraper.Run web A)
    (k : A -> Scraper.Run web B) :
  keeps_disk m -> (forall a, keeps_disk (k a)) -> keeps_disk (Scraper.bind m k).
Proof.
  intros Hm Hk st. unfold Scraper.bind. specialize (Hm st).
  destruct (m st) as [[a | e] st1]; simpl in *.
  - now rewrite Hk.
  - exact Hm.
Qed.

Lemma keeps_disk_for_each {A S : Type} (body : A -> S -> Scraper.Run web S)
    (xs : list A) (s : S) :
  (forall x s, keeps_disk (body x s)) -> keeps_disk (Scraper.for_each body xs s).
Proof.
  intros Hb. revert s. induction xs as [|x xs IH]; intros s; simpl.
  - apply keeps_disk_ret.
  - apply keeps_disk_bind; auto.
Qed.

Lemma keeps_disk_fetch_page (url : string) :
  keeps_disk (@Scraper.fetch_page web url).
Proof.
  intros st. unfold Scraper.fetch_page, Scraper.bind, Scraper.say. simpl.
  now destruct (Scraper.get web url (Scraper.net st)).
Qed.

Lemma keeps_disk_extract_detailed_field_info (field_num : string) :
  keeps_disk (@Scraper.extract_detailed_field_info web field_num).
Proof.
  intros st. unfold Scraper.extract_detailed_field_info.
  pose proof (keeps_disk_fetch_page (Scraper.concise_url web field_num) st) as H.
  destruct (Scraper.fetch_page (Scraper.concise_url web field_num) st)
    as [[soup | [status text | text]] st1]; simpl in H.
  - destruct (Scraper.detailed_info web soup); exact H.
  - destruct (Nat.eqb status 404); exact H.
  - exact H.
Qed.

Lemma keeps_disk_extract_subfields_from_concise (field_num : string) :
  keeps_disk (@Scraper.extract_subfields_from_concise web field_num).
Proof.
  intros st. unfold Scraper.extract_subfields_from_concise.
  pose proof (keeps_disk_fetch_page (Scraper.concise_url web field_num) st) as H.
  destruct (Scraper.fetch_page (Scraper.concise_url web field_num) st)
    as [[soup | [status text | text]] st1]; simpl in H.
  - destruct (Scraper.concise_subfields web soup); exact H.
  - destruct (Nat.eqb status 404); exact H.
  - exact H.
Qed.

Lemma keeps_disk_add_detailed_subfields (field_num timestamp : string)
    (items : list (string * SubfieldInfo)) (all_data : Dataset) :
  keeps_disk (@Scraper.add_detailed_subfields web field_num timestamp items all_data).
Proof.
  revert all_data. induction items as [|[code info] items IH]; intros d; simpl.
  - apply keeps_disk_ret.
  - apply keeps_disk_bind; [apply keeps_disk_say | intros _; apply IH].
Qed.

Lemma keeps_disk_add_fallback_subfields (field_num timestamp : string)
    (items : list (string * string * string)) (all_data : Dataset) :
  keeps_disk (@Scraper.add_fallback_subfields web field_num timestamp items all_data).
Proof.
  revert all_data. induction items as [|[[code desc] rep] items IH]; intros d; simpl.
  - apply keeps_disk_ret.
  - apply keeps_disk_bind; [apply keeps_disk_say | intros _; apply IH].
Qed.

Lemma keeps_disk_add_field (field_num field_value timestamp : string)
    (details : option DetailsT) (all_data : Dataset) :
  keeps_disk (@Scraper.add_field web field_num field_value timestamp details all_data).
Proof.
  unfold Scraper.add_field.
  apply keeps_disk_bind; [apply keeps_disk_say | intros _].
  assert (F : keeps_disk
                (Scraper.bind (@Scraper.extract_subfields_from_concise web field_num)
                   (fun subfields =>
                      Scraper.add_fallback_subfields field_num timestamp subfields
                        (Scraper.dict_set field_num
                           {| Key := field_num; Value := field_value;
                              Created := timestamp; Details := details |}
                           all_data)))).
  { apply keeps_disk_bind; [apply keeps_disk_extract_subfields_from_concise|].
    intros subs. apply keeps_disk_add_fallback_subfields. }
  destruct details as [info|]; [|exact F].
  destruct (truthy_list (subfields info)); [|exact F].
  apply keeps_disk_add_detailed_subfields.
Qed.

Lemma keeps_disk_scrape_all_fields : keeps_disk (@Scraper.scrape_all_fields web).
Proof.
  unfold Scraper.scrape_all_fields.
  apply keeps_disk_bind; [apply keeps_disk_clock | intros t1].
  apply keeps_disk_bind.
  { apply keeps_disk_for_each. intros page s. unfold Scraper.scrape_page.
    apply keeps_disk_bind; [apply keeps_disk_say | intros _].
    apply keeps_disk_bind; [apply keeps_disk_fetch_page | intros soup].
    apply keeps_disk_bind; [apply keeps_disk_say | intros _].
    apply keeps_disk_for_each. intros [[num desc] rep] [d seen].
    unfold Scraper.scrape_index_field.
    destruct (PyStr.mem num seen); [apply keeps_disk_ret|].
    destruct (String.eqb num "222"); [apply keeps_disk_ret|].
    apply keeps_disk_bind;
      [apply keeps_disk_extract_detailed_field_info | intros details].
    apply keeps_disk_bind; [apply keeps_disk_add_field | intros d'].
    apply keeps_disk_ret. }
  intros s.
  apply keeps_disk_bind; [apply keeps_disk_say | intros _].
  apply keeps_disk_bind; [apply keeps_disk_clock | intros t2].
  apply keeps_disk_bind; [apply keeps_disk_say | intros _].
  apply keeps_disk_bind; [apply keeps_disk_add_detailed_subfields | intros d].
  apply keeps_disk_bind; [apply keeps_disk_say | intros _].
  apply keeps_disk_bind; [|intros s'; apply keeps_disk_ret].
  apply keeps_disk_for_each. intros [[num desc] rep] [d' seen].
  unfold Scraper.scrape_linking_field.
  destruct (PyStr.mem num seen); [apply keeps_disk_ret|].
  apply keeps_disk_bind;
    [apply keeps_disk_extract_detailed_field_info | intros details].
  apply keeps_disk_bind; [apply keeps_disk_add_field | intros d''].
  apply keeps_disk_ret.
Qed.

End ScraperRuns.

Section ScraperResults.

Context {web : Scraper.Web}.

Lemma returns_ret {A : Type} (a : A) (Q : A -> Prop) :
  Q a -> returns_only (@Scraper.ret web A a) Q.
Proof. intros H st b E. simpl in E. now injection E as <-. Qed.

Lemma returns_bind {A B : Type} (m : Scraper.Run web A)
    (k : A -> Scraper.Run web B) (P : A -> Prop) (Q : B -> Prop) :
  returns_only m P -> (forall a, P a -> returns_only (k a) Q) ->
  returns_only (Scraper.bind m k) Q.
Proof.
  intros Hm Hk st b. unfold Scraper.bind. specialize (Hm st).
  destruct (m st) as [[a | e] st1]; simpl in *; [|discriminate].
  apply (Hk a); auto.
Qed.

Lemma returns_anything {A : Type} (m : Scraper.Run web A) :
  returns_only m (fun _ => True).
Proof. intros st a _. exact I. Qed.

Lemma returns_for_each {A S : Type} (body : A -> S -> Scraper.Run web S)
    (xs : list A) (s : S) (Inv : S -> Prop) :
  Inv s ->
  (forall x s, In x xs -> Inv s -> returns_only (body x s) Inv) ->
  returns_only (Scraper.for_each body xs s) Inv.
Proof.
  revert s. induction xs as [|x xs IH]; intros s Hs Hb; simpl.
  - now apply returns_ret.
  - apply (returns_bind _ _ Inv); [apply Hb; simpl; auto|].
    intros s' Hs'. apply IH; auto. intros y s0 Hy. apply Hb. now right.
Qed.

Lemma returns_add_detailed_subfields (field_num timestamp : string)
    (items : list (string * SubfieldInfo)) (all_data : Dataset)
    (Inv : Dataset -> Prop) :
  (forall code v d, Inv d -> Inv (Scraper.dict_set (field_num ++ code) v d)) ->
  Inv all_data ->
  returns_only
    (@Scraper.add_detailed_subfields web field_num timestamp items all_data) Inv.
Proof.
  intros Hset. revert all_data.
  induction items as [|[code info] items IH]; intros d Hd; simpl.
  - now apply returns_ret.
  - apply (returns_bind _ _ (fun _ => True)); [apply returns_anything|].
    intros _ _. apply IH. now apply Hset.
Qed.

Lemma returns_add_fallback_subfields (field_num timestamp : string)
    (items : list (string * string * string)) (all_data : Dataset)
    (Inv : Dataset -> Prop) :
  (forall code v d, Inv d -> Inv (Scraper.dict_set (field_num ++ code) v d)) ->
  Inv all_data ->
  returns_only
    (@Scraper.add_fallback_subfields web field_num timestamp items all_data) Inv.
Proof.
  intros Hset. revert all_data.
  induction items as [|[[code desc] rep] items IH]; intros d Hd; simpl.
  - now apply returns_ret.
  - apply (returns_bind _ _ (fun _ => True)); [apply returns_anything|].
    intros _ _. apply IH. now apply Hset.
Qed.

Lemma returns_add_field (field_num field_value timestamp : string)
    (details : option DetailsT) (all_data : Dataset) (Inv : Dataset -> Prop) :
  (forall v d, Inv d -> Inv (Scraper.dict_set field_num v d)) ->
  (forall code v d, Inv d -> Inv (Scraper.dict_set (field_num ++ code) v d)) ->
  Inv all_data ->
  returns_only
    (@Scraper.add_field web field_num field_value timestamp details all_data) Inv.
Proof.
  intros Hfield Hsub Hd. unfold Scraper.add_field.
  apply (returns_bind _ _ (fun _ => True)); [apply returns_anything|].
  intros _ _.
  assert (F : returns_only
                (Scraper.bind (@Scraper.extract_subfields_from_concise web field_num)
                   (fun subfields =>
                      Scraper.add_fallback_subfields field_num timestamp subfields
                        (Scraper.dict_set field_num
                           {| Key := field_num; Value := field_value;
                              Created := timestamp; Details := details |}
                           all_data))) Inv).
  { apply (returns_bind _ _ (fun _ => True)); [apply returns_anything|].
    intros subs _. apply returns_add_fallback_subfields; auto. }
  destruct details as [info|]; [|exact F].
  destruct (truthy_list (subfields info)); [|exact F].
  apply returns_add_detailed_subfields; auto.
Qed.

Lemma returns_scrape_linking_field (timestamp : string)
    (field : string * string * string) (s : Dataset * list string)
    (Inv : Dataset -> Prop) :
  (forall v d, Inv d -> Inv (Scraper.dict_set (fst (fst field)) v d)) ->
  (forall code v d,
     Inv d -> Inv (Scraper.dict_set (fst (fst field) ++ code) v d)) ->
  Inv (fst s) ->
  returns_only (@Scraper.scrape_linking_field web timestamp field s)
    (fun s' => Inv (fst s')).
Proof.
  destruct field as [[num desc] rep], s as [d seen]. simpl.
  intros Hfield Hsub Hd.
  destruct (PyStr.mem num seen); [now apply returns_ret|].
  apply (returns_bind _ _ (fun _ => True)); [apply returns_anything|].
  intros details _. apply (returns_bind _ _ Inv).
  - now apply returns_add_field.
  - intros d' Hd'. now apply returns_ret.
Qed.

Lemma returns_scrape_index_field (timestamp : string)
    (field : string * string * string) (s : Dataset * list string)
    (Inv : Dataset -> Prop) :
  (forall v d, Inv d -> Inv (Scraper.dict_set (fst (fst field)) v d)) ->
  (forall code v d,
     Inv d -> Inv (Scraper.dict_set (fst (fst field) ++ code) v d)) ->
  Inv (fst s) ->
  returns_only (@Scraper.scrape_index_field web timestamp field s)
    (fun s' => Inv (fst s')).
Proof.
  destruct field as [[num desc] rep], s as [d seen]. simpl.
  intros Hfield Hsub Hd.
  destruct (PyStr.mem num seen); [now apply returns_ret|].
  destruct (String.eqb num "222"); [now apply returns_ret|].
  apply (returns_bind _ _ (fun _ => True)); [apply returns_anything|].
  intros details _. apply (returns_bind _ _ Inv).
  - now apply returns_add_field.
  - intros d' Hd'. now apply returns_ret.
Qed.

End ScraperResults.

Lemma well_keyed_dict_set (key : string) (value : Entry) (d : Dataset) :
  3 <= String.length key -> well_keyed d -> well_keyed (Scraper.dict_set key value d).
Proof.
  intros Hlen [Hu Hk]. split; [now apply dict_set_unique|].
  unfold keys_at_least_3 in *. clear Hu.
  induction d as [|[k v] d IH]; simpl.
  - repeat constructor. exact Hlen.
  - inversion Hk as [|? ? Hk1 Hk2]; subst.
    destruct (String.eqb k key); constructor; auto.
Qed.

Lemma holds_field_222_dict_set (timestamp key : string) (value : Entry)
    (d : Dataset) :
  starts_with_7 key ->
  holds_field_222 timestamp d ->
  holds_field_222 timestamp (Scraper.dict_set key value d).
Proof.
  intros [rest ->] (H0 & H1 & H2 & H3 & H4).
  unfold holds_field_222. rewrite !dict_get_set_ne by discriminate. tauto.
Qed.

Lemma keys_at_least_3_of_permutation (l l' : list Item) :
  Permutation l l' -> keys_at_least_3 l -> keys_at_least_3 l'.
Proof.
  unfold keys_at_least_3. intros P H. rewrite Forall_forall in *.
  intros x Hx. apply H. eapply Permutation_in; [apply Permutation_sym, P | exact Hx].
Qed.

Lemma bind_run {web : Scraper.Web} {A B : Type} (m : Scraper.Run web A)
    (k : A -> Scraper.Run web B) (st : Scraper.State web) :
  Scraper.bind m k st
  = match m st with
    | (inl a, st') => k a st'
    | (inr e, st') => (inr e, st')
    end.
Proof. reflexivity. Qed.

Lemma bind_say {web : Scraper.Web} {B : Type} (text : string)
    (k : unit -> Scraper.Run web B) (st : Scraper.State web) :
  Scraper.bind (Scraper.say text) k st = k tt (snd (Scraper.say text st)).
Proof. reflexivity. Qed.

Lemma bind_clock {web : Scraper.Web} {B : Type}
    (k : string -> Scraper.Run web B) (st : Scraper.State web) :
  Scraper.bind Scraper.clock k st = k (Scraper.now web (Scraper.net st)) st.
Proof. reflexivity. Qed.

(** What a scrape does once it has read the clock for the second time. *)
Lemma returns_manual_field_222 {web : Scraper.Web} (timestamp : string)
    (s : Dataset * list string) :
  returns_only
    (Scraper.bind (@Scraper.say web "  Added: 222 - Key Title (R)")
       (fun _ =>
          Scraper.bind
            (Scraper.add_detailed_subfields "222" timestamp
               (subfields Scraper.FIELD_222_DETAILS)
               (Scraper.dict_set "222" (Scraper.field_222 timestamp) (fst s)))
            (fun all_data =>
               Scraper.bind
                 (Scraper.say
                    (PyStr.nl
                     ++ "Processing manually defined linking entry fields (760-788)..."))
                 (fun _ =>
                    Scraper.bind
                      (Scraper.for_each (Scraper.scrape_linking_field timestamp)
                         Scraper.LINKING_ENTRY_FIELDS (all_data, snd s))
                      (fun s' => Scraper.ret (fst s'))))))
    (holds_field_222 timestamp).
Proof.
  apply (returns_bind _ _ (fun _ => True)); [apply returns_anything | intros _ _].
  apply (returns_bind _ _ (holds_field_222 timestamp)).
  { intros st0 d E. simpl in E. injection E as <-.
    unfold holds_field_222.
    repeat (rewrite ?dict_get_set_eq; rewrite ?dict_get_set_ne by discriminate).
    repeat split; reflexivity. }
  intros d Hd.
  apply (returns_bind _ _ (fun _ => True)); [apply returns_anything | intros _ _].
  apply (returns_bind _ _ (fun s' => holds_field_222 timestamp (fst s'))).
  - apply returns_for_each; [exact Hd|].
    intros field s0 Hin Hs0.
    assert (H7 : starts_with_7 (fst (fst field))).
    { simpl in Hin.
      repeat (destruct Hin as [<- | Hin]; [eexists; reflexivity|]).
      destruct Hin. }
    apply returns_scrape_linking_field; auto.
    + intros v d0. now apply holds_field_222_dict_set.
    + intros code v d0. apply holds_field_222_dict_set.
      destruct H7 as [rest ->]. now exists (rest ++ code).
  - intros s' Hs'. now apply returns_ret.
Qed.

(** X13: whatever the pages hold, the dictionary a scrape returns has the
    manual record of field 222, with its Details, and the records of its
    four subfields a, b, 6 and 8, all five stamped with the second reading
    of the clock, the one taken after the loop over the index pages and not
    the one taken when the scrape starts: nothing scraped before or after
    takes their place. *)
Theorem scraped_data_holds_the_manual_field_222
    (web : Scraper.Web) (st : Scraper.State web) (all_data : Dataset) :
  fst (Scraper.scrape_all_fields st) = inl all_data ->
  holds_field_222 (second_timestamp st) all_data.
Proof.
  unfold second_timestamp, after_index_pages, Scraper.scrape_all_fields.
  rewrite bind_clock.
  rewrite (bind_run (Scraper.for_each _ _ _)).
  destruct (Scraper.for_each
              (Scraper.scrape_page (Scraper.now web (Scraper.net st)))
              Scraper.FIELD_RANGE_PAGES ([], []) st) as [[s | e] st1];
    cbn [snd]; [|discriminate].
  rewrite bind_say, bind_clock. cbn [Scraper.say snd Scraper.net].
  apply returns_manual_field_222.
Qed.

(** X14: when every field number taken from the index pages has three
    characters, the dictionary a scrape returns has distinct keys of at
    least three characters, and so have the two files derived from it: on
    them the code matcher returns a list for every query and never raises. *)
Theorem scraped_keys_have_at_least_three_characters
    (web : Scraper.Web) (st : Scraper.State web) (all_data : Dataset) :
  three_character_fields web ->
  fst (Scraper.scrape_all_fields st) = inl all_data ->
  unique_keys all_data
  /\ keys_at_least_3 all_data
  /\ keys_at_least_3 (Scraper.sorted_data all_data)
  /\ keys_at_least_3 (Scraper.simple_data (Scraper.sorted_data all_data))
  /\ (forall code,
        exists verbose_matches brief_matches,
          search_by_code (Scraper.sorted_data all_data) code = Ok verbose_matches
          /\ search_by_code (Scraper.simple_data (Scraper.sorted_data all_data)) code
             = Ok brief_matches).
Proof.
  intros H3 E.
  assert (W : well_keyed all_data).
  { revert st all_data E.
    change (returns_only (@Scraper.scrape_all_fields web) well_keyed).
    unfold Scraper.scrape_all_fields.
    apply (returns_bind _ _ (fun _ => True)); [apply returns_anything | intros t1 _].
    apply (returns_bind _ _ (fun s => well_keyed (fst s))).
    { apply returns_for_each; [split; constructor|].
      intros page s _ Hs. unfold Scraper.scrape_page.
      apply (returns_bind _ _ (fun _ => True)); [apply returns_anything | intros _ _].
      apply (returns_bind _ _ (fun _ => True)); [apply returns_anything | intros soup _].
      apply (returns_bind _ _ (fun _ => True)); [apply returns_anything | intros _ _].
      apply returns_for_each; [exact Hs|].
      intros field s0 Hin Hs0.
      assert (L : String.length (fst (fst field)) = 3).
      { specialize (H3 soup). rewrite Forall_forall in H3. now apply H3. }
      apply returns_scrape_index_field; auto.
      - intros v d. apply well_keyed_dict_set. lia.
      - intros code v d. apply well_keyed_dict_set. rewrite length_append. lia. }
    intros s Hs.
    apply (returns_bind _ _ (fun _ => True)); [apply returns_anything | intros _ _].
    apply (returns_bind _ _ (fun _ => True)); [apply returns_anything | intros t2 _].
    apply (returns_bind _ _ (fun _ => True)); [apply returns_anything | intros _ _].
    apply (returns_bind _ _ well_keyed).
    { apply returns_add_detailed_subfields.
      - intros code v d. apply well_keyed_dict_set. rewrite length_append.
        simpl. lia.
      - apply well_keyed_dict_set; [simpl; lia | exact Hs]. }
    intros d Hd.
    apply (returns_bind _ _ (fun _ => True)); [apply returns_anything | intros _ _].
    apply (returns_bind _ _ (fun s' => well_keyed (fst s'))).
    - apply returns_for_each; [exact Hd|].
      intros field s0 Hin Hs0.
      assert (L : String.length (fst (fst field)) = 3).
      { simpl in Hin.
        repeat (destruct Hin as [<- | Hin]; [reflexivity|]). destruct Hin. }
      apply returns_scrape_linking_field; auto.
      + intros v d0. apply well_keyed_dict_set. lia.
      + intros code v d0. apply well_keyed_dict_set. rewrite length_append. lia.
    - intros s' Hs'. now apply returns_ret. }
  destruct W as [Hu Hk].
  assert (Ks : keys_at_least_3 (Scraper.sorted_data all_data)).
  { rewrite (sorted_data_of_unique _ Hu).
    eapply keys_at_least_3_of_permutation; [|exact Hk].
    apply Permutation_sym, sort_by_perm. }
  assert (Kb : keys_at_least_3 (Scraper.simple_data (Scraper.sorted_data all_data))).
  { rewrite (simple_data_of_unique _ (sorted_data_unique _ Hu)).
    unfold keys_at_least_3 in *. rewrite Forall_map.
    eapply Forall_impl; [|exact Ks]. now intros [k v]. }
  repeat split; auto.
  intros code. eexists _, _. split; now apply search_by_code_sort.
Qed.

Lemma scrape_without_concise_pages_holds_field_222 :
  exists all_data,
    fst (Scraper.scrape_all_fields
           (start_state web_counting_requests 0 disk_with_old_files))
    = inl all_data
    /\ holds_field_222 "2024-01-01T00:00:14+00:00" all_data
    /\ option_map Created (dict_get "020" all_data)
       = Some "2024-01-01T00:00:00+00:00".
Proof.
  destruct (fst (Scraper.scrape_all_fields
                   (start_state web_counting_requests 0 disk_with_old_files)))
    as [d | e] eqn:E.
  - pose proof (scraped_data_holds_the_manual_field_222 _ _ _ E) as H.
    exists d. split; [reflexivity|]. split; [exact H|].
    vm_compute in E. injection E as <-. reflexivity.
  - vm_compute in E. discriminate E.
Defined.

Lemma scrape_without_concise_pages_is_well_keyed :
  exists all_data,
    fst (Scraper.scrape_all_fields
           (start_state web_without_concise_pages tt disk_with_old_files))
    = inl all_data
    /\ keys_at_least_3 all_data.
Proof.
  destruct (fst (Scraper.scrape_all_fields
                   (start_state web_without_concise_pages tt disk_with_old_files)))
    as [d | e] eqn:E.
  - assert (H3 : three_character_fields web_without_concise_pages)
      by (intros soup; repeat constructor).
    destruct (scraped_keys_have_at_least_three_characters
                web_without_concise_pages _ _ H3 E) as (_ & H & _).
    exists d. split; [reflexivity | exact H].
  - vm_compute in E. discriminate E.
Defined.

Example scrape_without_concise_pages_keys :
  match fst (Scraper.scrape_all_fields
               (start_state web_without_concise_pages tt disk_with_old_files)) with
  | inl all_data => map fst (Scraper.sorted_data all_data)
  | inr _ => []
  end
  = [ "020"; "222"; "2226"; "2228"; "222a"; "222b"; "760"; "762"; "765"; "767";
      "770"; "772"; "773"; "774"; "775"; "776"; "777"; "780"; "785"; "786";
      "787"; "788" ].
Proof. vm_compute. reflexivity. Qed.

(** ** The policy on errors *)

(** X12: the two extractions that read a concise page raise exactly when the
    request fails with an HTTP status other than 404, and then with that
    very error; after a 404 and after any other failure of the request the
    detailed extraction returns no details and the fallback extraction
    returns no subfields; once the page is fetched, the detailed extraction
    returns the details read from it, or no details when reading it fails,
    and the fallback extraction returns the subfields read from it, or none
    when reading it fails. *)
Theorem concise_extractions_raise_only_on_other_http_errors
    (web : Scraper.Web) (field_num : string) (st : Scraper.State web) :
  let response :=
    fst (Scraper.get web (Scraper.concise_url web field_num) (Scraper.net st)) in
  (forall e,
     fst (Scraper.extract_detailed_field_info field_num st) = inr e
     <-> exists status text,
           response = inr (Scraper.HTTPError status text)
           /\ status <> 404 /\ e = Scraper.HTTPError status text)
  /\ (forall e,
        fst (Scraper.extract_subfields_from_concise field_num st) = inr e
        <-> exists status text,
              response = inr (Scraper.HTTPError status text)
              /\ status <> 404 /\ e = Scraper.HTTPError status text)
  /\ (forall info,
        fst (Scraper.extract_detailed_field_info field_num st) = inl (Some info)
        <-> exists soup,
              response = inl soup /\ Scraper.detailed_info web soup = inl info)
  /\ ((forall soup, response <> inl soup) ->
      (forall status text,
         response = inr (Scraper.HTTPError status text) -> status = 404) ->
      fst (Scraper.extract_detailed_field_info field_num st) = inl None
      /\ fst (Scraper.extract_subfields_from_concise field_num st) = inl [])
  /\ (forall soup,
        response = inl soup ->
        fst (Scraper.extract_detailed_field_info field_num st)
        = inl match Scraper.detailed_info web soup with
              | inl info => Some info
              | inr _ => None
              end
        /\ fst (Scraper.extract_subfields_from_concise field_num st)
           = inl match Scraper.concise_subfields web soup with
                 | inl subfields => subfields
                 | inr _ => []
                 end).
Proof.
  unfold Scraper.extract_detailed_field_info,
    Scraper.extract_subfields_from_concise, Scraper.fetch_page, Scraper.bind,
    Scraper.say.
  cbn [Scraper.net fst snd].
  destruct (Scraper.get web (Scraper.concise_url web field_num) (Scraper.net st))
    as [[soup | [status text | text]] n]; cbn [fst].
  - refine (conj _ (conj _ (conj _ (conj _ _)))).
    + intros e. split.
      * destruct (Scraper.detailed_info web soup); discriminate.
      * intros (s & t & H & _). discriminate H.
    + intros e. split.
      * destruct (Scraper.concise_subfields web soup); discriminate.
      * intros (s & t & H & _). discriminate H.
    + intros info. split.
      * destruct (Scraper.detailed_info web soup) as [info' | msg] eqn:Ed;
          [|discriminate].
        intros H. injection H as <-. now exists soup.
      * intros (s & H & H'). injection H as <-. now rewrite H'.
    + intros Hn _. exfalso. now apply (Hn soup).
    + intros s H. injection H as <-. split.
      * now destruct (Scraper.detailed_info web soup).
      * now destruct (Scraper.concise_subfields web soup).
  - destruct (Nat.eqb status 404) eqn:E4; cbn [fst Scraper.ret].
    + apply Nat.eqb_eq in E4. subst status.
      refine (conj _ (conj _ (conj _ (conj _ _)))).
      * intros e. split; [discriminate|].
        intros (s & t & H & Hs & _). congruence.
      * intros e. split; [discriminate|].
        intros (s & t & H & Hs & _). congruence.
      * intros info. split; [discriminate|].
        intros (s & H & _). discriminate H.
      * intros _ _. split; reflexivity.
      * intros s H. discriminate H.
    + apply Nat.eqb_neq in E4.
      refine (conj _ (conj _ (conj _ (conj _ _)))).
      * intros e. split.
        { intros H. injection H as <-. now exists status, text. }
        intros (s & t & H & _ & ->). now injection H as -> ->.
      * intros e. split.
        { intros H. injection H as <-. now exists status, text. }
        intros (s & t & H & _ & ->). now injection H as -> ->.
      * intros info. split; [discriminate|].
        intros (s & H & _). discriminate H.
      * intros _ H. exfalso. apply E4. now apply (H status text).
      * intros s H. discriminate H.
  - refine (conj _ (conj _ (conj _ (conj _ _)))).
    + intros e. split; [discriminate|].
      intros (s & t & H & _). discriminate H.
    + intros e. split; [discriminate|].
      intros (s & t & H & _). discriminate H.
    + intros info. split; [discriminate|].
      intros (s & H & _). discriminate H.
    + intros _ _. split; reflexivity.
    + intros s H. discriminate H.
Qed.

(** ** The run of the scraper *)

Lemma backup_existing_file_state {web : Scraper.Web} (f : Scraper.DataFile)
    (st : Scraper.State web) :
  Scraper.net (after_backup f st) = Scraper.net st
  /\ match fst (Scraper.backup_existing_file f st) with
     | inl _ =>
         Scraper.disk (after_backup f st)
         = match Scraper.read_file (Scraper.disk st) f with
           | Some _ => Scraper.copy_to_backup f (Scraper.disk st)
           | None => Scraper.disk st
           end
     | inr e =>
         exists text content,
           Scraper.read_file (Scraper.disk st) f <> None
           /\ Scraper.copy2_fault web f (Scraper.net st) = Some (text, content)
           /\ e = Scraper.OtherError text
           /\ Scraper.disk (after_backup f st)
              = Scraper.leave_backup f content (Scraper.disk st)
     end.
Proof.
  unfold after_backup, Scraper.backup_existing_file, Scraper.bind, Scraper.say,
    Scraper.copy2.
  destruct (Scraper.read_file (Scraper.disk st) f) as [data|] eqn:R;
    cbn [fst snd Scraper.net Scraper.disk]; [|now split].
  destruct (Scraper.copy2_fault web f (Scraper.net st)) as [[text content]|] eqn:C;
    cbn [fst snd Scraper.net Scraper.disk]; split; try reflexivity.
  exists text, content. repeat split; try reflexivity. discriminate.
Qed.

Lemma scraper_main_run {web : Scraper.Web} (st : Scraper.State web) :
  match fst (Scraper.backup_existing_file Scraper.VerboseFile (after_banner st)) with
  | inr e =>
      Scraper.main st = (inr e, after_backup Scraper.VerboseFile (after_banner st))
  | inl _ =>
  match fst (Scraper.backup_existing_file Scraper.SimpleFile
               (after_backup Scraper.VerboseFile (after_banner st))) with
  | inr e =>
      Scraper.main st
      = (inr e,
         after_backup Scraper.SimpleFile
           (after_backup Scraper.VerboseFile (after_banner st)))
  | inl _ =>
  match fst (Scraper.scrape_all_fields (before_scrape st)) with
  | inr e => Scraper.main st = (inr e, after_scrape st)
  | inl all_data =>
  match Scraper.dump_fault web Scraper.VerboseFile (Scraper.net (after_scrape st)) with
  | Some (text, content) =>
      fst (Scraper.main st) = inr (Scraper.OtherError text)
      /\ Scraper.disk (snd (Scraper.main st))
         = Scraper.leave_file Scraper.VerboseFile content
             (Scraper.disk (after_scrape st))
  | None =>
  match Scraper.dump_fault web Scraper.SimpleFile (Scraper.net (after_scrape st)) with
  | Some (text, content) =>
      fst (Scraper.main st) = inr (Scraper.OtherError text)
      /\ Scraper.disk (snd (Scraper.main st))
         = Scraper.leave_file Scraper.SimpleFile content
             (Scraper.write_file Scraper.VerboseFile (Scraper.sorted_data all_data)
                (Scraper.disk (after_scrape st)))
  | None =>
      fst (Scraper.main st) = inl tt
      /\ Scraper.disk (snd (Scraper.main st))
         = Scraper.write_file Scraper.SimpleFile
             (Scraper.simple_data (Scraper.sorted_data all_data))
             (Scraper.write_file Scraper.VerboseFile (Scraper.sorted_data all_data)
                (Scraper.disk (after_scrape st)))
  end end end end end.
Proof.
  unfold Scraper.main, after_scrape, before_scrape.
  rewrite !bind_say. fold (after_banner st).
  rewrite (bind_run (Scraper.backup_existing_file Scraper.VerboseFile)).
  unfold after_backup.
  destruct (Scraper.backup_existing_file Scraper.VerboseFile (after_banner st))
    as [[[] | e1] st2]; cbn [fst snd]; [|reflexivity].
  rewrite (bind_run (Scraper.backup_existing_file Scraper.SimpleFile)).
  destruct (Scraper.backup_existing_file Scraper.SimpleFile st2)
    as [[[] | e2] st3]; cbn [fst snd]; [|reflexivity].
  rewrite bind_say.
  rewrite (bind_run Scraper.scrape_all_fields).
  destruct (Scraper.scrape_all_fields
              (snd (Scraper.say (PyStr.nl ++ "Starting scrape...") st3)))
    as [[all_data | e3] st4]; cbn [fst snd]; [|reflexivity].
  unfold Scraper.bind, Scraper.say, Scraper.dump_json.
  cbn [fst snd Scraper.net Scraper.disk].
  destruct (Scraper.dump_fault web Scraper.VerboseFile (Scraper.net st4))
    as [[text content]|]; cbn [fst snd Scraper.net Scraper.disk];
    [split; reflexivity|].
  destruct (Scraper.dump_fault web Scraper.SimpleFile (Scraper.net st4))
    as [[text content]|]; cbn [fst snd Scraper.net Scraper.disk];
    split; reflexivity.
Qed.

Lemma verbose_backup_state {web : Scraper.Web} (st : Scraper.State web) :
  Scraper.net (after_backup Scraper.VerboseFile st) = Scraper.net st
  /\ same_data_files (Scraper.disk st)
       (Scraper.disk (after_backup Scraper.VerboseFile st))
  /\ Scraper.simple_backup (Scraper.disk (after_backup Scraper.VerboseFile st))
     = Scraper.simple_backup (Scraper.disk st)
  /\ match fst (Scraper.backup_existing_file Scraper.VerboseFile st) with
     | inl _ =>
         Scraper.verbose_backup (Scraper.disk (after_backup Scraper.VerboseFile st))
         = backup_after (Scraper.disk st) Scraper.VerboseFile
     | inr e =>
         exists text content,
           Scraper.verbose_file (Scraper.disk st) <> None
           /\ Scraper.copy2_fault web Scraper.VerboseFile (Scraper.net st)
              = Some (text, content)
           /\ e = Scraper.OtherError text
           /\ Scraper.verbose_backup
                (Scraper.disk (after_backup Scraper.VerboseFile st))
              = content
     end.
Proof.
  destruct (backup_existing_file_state Scraper.VerboseFile st) as [N H].
  split; [exact N|]. unfold same_data_files, backup_after.
  destruct (fst (Scraper.backup_existing_file Scraper.VerboseFile st)) as [u | e].
  - rewrite H. cbn [Scraper.read_file].
    destruct (Scraper.verbose_file (Scraper.disk st)) eqn:E; cbn; auto.
  - destruct H as (text & content & R & C & -> & ->). cbn.
    repeat split. now exists text, content.
Qed.

Lemma simple_backup_state {web : Scraper.Web} (st : Scraper.State web) :
  Scraper.net (after_backup Scraper.SimpleFile st) = Scraper.net st
  /\ same_data_files (Scraper.disk st)
       (Scraper.disk (after_backup Scraper.SimpleFile st))
  /\ Scraper.verbose_backup (Scraper.disk (after_backup Scraper.SimpleFile st))
     = Scraper.verbose_backup (Scraper.disk st)
  /\ match fst (Scraper.backup_existing_file Scraper.SimpleFile st) with
     | inl _ =>
         Scraper.simple_backup (Scraper.disk (after_backup Scraper.SimpleFile st))
         = backup_after (Scraper.disk st) Scraper.SimpleFile
     | inr e =>
         exists text content,
           Scraper.simple_file (Scraper.disk st) <> None
           /\ Scraper.copy2_fault web Scraper.SimpleFile (Scraper.net st)
              = Some (text, content)
           /\ e = Scraper.OtherError text
           /\ Scraper.simple_backup
                (Scraper.disk (after_backup Scraper.SimpleFile st))
              = content
     end.
Proof.
  destruct (backup_existing_file_state Scraper.SimpleFile st) as [N H].
  split; [exact N|]. unfold same_data_files, backup_after.
  destruct (fst (Scraper.backup_existing_file Scraper.SimpleFile st)) as [u | e].
  - rewrite H. cbn [Scraper.read_file].
    destruct (Scraper.simple_file (Scraper.disk st)) eqn:E; cbn; auto.
  - destruct H as (text & content & R & C & -> & ->). cbn.
    repeat split. now exists text, content.
Qed.

(** The state in which the scrape starts, when both backups went well. *)
Lemma before_scrape_state {web : Scraper.Web} (st : Scraper.State web) :
  Scraper.net (before_scrape st) = Scraper.net st
  /\ same_data_files (Scraper.disk st) (Scraper.disk (before_scrape st))
  /\ (forall u u',
        fst (Scraper.backup_existing_file Scraper.VerboseFile (after_banner st))
        = inl u ->
        fst (Scraper.backup_existing_file Scraper.SimpleFile
               (after_backup Scraper.VerboseFile (after_banner st)))
        = inl u' ->
        backups_made (Scraper.disk st) (Scraper.disk (before_scrape st))).
Proof.
  destruct (verbose_backup_state (after_banner st)) as (N1 & [V1 S1] & B1 & C1).
  destruct (simple_backup_state (after_backup Scraper.VerboseFile (after_banner st)))
    as (N2 & [V2 S2] & B2 & C2).
  change (Scraper.disk (before_scrape st))
    with (Scraper.disk
            (after_backup Scraper.SimpleFile
               (after_backup Scraper.VerboseFile (after_banner st)))).
  change (Scraper.net (before_scrape st))
    with (Scraper.net
            (after_backup Scraper.SimpleFile
               (after_backup Scraper.VerboseFile (after_banner st)))).
  change (Scraper.disk (after_banner st)) with (Scraper.disk st) in *.
  change (Scraper.net (after_banner st)) with (Scraper.net st) in *.
  split; [congruence|]. split; [split; congruence|].
  intros u u' E1 E2. rewrite E1 in C1. rewrite E2 in C2.
  split; [congruence|]. rewrite C2. unfold backup_after.
  cbn [Scraper.read_file]. now rewrite S1, B1.
Qed.

(** X15: when the scraper finishes normally, the verbose file holds the
    scraped dictionary sorted by key, the brief file the same records
    without Details, and each backup holds what its data file held before
    the run, or what the backup held when there was no data file. *)
Theorem scraper_main_writes_both_files_and_backups
    (web : Scraper.Web) (st : Scraper.State web) :
  fst (Scraper.main st) = inl tt ->
  exists all_data,
    fst (Scraper.scrape_all_fields (before_scrape st)) = inl all_data
    /\ Scraper.net (before_scrape st) = Scraper.net st
    /\ Scraper.verbose_file (Scraper.disk (snd (Scraper.main st)))
       = Some (Scraper.sorted_data all_data)
    /\ Scraper.simple_file (Scraper.disk (snd (Scraper.main st)))
       = Some (Scraper.simple_data (Scraper.sorted_data all_data))
    /\ Scraper.verbose_backup (Scraper.disk (snd (Scraper.main st)))
       = backup_after (Scraper.disk st) Scraper.VerboseFile
    /\ Scraper.simple_backup (Scraper.disk (snd (Scraper.main st)))
       = backup_after (Scraper.disk st) Scraper.SimpleFile.
Proof.
  intros Hok. pose proof (scraper_main_run st) as R.
  destruct (before_scrape_state st) as (Hn & _ & HB).
  pose proof (keeps_disk_scrape_all_fields (before_scrape st)) as K.
  change (Scraper.disk (after_scrape st) = Scraper.disk (before_scrape st)) in K.
  destruct (fst (Scraper.backup_existing_file Scraper.VerboseFile (after_banner st)))
    as [u1 | e1]; [|rewrite R in Hok; discriminate Hok].
  destruct (fst (Scraper.backup_existing_file Scraper.SimpleFile
                   (after_backup Scraper.VerboseFile (after_banner st))))
    as [u2 | e2]; [|rewrite R in Hok; discriminate Hok].
  destruct (HB u1 u2 eq_refl eq_refl) as [Hvb Hsb].
  destruct (fst (Scraper.scrape_all_fields (before_scrape st))) as [d | e3];
    [|rewrite R in Hok; discriminate Hok].
  destruct (Scraper.dump_fault web Scraper.VerboseFile (Scraper.net (after_scrape st)))
    as [[text content]|];
    [destruct R as [R _]; rewrite R in Hok; discriminate Hok|].
  destruct (Scraper.dump_fault web Scraper.SimpleFile (Scraper.net (after_scrape st)))
    as [[text content]|];
    [destruct R as [R _]; rewrite R in Hok; discriminate Hok|].
  destruct R as [_ R]. exists d. rewrite R, K.
  split; [reflexivity|]. split; [exact Hn|]. split; [reflexivity|].
  split; [reflexivity|]. split; [exact Hvb | exact Hsb].
Qed.

(** X16: when the scraper stops on an exception, it is the exception of one
    of five steps, and the disk shows which.  The copy of the verbose file
    to its backup raised: the data files and the other backup are as
    before.  The copy of the brief file raised: the data files are as
    before and the verbose backup is made.  The scrape raised: the data
    files are as before and both backups are made.  The write of the
    verbose file raised: the brief file is as before and both backups are
    made.  The write of the brief file raised: the verbose file holds the
    sorted scraped dictionary and both backups are made.  So a data file
    differs from what it held before the run only when its own write was
    reached. *)
Theorem scraper_main_abort_leaves_unwritten_files
    (web : Scraper.Web) (st : Scraper.State web) (e : Scraper.Exc) :
  fst (Scraper.main st) = inr e ->
  let start := Scraper.disk st in
  let final := Scraper.disk (snd (Scraper.main st)) in
  (exists text content,
     Scraper.verbose_file start <> None
     /\ Scraper.copy2_fault web Scraper.VerboseFile (Scraper.net st)
        = Some (text, content)
     /\ e = Scraper.OtherError text
     /\ same_data_files start final
     /\ Scraper.verbose_backup final = content
     /\ Scraper.simple_backup final = Scraper.simple_backup start)
  \/ (exists text content,
        Scraper.simple_file start <> None
        /\ Scraper.copy2_fault web Scraper.SimpleFile (Scraper.net st)
           = Some (text, content)
        /\ e = Scraper.OtherError text
        /\ same_data_files start final
        /\ Scraper.verbose_backup final
           = backup_after start Scraper.VerboseFile
        /\ Scraper.simple_backup final = content)
  \/ (fst (Scraper.scrape_all_fields (before_scrape st)) = inr e
      /\ same_data_files start final
      /\ backups_made start final)
  \/ (exists all_data text content,
        fst (Scraper.scrape_all_fields (before_scrape st)) = inl all_data
        /\ Scraper.dump_fault web Scraper.VerboseFile
             (Scraper.net (after_scrape st))
           = Some (text, content)
        /\ e = Scraper.OtherError text
        /\ Scraper.verbose_file final = content
        /\ Scraper.simple_file final = Scraper.simple_file start
        /\ backups_made start final)
  \/ (exists all_data text content,
        fst (Scraper.scrape_all_fields (before_scrape st)) = inl all_data
        /\ Scraper.dump_fault web Scraper.VerboseFile
             (Scraper.net (after_scrape st))
           = None
        /\ Scraper.dump_fault web Scraper.SimpleFile
             (Scraper.net (after_scrape st))
           = Some (text, content)
        /\ e = Scraper.OtherError text
        /\ Scraper.verbose_file final = Some (Scraper.sorted_data all_data)
        /\ Scraper.simple_file final = content
        /\ backups_made start final).
Proof.
  intros Hfail start final. subst start final.
  pose proof (scraper_main_run st) as R.
  destruct (before_scrape_state st) as (_ & [HV HS] & HB).
  destruct (verbose_backup_state (after_banner st)) as (N1 & [V1 S1] & B1 & C1).
  destruct (simple_backup_state (after_backup Scraper.VerboseFile (after_banner st)))
    as (N2 & [V2 S2] & B2 & C2).
  change (Scraper.disk (after_banner st)) with (Scraper.disk st) in *.
  change (Scraper.net (after_banner st)) with (Scraper.net st) in *.
  pose proof (keeps_disk_scrape_all_fields (before_scrape st)) as K.
  change (Scraper.disk (after_scrape st) = Scraper.disk (before_scrape st)) in K.
  destruct (fst (Scraper.backup_existing_file Scraper.VerboseFile (after_banner st)))
    as [u1 | e1].
  2:{ left. rewrite R in *. cbn [fst snd] in *. injection Hfail as ->.
      destruct C1 as (text & content & F & C & -> & L).
      exists text, content. unfold same_data_files. auto 10. }
  right.
  destruct (fst (Scraper.backup_existing_file Scraper.SimpleFile
                   (after_backup Scraper.VerboseFile (after_banner st))))
    as [u2 | e2].
  2:{ left. rewrite R in *. cbn [fst snd] in *. injection Hfail as ->.
      destruct C2 as (text & content & F & C & -> & L).
      exists text, content. unfold same_data_files.
      rewrite V2, S2, B2, V1, S1, C1, <- N1, <- S1. auto 10. }
  right. specialize (HB u1 u2 eq_refl eq_refl).
  destruct (fst (Scraper.scrape_all_fields (before_scrape st))) as [d | e3].
  2:{ left. rewrite R in *. cbn [fst snd] in *. injection Hfail as ->.
      rewrite K. unfold same_data_files. auto. }
  right.
  destruct (Scraper.dump_fault web Scraper.VerboseFile (Scraper.net (after_scrape st)))
    as [[text content]|].
  { left. destruct R as [R1 R2]. rewrite R1 in Hfail. injection Hfail as <-.
    exists d, text, content. rewrite R2, K. cbn. auto 10. }
  right.
  destruct (Scraper.dump_fault web Scraper.SimpleFile (Scraper.net (after_scrape st)))
    as [[text content]|].
  - destruct R as [R1 R2]. rewrite R1 in Hfail. injection Hfail as <-.
    exists d, text, content. rewrite R2, K. cbn. auto 10.
  - destruct R as [R1 _]. rewrite R1 in Hfail. discriminate Hfail.
Qed.

Lemma scraper_main_on_web_without_concise_pages :
  Scraper.simple_backup
    (Scraper.disk
       (snd (Scraper.main
               (start_state web_without_concise_pages tt disk_with_old_files))))
  = Some (map simple_item isbn_dataset).
Proof.
  destruct (scraper_main_writes_both_files_and_backups web_without_concise_pages
              (start_state web_without_concise_pages tt disk_with_old_files))
    as (d & _ & _ & _ & _ & _ & H).
  - vm_compute. reflexivity.
  - exact H.
Defined.

Lemma scraper_main_on_web_timing_out :
  Scraper.verbose_file
    (Scraper.disk
       (snd (Scraper.main (start_state web_timing_out tt disk_with_old_files))))
  = Some isbn_dataset.
Proof.
  destruct (scraper_main_abort_leaves_unwritten_files web_timing_out
              (start_state web_timing_out tt disk_with_old_files)
              (Scraper.OtherError "Read timed out."))
    as [(text & content & _ & C & _)
       | [(text & content & _ & C & _)
         | [(_ & [H _] & _)
           | [(d & text & content & _ & C & _)
             | (d & text & content & _ & _ & C & _)]]]].
  - vm_compute. reflexivity.
  - discriminate C.
  - discriminate C.
  - exact H.
  - discriminate C.
  - discriminate C.
Defined.

(** On a disk that fills up while the brief file is written, the scraper
    stops on that error with the verbose file rewritten, the brief file as
    the failed write left it, and the backups made. *)
Example scraper_main_on_full_disk :
  let run :=
    Scraper.main (start_state web_with_full_disk tt disk_with_old_files) in
  fst run = inr (Scraper.OtherError "[Errno 28] No space left on device")
  /\ option_map (map fst) (Scraper.verbose_file (Scraper.disk (snd run)))
     = Some [ "020"; "222"; "2226"; "2228"; "222a"; "222b"; "760"; "762"; "765";
              "767"; "770"; "772"; "773"; "774"; "775"; "776"; "777"; "780";
              "785"; "786"; "787"; "788" ]
  /\ Scraper.simple_file (Scraper.disk (snd run)) = Some []
  /\ Scraper.verbose_backup (Scraper.disk (snd run)) = Some isbn_dataset
  /\ Scraper.simple_backup (Scraper.disk (snd run))
     = Some (map simple_item isbn_dataset).
Proof. vm_compute. repeat split; reflexivity. Qed.
